(** * FDC demo dapp: the attestation workflow, embedded and verified

    A shallow embedding of the TypeScript sources of the Flare Data Connector
    demo application:

    - [toHex], [truncateAddress] and [truncateString] of [@/lib/utils]
      (kept in [src/lib/publicClient.ts]);
    - [src/lib/fdcUtils.ts]: [sleep], [postRequestToDALayer],
      [retrieveDataAndProof], [retrieveDataAndProofWithRetry],
      [calculateRoundId], [getFdcRequestFee], [prepareAttestationRequestBase]
      and the two functions built on it, [verifyPayment],
      [verifyReferencedPaymentNonexistence], [submitAttestationRequest];
    - the [Fdc] page component: the schema of the form, [updateStepStatus],
      [prepareRequest], [executeFdcWorkflow],
      [submitAttestationRequestWithWagmi], [continueWorkflowAfterSubmission],
      its two transaction effects and [toggleStepExpansion];
    - [src/lib/fdcContracts.ts] with the hook [useFdcContracts], and
      [src/lib/clipboard.ts].

    JavaScript strings are modelled as [string] (one code unit per character,
    codes 0..255), JavaScript values as the inductive [JSValue] (numbers are
    integers), an awaited promise by the result type [Res]: returned, thrown,
    or not settled (an outside call that never answers, or a polling loop
    still running when its fuel is spent).

    Every interaction with the outside (timers, HTTP requests, contract reads
    and writes, the receipt of a transaction) is recorded as an [Event] and
    answered by a [World], which is arbitrary: the statements hold for every
    behaviour of the verifier, the Data Availability Layer, the wallet and the
    chain.  Library functions live in the monad [L], which sees events only;
    the functions of the page live in [M], which adds the [useState] cells of
    the page.  Console output is not modelled.

    The first part of the file holds the definitions, the second part the
    properties. *)

From Stdlib Require Import List Bool Arith ZArith NArith Lia.
From Stdlib Require Import Strings.String Strings.Ascii Numbers.DecimalString.
Import ListNotations.

Local Open Scope string_scope.
Local Open Scope list_scope.

(* ================================================================== *)
(** ** JavaScript strings *)

Module JSString.

(** [s.charCodeAt(i)] for the characters of [s], in order. *)
Definition charCodeAt (c : ascii) : N := N_of_ascii c.

Definition hexDigit (d : N) : ascii :=
  nth (N.to_nat d) (list_ascii_of_string "0123456789abcdef") "0"%char.

(** [Number.prototype.toString(16)] on a non-negative integer: the digits
    are produced from the least significant one, no leading zero. *)
Fixpoint toStringRadix16 (fuel : nat) (n : N) (acc : string) : string :=
  let acc' := String (hexDigit (n mod 16)) acc in
  match fuel with
  | O => acc'
  | S fuel' =>
      if (n / 16 =? 0)%N then acc' else toStringRadix16 fuel' (n / 16) acc'
  end.

Definition toString16 (n : N) : string :=
  toStringRadix16 (N.to_nat (N.log2 n)) n "".

(** [count] characters taken cyclically from [fill], starting at [rest]. *)
Fixpoint cycle (count : nat) (fill rest : string) : string :=
  match count with
  | O => ""
  | S count' =>
      match rest with
      | String c r => String c (cycle count' fill r)
      | EmptyString =>
          match fill with
          | String c r => String c (cycle count' fill r)
          | EmptyString => ""
          end
      end
  end.

(** [String.prototype.padEnd(targetLength, padString)]. *)
Definition padEnd (s : string) (targetLength : nat) (padString : string)
  : string :=
  if (targetLength <=? length s)%nat then s
  else if (padString =? "")%string then s
  else s ++ cycle (targetLength - length s) padString padString.

Definition isWhiteSpace (c : ascii) : bool :=
  let n := nat_of_ascii c in
  (((9 <=? n) && (n <=? 13)) || (n =? 32) || (n =? 160))%nat.

Fixpoint trimStart (s : string) : string :=
  match s with
  | String c r => if isWhiteSpace c then trimStart r else s
  | EmptyString => ""
  end.

Definition rev (s : string) : string :=
  string_of_list_ascii (List.rev (list_ascii_of_string s)).

(** [String.prototype.trim]. *)
Definition trim (s : string) : string := rev (trimStart (rev (trimStart s))).

(** The value a string of hexadecimal digits denotes. *)
Definition digitValue (c : ascii) : N :=
  let n := N_of_ascii c in
  if ((48 <=? n) && (n <=? 57))%N then n - 48
  else if ((97 <=? n) && (n <=? 102))%N then n - 87
  else 0.

Definition isHexDigit (c : ascii) : bool :=
  let n := N_of_ascii c in
  (((48 <=? n) && (n <=? 57)) || ((97 <=? n) && (n <=? 102)))%N.

Fixpoint hexValue (acc : N) (s : string) : N :=
  match s with
  | EmptyString => acc
  | String c r => hexValue (16 * acc + digitValue c) r
  end.

Fixpoint allHex (s : string) : bool :=
  match s with
  | EmptyString => true
  | String c r => isHexDigit c && allHex r
  end.

Fixpoint zeros (n : nat) : string :=
  match n with
  | O => ""
  | S n' => String "0"%char (zeros n')
  end.

(** Decimal rendering of an integer, as in a template literal. *)
Definition ofZ (z : Z) : string := NilZero.string_of_int (Z.to_int z).

Fixpoint startsWith (prefix s : string) : bool :=
  match prefix, s with
  | EmptyString, _ => true
  | String a p, String b r => Ascii.eqb a b && startsWith p r
  | String _ _, EmptyString => false
  end.

End JSString.

(* ================================================================== *)
(** ** [src/lib/utils.ts] *)

(** The hexadecimal codes of the characters of [data], concatenated: the
    value of [result] when the loop of [toHex] ends. *)
Fixpoint toHex_loop (data : string) (result : string) : string :=
  match data with
  | EmptyString => result
  | String c rest =>
      toHex_loop rest (result ++ JSString.toString16 (JSString.charCodeAt c))
  end.

Definition toHex (data : string) : string :=
  let result := toHex_loop data "" in
  "0x" ++ JSString.padEnd result 64 "0".

(** The concatenation the documentation of [toHex] speaks of. *)
Fixpoint hexCodes (data : string) : string :=
  match data with
  | EmptyString => ""
  | String c rest => JSString.toString16 (JSString.charCodeAt c) ++ hexCodes rest
  end.

Definition isAsciiString (data : string) : Prop :=
  Forall (fun c => (JSString.charCodeAt c < 128)%N) (list_ascii_of_string data).


(* ================================================================== *)
(** ** JavaScript values, errors and results *)

#[warnings="-register-all"]
Inductive JSValue : Type :=
| JUndefined
| JNull
| JBool (b : bool)
| JNumber (n : Z)
| JBigInt (n : Z)
| JString (s : string)
| JArray (items : list JSValue)
| JObject (fields : list (string * JSValue)).

Inductive ErrorKind := KError | KTypeError | KSyntaxError | KRangeError.

(** What a [throw] or a rejected promise carries: an [Error] object of some
    kind with its message, or any other value. *)
Inductive Thrown : Type :=
| ErrorObj (kind : ErrorKind) (message : string)
| NonError (v : JSValue).

Definition Error (message : string) : Thrown := ErrorObj KError message.

(** The outcome of awaiting a promise: fulfilled, rejected, or not settled
    (a polling loop that is still running when its fuel is spent, or an
    outside call that never answers). *)
Inductive Res (A : Type) : Type :=
| Ret (a : A)
| Throw (e : Thrown)
| Pending.

Arguments Ret {A} a.
Arguments Throw {A} e.
Arguments Pending {A}.

Class Monad (m : Type -> Type) : Type := {
  ret : forall {A}, A -> m A;
  bind : forall {A B}, m A -> (A -> m B) -> m B
}.

Notation "x <- c1 ;; c2" := (bind c1 (fun x => c2))
  (at level 61, c1 at next level, right associativity).
Notation "c1 ;;; c2" := (bind c1 (fun _ => c2))
  (at level 61, right associativity).

Definition bindRes {A B} (r : Res A) (k : A -> Res B) : Res B :=
  match r with
  | Ret a => k a
  | Throw e => Throw e
  | Pending => Pending
  end.

#[export] Instance Monad_Res : Monad Res :=
  {| ret := @Ret; bind := @bindRes |}.

Module JS.

(** [ToBoolean]. *)
Definition truthy (v : JSValue) : bool :=
  match v with
  | JUndefined | JNull => false
  | JBool b => b
  | JNumber n | JBigInt n => negb (n =? 0)%Z
  | JString s => negb (s =? "")%string
  | JArray _ | JObject _ => true
  end.

Definition isArray (v : JSValue) : bool :=
  match v with JArray _ => true | _ => false end.

Fixpoint lookup (key : string) (fields : list (string * JSValue))
  : option JSValue :=
  match fields with
  | [] => None
  | (k, v) :: rest => if (k =? key)%string then Some v else lookup key rest
  end.

(** [v.key]: a [TypeError] on [undefined] and [null], the own property of
    an object, the length of a string or an array, [undefined] otherwise. *)
Definition getProp (v : JSValue) (key : string) : Res JSValue :=
  match v with
  | JUndefined =>
      Throw (ErrorObj KTypeError
               ("Cannot read properties of undefined (reading '" ++ key ++ "')"))
  | JNull =>
      Throw (ErrorObj KTypeError
               ("Cannot read properties of null (reading '" ++ key ++ "')"))
  | JObject fields =>
      match lookup key fields with
      | Some x => Ret x
      | None => Ret JUndefined
      end
  | JString s =>
      if (key =? "length")%string then Ret (JNumber (Z.of_nat (length s)))
      else Ret JUndefined
  | JArray items =>
      if (key =? "length")%string
      then Ret (JNumber (Z.of_nat (List.length items)))
      else Ret JUndefined
  | JBool _ | JNumber _ | JBigInt _ => Ret JUndefined
  end.

(** [{ ...obj, key: v }] on the fields of an object. *)
Fixpoint setField (key : string) (v : JSValue)
  (fields : list (string * JSValue)) : list (string * JSValue) :=
  match fields with
  | [] => [(key, v)]
  | (k, x) :: rest =>
      if (k =? key)%string then (k, v) :: rest
      else (k, x) :: setField key v rest
  end.

(** The own enumerable properties a spread [{ ...v }] copies. *)
Definition spread (v : JSValue) : list (string * JSValue) :=
  match v with
  | JObject fields => fields
  | _ => []
  end.

Definition digitOf (radix : N) (c : ascii) : option N :=
  let n := N_of_ascii c in
  let d :=
    if ((48 <=? n) && (n <=? 57))%N then Some (n - 48)%N
    else if ((97 <=? n) && (n <=? 122))%N then Some (n - 87)%N
    else if ((65 <=? n) && (n <=? 90))%N then Some (n - 55)%N
    else None in
  match d with
  | Some x => if (x <? radix)%N then Some x else None
  | None => None
  end.

Fixpoint parseDigits (radix : N) (s : string) (acc : N) : option N :=
  match s with
  | EmptyString => Some acc
  | String c r =>
      match digitOf radix c with
      | Some d => parseDigits radix r (radix * acc + d)%N
      | None => None
      end
  end.

Definition parseNonEmpty (radix : N) (s : string) : option Z :=
  match s with
  | EmptyString => None
  | _ => option_map Z.of_N (parseDigits radix s 0%N)
  end.

(** [StringToBigInt]: white space is trimmed, the empty string is [0n], a
    [0x], [0o] or [0b] prefix selects the radix, a sign is allowed before
    decimal digits only. *)
Definition stringToBigInt (s : string) : option Z :=
  match JSString.trim s with
  | EmptyString => Some 0%Z
  | String "0" (String "x" r) | String "0" (String "X" r) => parseNonEmpty 16 r
  | String "0" (String "o" r) | String "0" (String "O" r) => parseNonEmpty 8 r
  | String "0" (String "b" r) | String "0" (String "B" r) => parseNonEmpty 2 r
  | String "-" r => option_map Z.opp (parseNonEmpty 10 r)
  | String "+" r => parseNonEmpty 10 r
  | t => parseNonEmpty 10 t
  end.

(** [String(v)]: an array is the texts of its elements joined by commas,
    with nothing for [undefined] and [null]; an object without a [toString]
    of its own, as [JSON.parse] gives, is '[object Object]'. *)
Fixpoint toText (v : JSValue) : string :=
  match v with
  | JUndefined => "undefined"
  | JNull => "null"
  | JBool b => if b then "true" else "false"
  | JNumber n | JBigInt n => JSString.ofZ n
  | JString s => s
  | JArray items =>
      (fix join (l : list JSValue) : string :=
         match l with
         | [] => ""
         | x :: rest =>
             (match x with
              | JUndefined | JNull => ""
              | _ => toText x
              end
              ++ match rest with
                 | [] => ""
                 | _ :: _ => "," ++ join rest
                 end)%string
         end) items
  | JObject _ => "[object Object]"
  end.

Definition convertText (s : string) : Res Z :=
  match stringToBigInt s with
  | Some z => Ret z
  | None =>
      Throw (ErrorObj KSyntaxError ("Cannot convert " ++ s ++ " to a BigInt"))
  end.

(** [BigInt(v)].  Numbers of this model are integers.  An array or an
    object is converted through its text, as [ToPrimitive] does. *)
Definition BigInt (v : JSValue) : Res Z :=
  match v with
  | JUndefined =>
      Throw (ErrorObj KTypeError "Cannot convert undefined to a BigInt")
  | JNull => Throw (ErrorObj KTypeError "Cannot convert null to a BigInt")
  | JBool b => Ret (if b then 1 else 0)%Z
  | JNumber n | JBigInt n => Ret n
  | JString s => convertText s
  | JArray _ | JObject _ => convertText (toText v)
  end.

(** [Number(n)] of a BigInt [n]: [n] itself when it has at most 53
    significant bits, and otherwise the nearest number with 53 significant
    bits, the even one of two that are equally near.  ([Number] gives
    [Infinity] from 2^1024 on; the values read from the chain are words of
    at most 256 bits.) *)
Definition numberOfBigInt (n : Z) : Z :=
  let magnitude := Z.abs n in
  let bits := (Z.log2 magnitude + 1)%Z in
  if (bits <=? 53)%Z then n
  else
    let shift := (bits - 53)%Z in
    let kept := Z.shiftr magnitude shift in
    let dropped := (magnitude - Z.shiftl kept shift)%Z in
    let half := Z.shiftl 1 (shift - 1) in
    let rounded :=
      if ((half <? dropped) || ((dropped =? half) && Z.odd kept))%Z
      then (kept + 1)%Z else kept in
    (Z.sgn n * Z.shiftl rounded shift)%Z.

(** [a / b] on BigInts: truncating, a [RangeError] on a zero divisor. *)
Definition bigIntDiv (a b : Z) : Res Z :=
  if (b =? 0)%Z then Throw (ErrorObj KRangeError "Division by zero")
  else Ret (Z.quot a b).

(** [error instanceof Error ? error.message : fallback]. *)
Definition messageOr (e : Thrown) (fallback : string) : string :=
  match e with
  | ErrorObj _ message => message
  | NonError _ => fallback
  end.

(** [if (error)] on a caught value: an [Error] is an object. *)
Definition thrownTruthy (e : Thrown) : bool :=
  match e with
  | ErrorObj _ _ => true
  | NonError v => truthy v
  end.

(** [error.message] of a caught value that is truthy. *)
Definition messageOf (e : Thrown) : JSValue :=
  match e with
  | ErrorObj _ message => JString message
  | NonError v =>
      match getProp v "message" with
      | Ret x => x
      | Throw _ | Pending => JUndefined
      end
  end.

End JS.

(* ================================================================== *)
(** ** The outside world and its events *)

Inductive Abi :=
| iFdcHubAbi
| iFdcRequestFeeConfigurationsAbi
| iFlareSystemsManagerAbi
| iPaymentVerificationAbi
| iReferencedPaymentNonexistenceVerificationAbi.

(** The viem clients of the program: the shared [publicClient] of
    [src/lib/publicClient.ts], and the two clients of the page. *)
Inductive Client := sharedPublicClient | wagmiPublicClient | fallbackPublicClient.

Record FetchRequest := {
  req_url : string;
  req_method : string;
  req_headers : list (string * string);
  req_body : JSValue   (* the value handed to [JSON.stringify] *)
}.

Record Response := {
  status : Z;
  statusText : string;
  resp_headers : list (string * string);
  json : Res JSValue   (* what [response.json()] settles to *)
}.

Definition ok (r : Response) : bool := ((200 <=? status r) && (status r <=? 299))%Z.

Record ContractCall := {
  call_address : string;
  call_abi : Abi;
  functionName : string;
  call_args : list JSValue
}.

Record WriteCall := {
  write_address : string;
  write_args : list JSValue;
  write_value : JSValue
}.

Record Block := { timestamp : Z }.
Record Receipt := { blockNumber : Z }.

Inductive StepStatus := pending | in_progress | completed | error.

Inductive Event : Type :=
| EvSleep (ms : Z)
| EvFetch (request : FetchRequest)
| EvGetBlock (client : Client) (number : Z)
| EvReadContract (client : Client) (call : ContractCall)
| EvWriteContract (call : WriteCall)
| EvWaitReceipt (hash : JSValue)
| EvStep (stepId : string) (st : StepStatus).

(** The answers of the outside, each indexed by the number of events that
    happened before the question: any verifier, Data Availability Layer,
    chain and wallet is an inhabitant. *)
Record World := {
  w_fetch : nat -> FetchRequest -> Res Response;
  w_getBlock : nat -> Client -> Z -> Res Block;
  w_readContract : nat -> Client -> ContractCall -> Res JSValue;
  w_writeContract : nat -> WriteCall -> Res JSValue;
  w_receipt : nat -> JSValue -> option Receipt
}.

(* ================================================================== *)
(** ** The monad of the library functions

    A computation is given the number of events so far and yields its
    outcome with the events it caused, in order. *)

Definition L (A : Type) : Type := nat -> Res A * list Event.

Definition retL {A} (a : A) : L A := fun _ => (Ret a, []).

Definition bindL {A B} (m : L A) (k : A -> L B) : L B :=
  fun t =>
    match m t with
    | (Ret a, evs) =>
        let (r, evs') := k a (t + List.length evs) in (r, evs ++ evs')
    | (Throw e, evs) => (Throw e, evs)
    | (Pending, evs) => (Pending, evs)
    end.

#[export] Instance Monad_L : Monad L := {| ret := @retL; bind := @bindL |}.

Definition throwL {A} (e : Thrown) : L A := fun _ => (Throw e, []).

Definition pendingL {A} : L A := fun _ => (Pending, []).

(** [try { m } catch (e) { handler e }]. *)
Definition tryCatchL {A} (m : L A) (handler : Thrown -> L A) : L A :=
  fun t =>
    match m t with
    | (Throw e, evs) =>
        let (r, evs') := handler e (t + List.length evs) in (r, evs ++ evs')
    | other => other
    end.

Definition liftRes {A} (r : Res A) : L A := fun _ => (r, []).

(** One question to the outside. *)
Definition ask {A} (ev : Event) (answer : nat -> Res A) : L A :=
  fun t => (answer t, [ev]).


(* ================================================================== *)
(** ** [src/lib/fdcContracts.ts]: the contract addresses *)

Record FdcContractAddresses := {
  fdcHub : string;
  fdcRequestFeeConfigurations : string;
  flareSystemsManager : string;
  fdcVerification : string
}.

(** [!fdcAddresses?.field]: the addresses are missing or the field is the
    empty string. *)
Definition addressMissing (fdcAddresses : option FdcContractAddresses)
  (field : FdcContractAddresses -> string) : bool :=
  match fdcAddresses with
  | None => true
  | Some a => (field a =? "")%string
  end.

Definition addressOf (fdcAddresses : option FdcContractAddresses)
  (field : FdcContractAddresses -> string) : string :=
  match fdcAddresses with
  | None => ""
  | Some a => field a
  end.

(* ================================================================== *)
(** ** [src/lib/fdcUtils.ts] *)

Module FDC_CONSTANTS.
Definition VERIFIER_URL_TESTNET := "https://fdc-verifiers-testnet.flare.network/".
Definition VERIFIER_API_KEY_TESTNET := "00000000-0000-0000-0000-000000000000".
Definition DA_LAYER_API_KEY := "00000000-0000-0000-0000-000000000000".
Definition DA_LAYER_API_URL := "/api/proof-request".
Definition URL_TYPE_BASE := "xrp".
Definition SOURCE_ID_BASE := "testXRP".
End FDC_CONSTANTS.

(** [proof.response && proof.proof && Array.isArray(proof.proof)], as a
    condition. *)
Definition hasProof (proof : JSValue) : Res bool :=
  r <- JS.getProp proof "response" ;;
  if JS.truthy r then
    q <- JS.getProp proof "proof" ;;
    if JS.truthy q then
      q' <- JS.getProp proof "proof" ;;
      ret (JS.isArray q')
    else ret false
  else ret false.

(** [!proof.response || !proof.proof || !Array.isArray(proof.proof)]. *)
Definition lacksProof (proof : JSValue) : Res bool :=
  r <- JS.getProp proof "response" ;;
  if negb (JS.truthy r) then ret true
  else
    q <- JS.getProp proof "proof" ;;
    if negb (JS.truthy q) then ret true
    else
      q' <- JS.getProp proof "proof" ;;
      ret (negb (JS.isArray q')).

Section FdcUtils.

Variable w : World.

Definition sleep (ms : Z) : L unit := fun _ => (Ret tt, [EvSleep ms]).

Definition fetch (request : FetchRequest) : L Response :=
  ask (EvFetch request) (fun t => w_fetch w t request).

Definition readContract (client : Client) (call : ContractCall) : L JSValue :=
  ask (EvReadContract client call) (fun t => w_readContract w t client call).

Definition getBlock (client : Client) (number : Z) : L Block :=
  ask (EvGetBlock client number) (fun t => w_getBlock w t client number).

Definition daLayerRequest (url : string) (request : JSValue)
  (apiKey : string) : FetchRequest :=
  {| req_url := url;
     req_method := "POST";
     req_headers := [("accept", "application/json");
                     ("x-api-key", apiKey);
                     ("Content-Type", "application/json")];
     req_body := request |}.

Definition postRequestToDALayer (url : string) (request : JSValue)
  (apiKey : string) : L JSValue :=
  response <- fetch (daLayerRequest url request apiKey) ;;
  if negb (ok response) then
    throwL (Error ("DA Layer request failed: "
                   ++ JSString.ofZ (status response) ++ " "
                   ++ statusText response))
  else liftRes (json response).

(** The [while] loop of [retrieveDataAndProof]; [fuel] bounds the number of
    its iterations. *)
Fixpoint pollDALayer (fuel : nat) (url : string) (request : JSValue)
  (apiKey : string) (proof : JSValue) {struct fuel} : L JSValue :=
  again <- liftRes (lacksProof proof) ;;
  if again : bool then
    match fuel with
    | O => pendingL
    | S fuel' =>
        sleep 10000 ;;;
        proof' <- postRequestToDALayer url request apiKey ;;
        ready <- liftRes (hasProof proof') ;;
        if ready : bool then ret proof'
        else pollDALayer fuel' url request apiKey proof'
    end
  else ret proof.

Definition proofRequest (roundId : Z) (abiEncodedRequest : JSValue) : JSValue :=
  JObject [("votingRoundId", JNumber roundId);
           ("requestBytes", abiEncodedRequest)].

Definition retrieveDataAndProof (fuel : nat) (url : string)
  (abiEncodedRequest : JSValue) (roundId : Z) (apiKey : string) : L JSValue :=
  sleep 30000 ;;;
  let request := proofRequest roundId abiEncodedRequest in
  sleep 10000 ;;;
  proof <- postRequestToDALayer url request apiKey ;;
  ready <- liftRes (hasProof proof) ;;
  if ready : bool then ret proof
  else pollDALayer fuel url request apiKey proof.

Definition retrievePaymentDataAndProof := retrieveDataAndProof.

Definition retrieveReferencedPaymentNonexistenceDataAndProof :=
  retrieveDataAndProof.

(** The [for] loop of [retrieveDataAndProofWithRetry]: [remaining] is the
    number of values of [i] still below [attempts]. *)
Fixpoint retryLoop (remaining : nat) (attempts : Z) (fuel : nat) (url : string)
  (abiEncodedRequest : JSValue) (roundId : Z) (apiKey : string) : L JSValue :=
  match remaining with
  | O =>
      throwL (Error ("Failed to retrieve data and proofs after "
                     ++ JSString.ofZ attempts ++ " attempts"))
  | S remaining' =>
      tryCatchL
        (retrieveDataAndProof fuel url abiEncodedRequest roundId apiKey)
        (fun _ =>
           sleep 20000 ;;;
           retryLoop remaining' attempts fuel url abiEncodedRequest roundId apiKey)
  end.

Definition retrieveDataAndProofWithRetry (fuel : nat) (url : string)
  (abiEncodedRequest : JSValue) (roundId : Z) (apiKey : string)
  (attempts : option Z) : L JSValue :=
  let attempts := match attempts with Some n => n | None => 10%Z end in
  retryLoop (Z.to_nat attempts) attempts fuel url abiEncodedRequest roundId apiKey.

Definition retrievePaymentDataAndProofWithRetry (fuel : nat) (url : string)
  (abiEncodedRequest : JSValue) (roundId : Z) (apiKey : string)
  (attempts : option Z) : L JSValue :=
  let attempts := match attempts with Some n => n | None => 10%Z end in
  retrieveDataAndProofWithRetry fuel url abiEncodedRequest roundId apiKey
    (Some attempts).

Definition systemsManagerCall (fdcAddresses : option FdcContractAddresses)
  (name : string) : ContractCall :=
  {| call_address := addressOf fdcAddresses flareSystemsManager;
     call_abi := iFlareSystemsManagerAbi;
     functionName := name;
     call_args := [] |}.

(** [calculateRoundId]; the result is a number, [Number] of the quotient. *)
Definition calculateRoundId (transaction : Receipt)
  (fdcAddresses : option FdcContractAddresses) : L Z :=
  if addressMissing fdcAddresses flareSystemsManager then
    throwL (Error "Flare Systems Manager address not loaded")
  else
    block <- getBlock sharedPublicClient (blockNumber transaction) ;;
    let blockTimestamp := timestamp block in
    first <- readContract sharedPublicClient
               (systemsManagerCall fdcAddresses "firstVotingRoundStartTs") ;;
    firsVotingRoundStartTs <- liftRes (JS.BigInt first) ;;
    duration <- readContract sharedPublicClient
               (systemsManagerCall fdcAddresses "votingEpochDurationSeconds") ;;
    votingEpochDurationSeconds <- liftRes (JS.BigInt duration) ;;
    quotient <- liftRes (JS.bigIntDiv (blockTimestamp - firsVotingRoundStartTs)
                           votingEpochDurationSeconds) ;;
    let roundId := JS.numberOfBigInt quotient in
    _ <- readContract sharedPublicClient
           (systemsManagerCall fdcAddresses "getCurrentVotingEpochId") ;;
    ret roundId.

Definition getFdcRequestFee (abiEncodedRequest : JSValue)
  (fdcAddresses : option FdcContractAddresses) : L JSValue :=
  if addressMissing fdcAddresses fdcRequestFeeConfigurations then
    throwL (Error "FDC Request Fee Configurations address not loaded")
  else
    readContract sharedPublicClient
      {| call_address := addressOf fdcAddresses fdcRequestFeeConfigurations;
         call_abi := iFdcRequestFeeConfigurationsAbi;
         functionName := "getRequestFee";
         call_args := [abiEncodedRequest] |}.

Definition prepareFetch (url apiKey : string) (request : JSValue)
  : FetchRequest :=
  {| req_url := url;
     req_method := "POST";
     req_headers := [("X-API-KEY", apiKey);
                     ("Content-Type", "application/json")];
     req_body := request |}.

Definition prepareAttestationRequestBase (url apiKey : string)
  (attestationTypeBase sourceIdBase : string) (requestBody : JSValue)
  : L JSValue :=
  let attestationType := toHex attestationTypeBase in
  let sourceId := toHex sourceIdBase in
  let request := JObject [("attestationType", JString attestationType);
                          ("sourceId", JString sourceId);
                          ("requestBody", requestBody)] in
  response <- fetch (prepareFetch url apiKey request) ;;
  if negb (status response =? 200)%Z then
    throwL (Error ("Response status is not OK, status "
                   ++ JSString.ofZ (status response) ++ " "
                   ++ statusText response ++ String (ascii_of_nat 10) ""))
  else liftRes (json response).

Definition preparePaymentAttestationRequest (transactionId : string)
  (inUtxo utxo : option string) : L JSValue :=
  let inUtxo := match inUtxo with Some s => s | None => "0" end in
  let utxo := match utxo with Some s => s | None => "0" end in
  let requestBody := JObject [("transactionId", JString transactionId);
                              ("inUtxo", JString inUtxo);
                              ("utxo", JString utxo)] in
  let url := (FDC_CONSTANTS.VERIFIER_URL_TESTNET ++ "verifier/"
              ++ FDC_CONSTANTS.URL_TYPE_BASE ++ "/Payment/prepareRequest")%string in
  let apiKey := FDC_CONSTANTS.VERIFIER_API_KEY_TESTNET in
  prepareAttestationRequestBase url apiKey "Payment"
    FDC_CONSTANTS.SOURCE_ID_BASE requestBody.

Definition field (v : JSValue) (key : string) : L JSValue :=
  liftRes (JS.getProp v key).

Definition bigIntField (v : JSValue) (key : string) : L JSValue :=
  x <- field v key ;;
  n <- liftRes (JS.BigInt x) ;;
  ret (JBigInt n).

(** The argument of the [verifyPayment] contract call, its fields read and
    converted in the order of the object literal. *)
Definition paymentProofArgument (response proof : JSValue) : L JSValue :=
  attestationType <- field response "attestationType" ;;
  sourceId <- field response "sourceId" ;;
  votingRound <- bigIntField response "votingRound" ;;
  lowestUsedTimestamp <- bigIntField response "lowestUsedTimestamp" ;;
  requestBody <- field response "requestBody" ;;
  transactionId <- field requestBody "transactionId" ;;
  requestBody <- field response "requestBody" ;;
  inUtxo <- bigIntField requestBody "inUtxo" ;;
  requestBody <- field response "requestBody" ;;
  utxo <- bigIntField requestBody "utxo" ;;
  body <- field response "responseBody" ;;
  blockNumber <- bigIntField body "blockNumber" ;;
  body <- field response "responseBody" ;;
  blockTimestamp <- bigIntField body "blockTimestamp" ;;
  body <- field response "responseBody" ;;
  sourceAddressHash <- field body "sourceAddressHash" ;;
  body <- field response "responseBody" ;;
  sourceAddressesRoot <- field body "sourceAddressesRoot" ;;
  body <- field response "responseBody" ;;
  receivingAddressHash <- field body "receivingAddressHash" ;;
  body <- field response "responseBody" ;;
  intendedReceivingAddressHash <- field body "intendedReceivingAddressHash" ;;
  body <- field response "responseBody" ;;
  spentAmount <- bigIntField body "spentAmount" ;;
  body <- field response "responseBody" ;;
  intendedSpentAmount <- bigIntField body "intendedSpentAmount" ;;
  body <- field response "responseBody" ;;
  receivedAmount <- bigIntField body "receivedAmount" ;;
  body <- field response "responseBody" ;;
  intendedReceivedAmount <- bigIntField body "intendedReceivedAmount" ;;
  body <- field response "responseBody" ;;
  standardPaymentReference <- field body "standardPaymentReference" ;;
  body <- field response "responseBody" ;;
  oneToOne <- field body "oneToOne" ;;
  body <- field response "responseBody" ;;
  status <- field body "status" ;;
  ret (JObject
         [("merkleProof", proof);
          ("data", JObject
             [("attestationType", attestationType);
              ("sourceId", sourceId);
              ("votingRound", votingRound);
              ("lowestUsedTimestamp", lowestUsedTimestamp);
              ("requestBody", JObject
                 [("transactionId", transactionId);
                  ("inUtxo", inUtxo);
                  ("utxo", utxo)]);
              ("responseBody", JObject
                 [("blockNumber", blockNumber);
                  ("blockTimestamp", blockTimestamp);
                  ("sourceAddressHash", sourceAddressHash);
                  ("sourceAddressesRoot", sourceAddressesRoot);
                  ("receivingAddressHash", receivingAddressHash);
                  ("intendedReceivingAddressHash", intendedReceivingAddressHash);
                  ("spentAmount", spentAmount);
                  ("intendedSpentAmount", intendedSpentAmount);
                  ("receivedAmount", receivedAmount);
                  ("intendedReceivedAmount", intendedReceivedAmount);
                  ("standardPaymentReference", standardPaymentReference);
                  ("oneToOne", oneToOne);
                  ("status", status)])])]).

Definition verifyPaymentCall (fdcAddresses : option FdcContractAddresses)
  (argument : JSValue) : ContractCall :=
  {| call_address := addressOf fdcAddresses fdcVerification;
     call_abi := iPaymentVerificationAbi;
     functionName := "verifyPayment";
     call_args := [argument] |}.

(** The checks and conversions of [verifyPayment] that come before its
    contract call. *)
Definition proofDataArgument (proofData : JSValue) : L JSValue :=
  r <- field proofData "response" ;;
  incomplete <- (if negb (JS.truthy r) then ret true
                 else p <- field proofData "proof" ;; ret (negb (JS.truthy p))) ;;
  if incomplete : bool then throwL (Error "Proof data is incomplete")
  else
    response <- field proofData "response" ;;
    proof <- field proofData "proof" ;;
    paymentProofArgument response proof.

Definition verifyPayment (proofData : JSValue)
  (fdcAddresses : option FdcContractAddresses) : L JSValue :=
  if addressMissing fdcAddresses fdcVerification then
    throwL (Error "FDC Verification address not loaded")
  else
    argument <- proofDataArgument proofData ;;
    result <- readContract sharedPublicClient
                (verifyPaymentCall fdcAddresses argument) ;;
    ret result.

(** [submitAttestationRequest]: the write function it is handed is called
    without [await]. *)
Definition submitAttestationRequest (abiEncodedRequest : JSValue)
  (fdcAddresses : option FdcContractAddresses)
  (requestAttestation : WriteCall -> L unit) : L unit :=
  if addressMissing fdcAddresses fdcHub then
    throwL (Error "FDC Hub address not loaded")
  else
    requestFee <- getFdcRequestFee abiEncodedRequest fdcAddresses ;;
    requestAttestation {| write_address := addressOf fdcAddresses fdcHub;
                          write_args := [abiEncodedRequest];
                          write_value := requestFee |}.

End FdcUtils.


(* ================================================================== *)
(** ** The [Fdc] page component: its state *)

Record StepDetails := {
  whatHappens : string;
  technicalDetails : string;
  apiEndpoint : option string;
  requestBody : option JSValue;
  responseBody : option JSValue;
  curlCommand : option string
}.

(** [interface FdcStep]; a React node is kept as its text. *)
Record FdcStep := {
  id : string;
  title : string;
  description : string;
  step_status : StepStatus;
  step_data : option JSValue;
  step_error : option string;
  details : option StepDetails
}.

(** The [useState] cells of the component ([errorMessage] is the cell
    [error]), and the [data] and [error] of the wagmi write hook. *)
Record App := {
  steps : list FdcStep;
  isLoading : bool;
  errorMessage : option string;
  success : option string;
  currentAttestationData : option JSValue;
  currentAttestationStep : string;
  proofData : option JSValue;
  verificationResult : option JSValue;
  expandedSteps : list string;
  attestationHash : option JSValue;
  writeError : option Thrown
}.

Definition setSteps (x : list FdcStep) (a : App) : App :=
  {| steps := x;
     isLoading := isLoading a;
     errorMessage := errorMessage a;
     success := success a;
     currentAttestationData := currentAttestationData a;
     currentAttestationStep := currentAttestationStep a;
     proofData := proofData a;
     verificationResult := verificationResult a;
     expandedSteps := expandedSteps a;
     attestationHash := attestationHash a;
     writeError := writeError a |}.

Definition setIsLoading (x : bool) (a : App) : App :=
  {| steps := steps a;
     isLoading := x;
     errorMessage := errorMessage a;
     success := success a;
     currentAttestationData := currentAttestationData a;
     currentAttestationStep := currentAttestationStep a;
     proofData := proofData a;
     verificationResult := verificationResult a;
     expandedSteps := expandedSteps a;
     attestationHash := attestationHash a;
     writeError := writeError a |}.

Definition setErrorMessage (x : option string) (a : App) : App :=
  {| steps := steps a;
     isLoading := isLoading a;
     errorMessage := x;
     success := success a;
     currentAttestationData := currentAttestationData a;
     currentAttestationStep := currentAttestationStep a;
     proofData := proofData a;
     verificationResult := verificationResult a;
     expandedSteps := expandedSteps a;
     attestationHash := attestationHash a;
     writeError := writeError a |}.

Definition setSuccess (x : option string) (a : App) : App :=
  {| steps := steps a;
     isLoading := isLoading a;
     errorMessage := errorMessage a;
     success := x;
     currentAttestationData := currentAttestationData a;
     currentAttestationStep := currentAttestationStep a;
     proofData := proofData a;
     verificationResult := verificationResult a;
     expandedSteps := expandedSteps a;
     attestationHash := attestationHash a;
     writeError := writeError a |}.

Definition setCurrentAttestationData (x : option JSValue) (a : App) : App :=
  {| steps := steps a;
     isLoading := isLoading a;
     errorMessage := errorMessage a;
     success := success a;
     currentAttestationData := x;
     currentAttestationStep := currentAttestationStep a;
     proofData := proofData a;
     verificationResult := verificationResult a;
     expandedSteps := expandedSteps a;
     attestationHash := attestationHash a;
     writeError := writeError a |}.

Definition setCurrentAttestationStep (x : string) (a : App) : App :=
  {| steps := steps a;
     isLoading := isLoading a;
     errorMessage := errorMessage a;
     success := success a;
     currentAttestationData := currentAttestationData a;
     currentAttestationStep := x;
     proofData := proofData a;
     verificationResult := verificationResult a;
     expandedSteps := expandedSteps a;
     attestationHash := attestationHash a;
     writeError := writeError a |}.

Definition setProofData (x : option JSValue) (a : App) : App :=
  {| steps := steps a;
     isLoading := isLoading a;
     errorMessage := errorMessage a;
     success := success a;
     currentAttestationData := currentAttestationData a;
     currentAttestationStep := currentAttestationStep a;
     proofData := x;
     verificationResult := verificationResult a;
     expandedSteps := expandedSteps a;
     attestationHash := attestationHash a;
     writeError := writeError a |}.

Definition setVerificationResult (x : option JSValue) (a : App) : App :=
  {| steps := steps a;
     isLoading := isLoading a;
     errorMessage := errorMessage a;
     success := success a;
     currentAttestationData := currentAttestationData a;
     currentAttestationStep := currentAttestationStep a;
     proofData := proofData a;
     verificationResult := x;
     expandedSteps := expandedSteps a;
     attestationHash := attestationHash a;
     writeError := writeError a |}.

Definition setExpandedSteps (x : list string) (a : App) : App :=
  {| steps := steps a;
     isLoading := isLoading a;
     errorMessage := errorMessage a;
     success := success a;
     currentAttestationData := currentAttestationData a;
     currentAttestationStep := currentAttestationStep a;
     proofData := proofData a;
     verificationResult := verificationResult a;
     expandedSteps := x;
     attestationHash := attestationHash a;
     writeError := writeError a |}.

Definition setAttestationHash (x : option JSValue) (a : App) : App :=
  {| steps := steps a;
     isLoading := isLoading a;
     errorMessage := errorMessage a;
     success := success a;
     currentAttestationData := currentAttestationData a;
     currentAttestationStep := currentAttestationStep a;
     proofData := proofData a;
     verificationResult := verificationResult a;
     expandedSteps := expandedSteps a;
     attestationHash := x;
     writeError := writeError a |}.

Definition setWriteError (x : option Thrown) (a : App) : App :=
  {| steps := steps a;
     isLoading := isLoading a;
     errorMessage := errorMessage a;
     success := success a;
     currentAttestationData := currentAttestationData a;
     currentAttestationStep := currentAttestationStep a;
     proofData := proofData a;
     verificationResult := verificationResult a;
     expandedSteps := expandedSteps a;
     attestationHash := attestationHash a;
     writeError := x |}.

Definition dq : string := String (ascii_of_nat 34) "".
Definition nl : string := String (ascii_of_nat 10) "".

Definition prepareRequestCurl : string :=
  ("curl -X 'POST' \" ++ nl ++
   "  'https://fdc-verifiers-testnet.flare.network/verifier/xrp/Payment/prepareResponse' \" ++ nl ++
   "  -H 'accept: */*' \" ++ nl ++
   "  -H 'X-API-KEY: 00000000-0000-0000-0000-000000000000' \" ++ nl ++
   "  -H 'Content-Type: application/json' \" ++ nl ++
   "  -d '{" ++ nl ++
   "  " ++ dq ++ "attestationType" ++ dq ++ ": " ++ dq
     ++ "0x5061796d656e7400000000000000000000000000000000000000000000000000"
     ++ dq ++ "," ++ nl ++
   "  " ++ dq ++ "sourceId" ++ dq ++ ": " ++ dq
     ++ "0x7465737458525000000000000000000000000000000000000000000000000000"
     ++ dq ++ "," ++ nl ++
   "  " ++ dq ++ "requestBody" ++ dq ++ ": {" ++ nl ++
   "    " ++ dq ++ "transactionId" ++ dq ++ ": " ++ dq ++ "YOUR_TRANSACTION_ID"
     ++ dq ++ "," ++ nl ++
   "    " ++ dq ++ "inUtxo" ++ dq ++ ": " ++ dq ++ "0" ++ dq ++ "," ++ nl ++
   "    " ++ dq ++ "utxo" ++ dq ++ ": " ++ dq ++ "0" ++ dq ++ nl ++
   "  }" ++ nl ++
   "}'")%string.

Definition prepareProofCurl : string :=
  ("curl -X 'POST' \" ++ nl ++
   "  'https://ctn2-data-availability.flare.network/api/v1/fdc/proof-by-request-round' \" ++ nl ++
   "  -H 'accept: application/json' \" ++ nl ++
   "  -H 'x-api-key: 00000000-0000-0000-0000-000000000000' \" ++ nl ++
   "  -H 'Content-Type: application/json' \" ++ nl ++
   "  -d '{" ++ nl ++
   "  " ++ dq ++ "votingRoundId" ++ dq ++ ": ROUND_ID," ++ nl ++
   "  " ++ dq ++ "requestBytes" ++ dq ++ ": " ++ dq ++ "ABI_ENCODED_REQUEST"
     ++ dq ++ nl ++
   "}'")%string.

(** The initial value of the [steps] cell. *)
Definition initialSteps : list FdcStep :=
  [ {| id := "prepare-request";
       title := "1. Prepare Request";
       description := "Prepare the attestation request using the verifier API";
       step_status := pending;
       step_data := None;
       step_error := None;
       details := Some
         {| whatHappens := "We send your transaction ID to the Flare verifier server to create an ABI-encoded request that the FDC can understand.";
            technicalDetails := "The verifier validates the transaction ID format and creates a standardized request payload. This includes the attestation type (Payment), source ID (testXRP), and the transaction details.";
            apiEndpoint := Some "https://fdc-verifiers-testnet.flare.network/verifier/xrp/Payment/prepareResponse";
            requestBody := None;
            responseBody := None;
            curlCommand := Some prepareRequestCurl |} |};
    {| id := "submit-request";
       title := "2. Submit Request";
       description := "Submit the attestation request to the FdcHub contract";
       step_status := pending;
       step_data := None;
       step_error := None;
       details := Some
         {| whatHappens := "The ABI-encoded request is submitted to the FdcHub smart contract on the Flare blockchain, along with the required fee.";
            technicalDetails := "This creates a transaction on the blockchain that requests the FDC to verify your XRP transaction. The contract stores the request and waits for the next voting round.";
            apiEndpoint := Some "FdcHub.requestAttestation() - Smart Contract Call";
            requestBody := None;
            responseBody := None;
            curlCommand := None |} |};
    {| id := "wait-finalization";
       title := "3. Wait for Finalization";
       description := "Wait for the voting round to be finalized";
       step_status := pending;
       step_data := None;
       step_error := None;
       details := Some
         {| whatHappens := "The FDC validators vote on your request during the voting round. We wait for the round to be finalized before proceeding.";
            technicalDetails := "Voting rounds occur every 90 seconds. Validators check the XRPL for your transaction and vote on its validity. We wait for the round to be finalized before retrieving the proof.";
            apiEndpoint := Some "https://coston2-systems-explorer.flare.rocks/voting-round/{roundId}?tab=fdc";
            requestBody := None;
            responseBody := None;
            curlCommand := None |} |};
    {| id := "prepare-proof";
       title := "4. Prepare Proof Request";
       description := "Prepare the proof request using the Data Availability Client";
       step_status := pending;
       step_data := None;
       step_error := None;
       details := Some
         {| whatHappens := "We retrieve the proof and attestation data from the Data Availability Layer using the finalized voting round ID.";
            technicalDetails := "The Data Availability Client provides cryptographic proof that your transaction was verified by the FDC validators. This includes Merkle tree proofs and the attestation response.";
            apiEndpoint := Some "https://ctn2-data-availability.flare.network/api/v1/fdc/proof-by-request-round";
            requestBody := None;
            responseBody := None;
            curlCommand := Some prepareProofCurl |} |};
    {| id := "verify-data";
       title := "5. Verify Data";
       description := "Verify the proof using the FdcVerification contract";
       step_status := pending;
       step_data := None;
       step_error := None;
       details := Some
         {| whatHappens := "The cryptographic proof is verified on-chain using the FdcVerification contract to ensure the payment attestation is valid and hasn't been tampered with.";
            technicalDetails := "This final step uses the FdcVerification contract to cryptographically verify that the payment proof is valid and the attestation data is authentic.";
            apiEndpoint := Some "FdcVerification.verifyPayment() - Smart Contract Call";
            requestBody := None;
            responseBody := None;
            curlCommand := None |} |} ].

(** The state of the page when it is first rendered. *)
Definition initialApp : App :=
  {| steps := initialSteps;
     isLoading := false;
     errorMessage := None;
     success := None;
     currentAttestationData := None;
     currentAttestationStep := "";
     proofData := None;
     verificationResult := None;
     expandedSteps := [];
     attestationHash := None;
     writeError := None |}.

(** What the hooks [useFdcContracts], [useAccount] and [usePublicClient]
    hand to the component. *)
Record Hooks := {
  fdcAddresses : option FdcContractAddresses;
  addressError : option string;
  isConnected : bool;
  wagmiClientAvailable : bool
}.

Record FdcFormData := { transactionId : string }.

(* ================================================================== *)
(** ** The monad of the component: events and the state of the page *)

Definition M (A : Type) : Type := nat -> App -> Res A * list Event * App.

Definition retM {A} (x : A) : M A := fun _ a => (Ret x, [], a).

Definition bindM {A B} (m : M A) (k : A -> M B) : M B :=
  fun t a =>
    match m t a with
    | (Ret x, evs, a') =>
        let '(r, evs', a'') := k x (t + List.length evs) a' in
        (r, evs ++ evs', a'')
    | (Throw e, evs, a') => (Throw e, evs, a')
    | (Pending, evs, a') => (Pending, evs, a')
    end.

#[export] Instance Monad_M : Monad M := {| ret := @retM; bind := @bindM |}.

Definition throwM {A} (e : Thrown) : M A := fun _ a => (Throw e, [], a).

Definition tryCatchM {A} (m : M A) (handler : Thrown -> M A) : M A :=
  fun t a =>
    match m t a with
    | (Throw e, evs, a') =>
        let '(r, evs', a'') := handler e (t + List.length evs) a' in
        (r, evs ++ evs', a'')
    | other => other
    end.

(** A library function called from the component: it cannot reach the
    state of the page. *)
Definition liftL {A} (m : L A) : M A :=
  fun t a => let (r, evs) := m t in (r, evs, a).

Definition getApp : M App := fun _ a => (Ret a, [], a).

Definition modify (f : App -> App) : M unit := fun _ a => (Ret tt, [], f a).

(* ================================================================== *)
(** ** The [Fdc] page component: its functions *)

(** The update [prev => prev.map(...)] that [updateStepStatus] hands to
    [setSteps]. *)
Definition updateStep (stepId : string) (st : StepStatus)
  (data : option JSValue) (err : option string) (step : FdcStep) : FdcStep :=
  if (id step =? stepId)%string then
    {| id := id step;
       title := title step;
       description := description step;
       step_status := st;
       step_data := data;
       step_error := err;
       details := details step |}
  else step.

Definition resetStep (step : FdcStep) : FdcStep :=
  {| id := id step;
     title := title step;
     description := description step;
     step_status := pending;
     step_data := step_data step;
     step_error := step_error step;
     details := details step |}.

(** [updateStepStatus]; the call is also recorded as an [EvStep] event. *)
Definition updateStepStatus (stepId : string) (st : StepStatus)
  (data : option JSValue) (err : option string) : M unit :=
  fun _ a =>
    (Ret tt, [EvStep stepId st],
     setSteps (map (updateStep stepId st data err) (steps a)) a).

Definition oneFLR : JSValue := JBigInt 1000000000000000000.

Definition isNullish (v : JSValue) : bool :=
  match v with
  | JUndefined | JNull => true
  | _ => false
  end.

Definition truthyData (d : option JSValue) : bool :=
  match d with
  | Some v => JS.truthy v
  | None => false
  end.

Definition truthyString (s : option string) : bool :=
  match s with
  | Some x => negb (x =? "")%string
  | None => false
  end.

Definition requiredFields : list string :=
  ["blockNumber"; "blockTimestamp"; "spentAmount"; "intendedSpentAmount";
   "receivedAmount"; "intendedReceivedAmount"].

(** The loop over [requiredFields] in [continueWorkflowAfterSubmission]. *)
Fixpoint checkRequiredFields (responseBody : JSValue) (fields : list string)
  : Res unit :=
  match fields with
  | [] => ret tt
  | name :: rest =>
      v <- JS.getProp responseBody name ;;
      if isNullish v then
        Throw (Error ("Proof data is missing required field: " ++ name))
      else checkRequiredFields responseBody rest
  end.

Section Page.

Variable w : World.

(** [JSON.stringify], used in one error message only. *)
Variable JSON_stringify : JSValue -> string.

Variable hooks : Hooks.

(** [writeContractAsync] of [useWriteIFdcHubRequestAttestation]: the hook's
    [data] and [error] are cleared when the call starts and set when it
    settles. *)
Definition requestAttestationAsync (call : WriteCall) : M JSValue :=
  fun t a =>
    let a0 := setWriteError None (setAttestationHash None a) in
    match w_writeContract w t call with
    | Ret hash => (Ret hash, [EvWriteContract call], setAttestationHash (Some hash) a0)
    | Throw e => (Throw e, [EvWriteContract call], setWriteError (Some e) a0)
    | Pending => (Pending, [EvWriteContract call], a0)
    end.

Definition verifierRequest (url : string) (requestBody : JSValue)
  : FetchRequest :=
  {| req_url := url;
     req_method := "POST";
     req_headers := [("accept", "*/*");
                     ("X-API-KEY", "00000000-0000-0000-0000-000000000000");
                     ("Content-Type", "application/json")];
     req_body := requestBody |}.

Definition prepareRequest (transactionId : string) : M JSValue :=
  tryCatchM
    (updateStepStatus "prepare-request" in_progress None None ;;;
     let requestBody :=
       JObject
         [("attestationType", JString
             "0x5061796d656e7400000000000000000000000000000000000000000000000000");
          ("sourceId", JString
             "0x7465737458525000000000000000000000000000000000000000000000000000");
          ("requestBody", JObject [("transactionId", JString transactionId);
                                   ("inUtxo", JString "0");
                                   ("utxo", JString "0")])] in
     first <- liftL (fetch w (verifierRequest
        "https://fdc-verifiers-testnet.flare.network/verifier/xrp/Payment/prepareRequest"
        requestBody)) ;;
     response <- (if negb (ok first) then
                    liftL (fetch w (verifierRequest
        "https://fdc-verifiers-testnet.flare.network/verifier/xrp/Payment/prepareResponse"
        requestBody))
                  else ret first) ;;
     if negb (ok response) then
       throwM (Error ("HTTP error! status: " ++ JSString.ofZ (status response)))
     else
       data <- liftL (liftRes (json response)) ;;
       abiEncodedRequest <- liftL (field data "abiEncodedRequest") ;;
       if negb (JS.truthy abiEncodedRequest) then
         throwM (Error ("API response missing abiEncodedRequest. Response: "
                        ++ JSON_stringify data))
       else
         updateStepStatus "prepare-request" completed
           (Some (JObject
              (JS.setField "requestDetails"
                 (JObject
                    [("requestBody", requestBody);
                     ("responseBody", data);
                     ("status", JNumber (status response));
                     ("headers", JObject
                        (map (fun h => (fst h, JString (snd h)))
                           (resp_headers response)))])
                 (JS.spread data))))
           None ;;;
         ret data)
    (fun e =>
       let errorMessage := JS.messageOr e "Unknown error occurred" in
       updateStepStatus "prepare-request" error None (Some errorMessage) ;;;
       throwM e).

(** [submitAttestationRequestWithWagmi]: the fee is read with the wagmi
    client, or with the fallback client when there is none. *)
Definition submitAttestationRequestWithWagmi (abiEncodedRequest : JSValue)
  (fdcAddresses : option FdcContractAddresses)
  (requestAttestationAsync : WriteCall -> M JSValue) : M unit :=
  if negb (JS.truthy abiEncodedRequest) then
    throwM (Error "ABI encoded request is undefined or empty")
  else if addressMissing fdcAddresses fdcHub then
    throwM (Error "FDC Hub address not loaded")
  else
    let clientToUse :=
      if wagmiClientAvailable hooks then Some wagmiPublicClient
      else Some fallbackPublicClient in
    requestFee <-
      match clientToUse with
      | Some client =>
          tryCatchM
            (liftL (readContract w client
               {| call_address := addressOf fdcAddresses fdcRequestFeeConfigurations;
                  call_abi := iFdcRequestFeeConfigurationsAbi;
                  functionName := "getRequestFee";
                  call_args := [abiEncodedRequest] |}))
            (fun _ => ret oneFLR)
      | None => ret oneFLR
      end ;;
    _ <- requestAttestationAsync
           {| write_address := addressOf fdcAddresses fdcHub;
              write_args := [abiEncodedRequest];
              write_value := requestFee |} ;;
    ret tt.

Definition executeFdcWorkflow (data : FdcFormData) : M unit :=
  let transactionId := JSString.trim (transactionId data) in
  match fdcAddresses hooks with
  | None =>
      modify (setErrorMessage
        (Some "FDC contract addresses not loaded. Please wait and try again."))
  | Some _ =>
      if truthyString (addressError hooks) then
        modify (setErrorMessage
          (Some ("Error loading contract addresses: "
                 ++ match addressError hooks with Some s => s | None => "" end)%string))
      else if negb (isConnected hooks) then
        modify (setErrorMessage
          (Some "Please connect your wallet to submit attestation requests to the blockchain."))
      else
        modify (setIsLoading true) ;;;
        modify (setErrorMessage None) ;;;
        modify (setSuccess None) ;;;
        modify (fun a => setSteps (map resetStep (steps a)) a) ;;;
        tryCatchM
          (attestationResponse <- prepareRequest transactionId ;;
           modify (setCurrentAttestationData (Some attestationResponse)) ;;;
           updateStepStatus "submit-request" in_progress None None ;;;
           abiEncodedRequest <- liftL (field attestationResponse "abiEncodedRequest") ;;
           submitAttestationRequestWithWagmi abiEncodedRequest
             (fdcAddresses hooks) requestAttestationAsync)
          (fun e =>
             modify (setErrorMessage
               (Some (JS.messageOr e "An unexpected error occurred"))) ;;;
             modify (setIsLoading false))
  end.

Definition continueWorkflowAfterSubmission (fuel : nat)
  (transactionReceipt : option Receipt) : M unit :=
  tryCatchM
    (updateStepStatus "wait-finalization" in_progress None None ;;;
     modify (setCurrentAttestationStep "Calculating round ID from transaction...") ;;;
     a <- getApp ;;
     match fdcAddresses hooks, transactionReceipt,
           truthyData (currentAttestationData a), currentAttestationData a with
     | Some _, Some receipt, true, Some attestationData =>
         roundId <- liftL (calculateRoundId w receipt (fdcAddresses hooks)) ;;
         let waiting := ("Waiting for voting round " ++ JSString.ofZ roundId
                         ++ " to be finalized...")%string in
         updateStepStatus "wait-finalization" in_progress
           (Some (JObject [("message", JString waiting);
                           ("roundId", JNumber roundId)])) None ;;;
         modify (setCurrentAttestationStep waiting) ;;;
         liftL (sleep 30000) ;;;
         modify (setCurrentAttestationStep "") ;;;
         updateStepStatus "wait-finalization" completed
           (Some (JObject [("message", JString "Voting round finalized");
                           ("roundId", JNumber roundId)])) None ;;;
         updateStepStatus "prepare-proof" in_progress None None ;;;
         modify (setCurrentAttestationStep
                   "Retrieving proof from Data Availability Layer...") ;;;
         abiEncodedRequest <- liftL (field attestationData "abiEncodedRequest") ;;
         proof <- liftL (retrievePaymentDataAndProofWithRetry w fuel
                           FDC_CONSTANTS.DA_LAYER_API_URL abiEncodedRequest
                           roundId FDC_CONSTANTS.DA_LAYER_API_KEY None) ;;
         modify (setProofData (Some proof)) ;;;
         merkle <- liftL (field proof "proof") ;;
         updateStepStatus "prepare-proof" completed
           (Some (JObject
              [("message", JString "Proof retrieved from Data Availability Layer");
               ("proof", merkle)])) None ;;;
         updateStepStatus "verify-data" in_progress None None ;;;
         modify (setCurrentAttestationStep
                   "Verifying payment attestation with FDC Verification contract...") ;;;
         incomplete <-
           (if negb (JS.truthy proof) then ret true
            else r <- liftL (field proof "response") ;;
                 if negb (JS.truthy r) then ret true
                 else p <- liftL (field proof "proof") ;;
                      ret (negb (JS.truthy p))) ;;
         if incomplete : bool then throwM (Error "Proof data is incomplete")
         else
           response <- liftL (field proof "response") ;;
           responseBody <- liftL (field response "responseBody") ;;
           liftL (liftRes (checkRequiredFields responseBody requiredFields)) ;;;
           verificationResult <- liftL (verifyPayment w proof (fdcAddresses hooks)) ;;
           modify (setVerificationResult
                     (Some (JObject [("verified", verificationResult)]))) ;;;
           updateStepStatus "verify-data" completed
             (Some (JObject
                [("message", JString "Payment attestation verified successfully");
                 ("verificationResult", verificationResult);
                 ("verified", verificationResult)])) None ;;;
           modify (setCurrentAttestationStep "") ;;;
           modify (setSuccess
             (Some "FDC workflow completed successfully! All steps have been executed."))
     | _, _, _, _ =>
         throwM (Error "Missing required data for round ID calculation")
     end)
    (fun e =>
       modify (setCurrentAttestationStep "") ;;;
       modify (setErrorMessage (Some (JS.messageOr e "Unknown error occurred")))).

(** [useWaitForTransactionReceipt({ hash: attestationHash })]: the receipt
    of the submitted transaction, when it is confirmed. *)
Definition waitForTransactionReceipt : M (option Receipt) :=
  fun t a =>
    match attestationHash a with
    | Some hash => (Ret (w_receipt w t hash), [EvWaitReceipt hash], a)
    | None => (Ret None, [], a)
    end.

(** The effect "Handle transaction success", with [isAttestationSuccess]
    true exactly when there is a receipt. *)
Definition transactionSuccessEffect (fuel : nat) (receipt : option Receipt)
  : M unit :=
  a <- getApp ;;
  match receipt, truthyData (currentAttestationData a),
        currentAttestationData a with
  | Some r, true, Some attestationData =>
      abiEncodedRequest <- liftL (field attestationData "abiEncodedRequest") ;;
      updateStepStatus "submit-request" completed
        (Some (JObject
           [("message", JString
               "Attestation request submitted successfully to FdcHub contract");
            ("transactionHash",
             match attestationHash a with Some h => h | None => JUndefined end);
            ("blockNumber", JBigInt (blockNumber r));
            ("abiEncodedRequest", abiEncodedRequest)])) None ;;;
      modify (fun a => setExpandedSteps
                (if existsb (String.eqb "submit-request") (expandedSteps a)
                 then expandedSteps a
                 else expandedSteps a ++ ["submit-request"]) a) ;;;
      continueWorkflowAfterSubmission fuel (Some r)
  | _, _, _ => ret tt
  end.

(** What [updateStepStatus] keeps as the error of a step when it is given
    [writeError.message]: the string, nothing for [undefined], and of
    another value its text. *)
Definition stepErrorText (message : JSValue) : option string :=
  match message with
  | JString s => Some s
  | JUndefined => None
  | other => Some (JS.toText other)
  end.

(** The effect "Handle write contract errors": it does something when the
    error of the hook is truthy. *)
Definition writeErrorEffect : M unit :=
  a <- getApp ;;
  match writeError a with
  | Some e =>
      if JS.thrownTruthy e then
        let message := JS.messageOf e in
        updateStepStatus "submit-request" error None (stepErrorText message) ;;;
        modify (setErrorMessage
                  (Some ("Transaction failed: " ++ JS.toText message)%string))
      else ret tt
  | None => ret tt
  end.

(** One run of the workflow on a page that has no transaction yet: the form
    handler, then the effects React runs when the write hook settles. *)
Definition runWorkflow (fuel : nat) (data : FdcFormData) : M unit :=
  executeFdcWorkflow data ;;;
  receipt <- waitForTransactionReceipt ;;
  transactionSuccessEffect fuel receipt ;;;
  writeErrorEffect.

End Page.


(* ================================================================== *)
(** ** Vocabulary of the statements *)

(** The proof predicate: an object whose [response] is truthy and whose
    [proof] is an array. *)
Definition proofPredicate (v : JSValue) : Prop :=
  exists (fields : list (string * JSValue)) (r : JSValue) (items : list JSValue),
    v = JObject fields
    /\ JS.lookup "response" fields = Some r
    /\ JS.truthy r = true
    /\ JS.lookup "proof" fields = Some (JArray items).

(** [k] rounds of the polling loop: a wait of 10000 ms, then a request. *)
Fixpoint pollTrace (request : FetchRequest) (k : nat) : list Event :=
  match k with
  | O => []
  | S k' => EvSleep 10000 :: EvFetch request :: pollTrace request k'
  end.

(** The events of a call of [retrieveDataAndProof] that asked the Data
    Availability Layer [S k] times. *)
Definition retrieveTrace (request : FetchRequest) (k : nat) : list Event :=
  EvSleep 30000 :: EvSleep 10000 :: EvFetch request :: pollTrace request k.

Definition threw {A} (r : Res A) : bool :=
  match r with
  | Throw _ => true
  | _ => false
  end.

(** [k] calls of [body] in a row, the first at time [t], each of which
    threw and was followed by a wait of 20000 ms; [evs] are their events. *)
Inductive FailedAttempts {A} (body : L A) : nat -> nat -> list Event -> Prop :=
| FailedNone (t : nat) : FailedAttempts body 0 t []
| FailedNext (k t : nat) (e : Thrown) (evs rest : list Event) :
    body t = (Throw e, evs) ->
    FailedAttempts body k (t + List.length evs + 1) rest ->
    FailedAttempts body (S k) t (evs ++ EvSleep 20000 :: rest).

Definition isFinalizationWait (ev : Event) : bool :=
  match ev with
  | EvSleep ms => (ms =? 30000)%Z
  | _ => false
  end.

(** The error of [retrieveDataAndProofWithRetry] when every attempt threw. *)
Definition retryError (attempts : Z) : Thrown :=
  Error ("Failed to retrieve data and proofs after "
         ++ JSString.ofZ attempts ++ " attempts").

(** A computation that asks nothing of the outside. *)
Definition silent {A} (m : L A) : Prop := forall t, snd (m t) = [].


(** A computation of the library that causes no event and does not depend
    on the time. *)
Definition pureL {A} (m : L A) : Prop :=
  forall t, m t = (fst (m 0), []).

(** Proof data is complete for [verifyPayment]: the verification address is
    loaded, [response] and [proof] are present, and every field of the
    attestation is there and converts, giving the argument [argument] of the
    contract call. *)
Definition completeProofData (proofData : JSValue)
  (fdcAddresses : option FdcContractAddresses) (argument : JSValue) : Prop :=
  addressMissing fdcAddresses fdcVerification = false
  /\ exists response proof : JSValue,
       JS.getProp proofData "response" = Ret response
       /\ JS.truthy response = true
       /\ JS.getProp proofData "proof" = Ret proof
       /\ JS.truthy proof = true
       /\ fst (paymentProofArgument response proof 0) = Ret argument.

(** The request [prepareAttestationRequestBase] sends. *)
Definition attestationFetch (url apiKey attestationTypeBase sourceIdBase : string)
  (requestBody : JSValue) : FetchRequest :=
  prepareFetch url apiKey
    (JObject [("attestationType", JString (toHex attestationTypeBase));
              ("sourceId", JString (toHex sourceIdBase));
              ("requestBody", requestBody)]).

(** "A value is returned exactly when the status of the response is 200." *)
Definition returnsExactlyOn200 (w : World)
  (url apiKey attestationTypeBase sourceIdBase : string)
  (requestBody : JSValue) (t : nat) : Prop :=
  forall response : Response,
    w_fetch w t (attestationFetch url apiKey attestationTypeBase sourceIdBase
                   requestBody) = Ret response ->
    ((exists v : JSValue,
         fst (prepareAttestationRequestBase w url apiKey attestationTypeBase
                sourceIdBase requestBody t) = Ret v)
     <-> status response = 200%Z).

(** The read of the fee in [submitAttestationRequestWithWagmi] and in
    [getFdcRequestFee]. *)
Definition feeCall (fdcAddresses : option FdcContractAddresses)
  (abiEncodedRequest : JSValue) : ContractCall :=
  {| call_address := addressOf fdcAddresses fdcRequestFeeConfigurations;
     call_abi := iFdcRequestFeeConfigurationsAbi;
     functionName := "getRequestFee";
     call_args := [abiEncodedRequest] |}.

(** "The value attached to every submitted transaction was read with
    [getRequestFee]", for the events [evs] of a submission. *)
Definition feeAlwaysRead (w : World) (evs : list Event) : Prop :=
  forall call : WriteCall,
    In (EvWriteContract call) evs ->
    exists (client : Client) (read : ContractCall) (t : nat),
      In (EvReadContract client read) evs
      /\ functionName read = "getRequestFee"
      /\ w_readContract w t client read = Ret (write_value call).

(** The five steps of the workflow, in their order. *)
Definition stepOrder : list string :=
  ["prepare-request"; "submit-request"; "wait-finalization"; "prepare-proof";
   "verify-data"].

Fixpoint stepsBefore (stepId : string) (order : list string)
  : option (list string) :=
  match order with
  | [] => None
  | s :: rest =>
      if (s =? stepId)%string then Some []
      else option_map (cons s) (stepsBefore stepId rest)
  end.

(** The steps that come before [stepId] in the workflow. *)
Definition prerequisites (stepId : string) : option (list string) :=
  stepsBefore stepId stepOrder.

(** An operation is anything done to the outside: a wait, a request, a read
    or a write; the change of a step's status is not one. *)
Definition isOperation (ev : Event) : bool :=
  match ev with
  | EvStep _ _ => false
  | _ => true
  end.

(** The call of the verification contract. *)
Definition isVerifyCall (ev : Event) : bool :=
  match ev with
  | EvReadContract _ call => (functionName call =? "verifyPayment")%string
  | _ => false
  end.

(** A step is set to 'in_progress' only when every step before it in the
    workflow has been set to 'completed'. *)
Definition startedInOrder (evs : list Event) : Prop :=
  forall (pre post : list Event) (stepId : string),
    evs = pre ++ EvStep stepId in_progress :: post ->
    exists earlier : list string,
      prerequisites stepId = Some earlier
      /\ forall s, In s earlier -> In (EvStep s completed) pre.

(** No operation comes after the call of the verification contract. *)
Definition verifyCallLast (evs : list Event) : Prop :=
  forall (pre post : list Event) (ev : Event),
    evs = pre ++ ev :: post ->
    isVerifyCall ev = true ->
    Forall (fun e => isOperation e = false) post.

(** The last step is set to 'completed' only after the verification
    contract has been called. *)
Definition verifiedBeforeCompleted (evs : list Event) : Prop :=
  forall pre post : list Event,
    evs = pre ++ EvStep "verify-data" completed :: post ->
    exists ev : Event, In ev pre /\ isVerifyCall ev = true.

(** A monitor of these properties: the steps completed so far, and whether
    the verification contract has been called. *)
Record Monitor := { done : list string; verified : bool }.

Definition observe (m : Monitor) (ev : Event) : option Monitor :=
  match ev with
  | EvStep s in_progress =>
      match prerequisites s with
      | Some earlier =>
          if forallb (fun p => existsb (String.eqb p) (done m)) earlier
          then Some m else None
      | None => None
      end
  | EvStep s completed =>
      if (s =? "verify-data")%string && negb (verified m) then None
      else Some {| done := s :: done m; verified := verified m |}
  | EvStep _ _ => Some m
  | _ =>
      if verified m then None
      else Some {| done := done m; verified := isVerifyCall ev |}
  end.

Fixpoint monitor (m : Monitor) (evs : list Event) : option Monitor :=
  match evs with
  | [] => Some m
  | ev :: rest =>
      match observe m ev with
      | Some m' => monitor m' rest
      | None => None
      end
  end.

(** The events a library function other than [verifyPayment] may cause. *)
Definition plainEvent (ev : Event) : bool :=
  isOperation ev && negb (isVerifyCall ev).

Definition plain {A} (m : L A) : Prop :=
  forall t, forallb plainEvent (snd (m t)) = true.

(** Running [m] from a state the monitor accepts is accepted, and [Q] holds
    of the outcome. *)
Definition run_ok {A} (m : M A) (t : nat) (a : App) (mon : Monitor)
  (Q : Res A -> Monitor -> App -> Prop) : Prop :=
  exists mon' : Monitor,
    monitor mon (snd (fst (m t a))) = Some mon'
    /\ Q (fst (fst (m t a))) mon' (snd (m t a)).

(** The step events of a run, in order. *)
Fixpoint stepEvents (evs : list Event) : list (string * StepStatus) :=
  match evs with
  | [] => []
  | EvStep s st :: rest => (s, st) :: stepEvents rest
  | _ :: rest => stepEvents rest
  end.

(* ================================================================== *)
(** ** Worlds used in the examples *)

Definition okResponse (body : JSValue) : Response :=
  {| status := 200; statusText := "OK"; resp_headers := []; json := Ret body |}.

Definition sampleProof : JSValue :=
  JObject
    [("response", JObject
        [("attestationType", JString (toHex "Payment"));
         ("sourceId", JString (toHex "testXRP"));
         ("votingRound", JString "1021");
         ("lowestUsedTimestamp", JString "1730000000");
         ("requestBody", JObject [("transactionId", JString "0xabc");
                                  ("inUtxo", JString "0");
                                  ("utxo", JString "0")]);
         ("responseBody", JObject
            [("blockNumber", JString "9001");
             ("blockTimestamp", JString "1730000000");
             ("sourceAddressHash", JString "0x01");
             ("sourceAddressesRoot", JString "0x02");
             ("receivingAddressHash", JString "0x03");
             ("intendedReceivingAddressHash", JString "0x03");
             ("spentAmount", JString "12");
             ("intendedSpentAmount", JString "12");
             ("receivedAmount", JString "10");
             ("intendedReceivedAmount", JString "10");
             ("standardPaymentReference", JString "0x00");
             ("oneToOne", JBool true);
             ("status", JNumber 0)])]);
     ("proof", JArray [JString "0xaa"; JString "0xbb"])].

Definition sampleAddresses : FdcContractAddresses :=
  {| fdcHub := "0x48aC463d7975828989331F4De43341627b9c5f1D";
     fdcRequestFeeConfigurations := "0x191a1282Ac700edE65c5B0AaF313BAcC3eA7fC7e";
     flareSystemsManager := "0xA90Db6D10F856799b10ef2A77EBCbF460aC71e52";
     fdcVerification := "0x075bf301fF07C4920e5261f93a0609640F53487D" |}.

(** A chain and services on which everything succeeds: the verifier answers
    with an encoded request, the fee is 5 wei, the transaction is confirmed
    in block 77, rounds last 90 seconds, the Data Availability Layer has the
    proof on the second request, the payment verifies. *)
Definition friendlyWorld : World :=
  {| w_fetch := fun t request =>
       if (req_url request =? FDC_CONSTANTS.DA_LAYER_API_URL)%string then
         if (t <? 14)%nat then Ret (okResponse (JObject []))
         else Ret (okResponse sampleProof)
       else Ret (okResponse (JObject [("abiEncodedRequest", JString "0xabc")]));
     w_getBlock := fun _ _ _ => Ret {| timestamp := 1730000900 |};
     w_readContract := fun _ _ call =>
       if (functionName call =? "getRequestFee")%string then Ret (JBigInt 5)
       else if (functionName call =? "firstVotingRoundStartTs")%string
       then Ret (JBigInt 1730000000)
       else if (functionName call =? "votingEpochDurationSeconds")%string
       then Ret (JBigInt 90)
       else if (functionName call =? "getCurrentVotingEpochId")%string
       then Ret (JBigInt 11)
       else Ret (JBool true);
     w_writeContract := fun _ _ => Ret (JString "0xfeed");
     w_receipt := fun _ _ => Some {| blockNumber := 77 |} |}.

(** The Data Availability Layer answers "not yet" once, then with the proof. *)
Definition slowDALayer : World :=
  {| w_fetch := fun t _ =>
       if (t <? 4)%nat then Ret (okResponse (JObject []))
       else Ret (okResponse sampleProof);
     w_getBlock := w_getBlock friendlyWorld;
     w_readContract := w_readContract friendlyWorld;
     w_writeContract := w_writeContract friendlyWorld;
     w_receipt := w_receipt friendlyWorld |}.

(** The verifier answers 200 with a page that is not JSON. *)
Definition unparsableVerifier : World :=
  {| w_fetch := fun _ _ =>
       Ret {| status := 200; statusText := "OK"; resp_headers := [];
              json := Throw (ErrorObj KSyntaxError
                               "Unexpected token < in JSON at position 0") |};
     w_getBlock := w_getBlock friendlyWorld;
     w_readContract := w_readContract friendlyWorld;
     w_writeContract := w_writeContract friendlyWorld;
     w_receipt := w_receipt friendlyWorld |}.

(** The Data Availability Layer answers every request with status 500. *)
Definition daLayerDown : World :=
  {| w_fetch := fun _ _ =>
       Ret {| status := 500; statusText := "Internal Server Error";
              resp_headers := []; json := Ret JNull |};
     w_getBlock := w_getBlock friendlyWorld;
     w_readContract := w_readContract friendlyWorld;
     w_writeContract := w_writeContract friendlyWorld;
     w_receipt := w_receipt friendlyWorld |}.

(** The user rejects the transaction in the wallet. *)
Definition walletRejects : World :=
  {| w_fetch := w_fetch friendlyWorld;
     w_getBlock := w_getBlock friendlyWorld;
     w_readContract := w_readContract friendlyWorld;
     w_writeContract := fun _ _ => Throw (Error "User rejected the request.");
     w_receipt := w_receipt friendlyWorld |}.

(** The fee contract cannot be read. *)
Definition feeReadFails : World :=
  {| w_fetch := w_fetch friendlyWorld;
     w_getBlock := w_getBlock friendlyWorld;
     w_readContract := fun _ _ _ => Throw (Error "execution reverted");
     w_writeContract := w_writeContract friendlyWorld;
     w_receipt := w_receipt friendlyWorld |}.

Definition connectedHooks : Hooks :=
  {| fdcAddresses := Some sampleAddresses;
     addressError := None;
     isConnected := true;
     wagmiClientAvailable := true |}.

Definition sampleForm : FdcFormData :=
  {| transactionId :=
       " 8F2A1B3C4D5E6F708192A3B4C5D6E7F8091A2B3C4D5E6F708192A3B4C5D6E7F8 " |}.

(** [JSON.stringify] is needed for one error message; in the examples it
    prints the kind of the value only. *)
Definition stringifyKind (v : JSValue) : string :=
  match v with
  | JUndefined => "undefined"
  | JNull => "null"
  | JBool _ => "boolean"
  | JNumber _ | JBigInt _ => "number"
  | JString _ => "string"
  | JArray _ => "array"
  | JObject _ => "object"
  end.

(** The events of the workflow on the friendly world, from the initial page. *)
Definition friendlyRun : list Event :=
  snd (fst (runWorkflow friendlyWorld stringifyKind connectedHooks 3 sampleForm
              0 initialApp)).

(* ================================================================== *)
(** * Further functions of the sources *)

(** ** [@/lib/utils]: shortening strings for display *)

Module JSText.

Definition take (n : nat) (s : string) : string :=
  string_of_list_ascii (firstn n (list_ascii_of_string s)).

Definition drop (n : nat) (s : string) : string :=
  string_of_list_ascii (skipn n (list_ascii_of_string s)).

(** The index a [slice] argument stands for: counted from the end when
    negative, and kept within the string. *)
Definition relativeIndex (len i : Z) : Z :=
  if (i <? 0)%Z then Z.max (len + i) 0 else Z.min i len.

(** [String.prototype.slice(start, end)]; [end] may be left out. *)
Definition slice (s : string) (start : Z) (stop : option Z) : string :=
  let len := Z.of_nat (length s) in
  let from := relativeIndex len start in
  let to := match stop with
            | Some e => relativeIndex len e
            | None => len
            end in
  if (from <? to)%Z then take (Z.to_nat (to - from)) (drop (Z.to_nat from) s)
  else "".

End JSText.

Definition truncateAddress (address : string) : string :=
  if (length address <=? 12)%nat then address
  else (JSText.slice address 0 (Some 6%Z) ++ "..."
        ++ JSText.slice address (-4) None)%string.

Definition truncateString (text : string)
  (startLength endLength minLength : option Z) : string :=
  let startLength := match startLength with Some n => n | None => 10%Z end in
  let endLength := match endLength with Some n => n | None => 10%Z end in
  let minLength := match minLength with Some n => n | None => 20%Z end in
  if (Z.of_nat (length text) <=? minLength)%Z then text
  else (JSText.slice text 0 (Some startLength) ++ "..."
        ++ JSText.slice text (- endLength) None)%string.

(** Reading [toHex] backwards: two digits make a character, up to the first
    pair of zeros. *)
Fixpoint unhex (digits : string) : string :=
  match digits with
  | String a (String b rest) =>
      let code := (16 * JSString.digitValue a + JSString.digitValue b)%N in
      if (code =? 0)%N then ""
      else String (ascii_of_N code) (unhex rest)
  | _ => ""
  end.

Definition fromHex (hex : string) : string :=
  match hex with
  | String "0" (String "x" digits) => unhex digits
  | _ => ""
  end.

(** The characters [toString(16)] prints with two digits: the char codes
    from 16 to 255. *)
Definition twoDigits (c : ascii) : bool :=
  ((16 <=? JSString.charCodeAt c) && (JSString.charCodeAt c <=? 255))%N.

Fixpoint allTwoDigits (data : string) : bool :=
  match data with
  | EmptyString => true
  | String c rest => twoDigits c && allTwoDigits rest
  end.

(** [toHex] on a string given as the list of its code units, which in
    JavaScript go up to 65535: the same loop and padding, for the strings
    the 8-bit characters above cannot hold. *)
Fixpoint toHexUnits_loop (units : list N) (result : string) : string :=
  match units with
  | [] => result
  | unit :: rest =>
      toHexUnits_loop rest (result ++ JSString.toString16 unit)
  end.

Definition toHexUnits (units : list N) : string :=
  let result := toHexUnits_loop units "" in
  "0x" ++ JSString.padEnd result 64 "0".

Definition codeUnits (data : string) : list N :=
  map JSString.charCodeAt (list_ascii_of_string data).

(* ================================================================== *)
(** ** [src/lib/fdcUtils.ts]: the ReferencedPaymentNonexistence functions *)

Record ReferencedPaymentNonexistenceRequestBody := {
  minimalBlockNumber : string;
  deadlineBlockNumber : string;
  deadlineTimestamp : string;
  destinationAddressHash : string;
  amount : string;
  standardPaymentReference : string;
  checkSourceAddresses : bool;
  sourceAddressesRoot : string
}.

Section FdcUtilsMore.

Variable w : World.

Definition retrieveReferencedPaymentNonexistenceDataAndProofWithRetry
  (fuel : nat) (url : string) (abiEncodedRequest : JSValue) (roundId : Z)
  (apiKey : string) (attempts : option Z) : L JSValue :=
  let attempts := match attempts with Some n => n | None => 10%Z end in
  retrieveDataAndProofWithRetry w fuel url abiEncodedRequest roundId apiKey
    (Some attempts).

Definition prepareReferencedPaymentNonexistenceAttestationRequest
  (data : ReferencedPaymentNonexistenceRequestBody) : L JSValue :=
  let requestBody :=
    JObject [("minimalBlockNumber", JString (minimalBlockNumber data));
             ("deadlineBlockNumber", JString (deadlineBlockNumber data));
             ("deadlineTimestamp", JString (deadlineTimestamp data));
             ("destinationAddressHash", JString (destinationAddressHash data));
             ("amount", JString (amount data));
             ("standardPaymentReference",
              JString (standardPaymentReference data));
             ("checkSourceAddresses", JBool (checkSourceAddresses data));
             ("sourceAddressesRoot", JString (sourceAddressesRoot data))] in
  let url := (FDC_CONSTANTS.VERIFIER_URL_TESTNET ++ "verifier/"
              ++ FDC_CONSTANTS.URL_TYPE_BASE
              ++ "/ReferencedPaymentNonexistence/prepareRequest")%string in
  let apiKey := FDC_CONSTANTS.VERIFIER_API_KEY_TESTNET in
  prepareAttestationRequestBase w url apiKey "ReferencedPaymentNonexistence"
    FDC_CONSTANTS.SOURCE_ID_BASE requestBody.

(** The argument of the [verifyReferencedPaymentNonexistence] contract call,
    its fields read and converted in the order of the object literal. *)
Definition nonexistenceProofArgument (response proof : JSValue) : L JSValue :=
  attestationType <- field response "attestationType" ;;
  sourceId <- field response "sourceId" ;;
  votingRound <- bigIntField response "votingRound" ;;
  lowestUsedTimestamp <- bigIntField response "lowestUsedTimestamp" ;;
  request <- field response "requestBody" ;;
  minimalBlockNumber <- bigIntField request "minimalBlockNumber" ;;
  request <- field response "requestBody" ;;
  deadlineBlockNumber <- bigIntField request "deadlineBlockNumber" ;;
  request <- field response "requestBody" ;;
  deadlineTimestamp <- bigIntField request "deadlineTimestamp" ;;
  request <- field response "requestBody" ;;
  destinationAddressHash <- field request "destinationAddressHash" ;;
  request <- field response "requestBody" ;;
  amount <- bigIntField request "amount" ;;
  request <- field response "requestBody" ;;
  standardPaymentReference <- field request "standardPaymentReference" ;;
  request <- field response "requestBody" ;;
  checkSourceAddresses <- field request "checkSourceAddresses" ;;
  request <- field response "requestBody" ;;
  sourceAddressesRoot <- field request "sourceAddressesRoot" ;;
  body <- field response "responseBody" ;;
  minimalBlockTimestamp <- bigIntField body "minimalBlockTimestamp" ;;
  body <- field response "responseBody" ;;
  firstOverflowBlockNumber <- bigIntField body "firstOverflowBlockNumber" ;;
  body <- field response "responseBody" ;;
  firstOverflowBlockTimestamp <- bigIntField body "firstOverflowBlockTimestamp" ;;
  ret (JObject
         [("merkleProof", proof);
          ("data", JObject
             [("attestationType", attestationType);
              ("sourceId", sourceId);
              ("votingRound", votingRound);
              ("lowestUsedTimestamp", lowestUsedTimestamp);
              ("requestBody", JObject
                 [("minimalBlockNumber", minimalBlockNumber);
                  ("deadlineBlockNumber", deadlineBlockNumber);
                  ("deadlineTimestamp", deadlineTimestamp);
                  ("destinationAddressHash", destinationAddressHash);
                  ("amount", amount);
                  ("standardPaymentReference", standardPaymentReference);
                  ("checkSourceAddresses", checkSourceAddresses);
                  ("sourceAddressesRoot", sourceAddressesRoot)]);
              ("responseBody", JObject
                 [("minimalBlockTimestamp", minimalBlockTimestamp);
                  ("firstOverflowBlockNumber", firstOverflowBlockNumber);
                  ("firstOverflowBlockTimestamp",
                   firstOverflowBlockTimestamp)])])]).

Definition nonexistenceCall (fdcAddresses : option FdcContractAddresses)
  (argument : JSValue) : ContractCall :=
  {| call_address := addressOf fdcAddresses fdcVerification;
     call_abi := iReferencedPaymentNonexistenceVerificationAbi;
     functionName := "verifyReferencedPaymentNonexistence";
     call_args := [argument] |}.

(** The checks and conversions of [verifyReferencedPaymentNonexistence]
    that come before its contract call. *)
Definition nonexistenceDataArgument (proofData : JSValue) : L JSValue :=
  r <- field proofData "response" ;;
  incomplete <- (if negb (JS.truthy r) then ret true
                 else p <- field proofData "proof" ;; ret (negb (JS.truthy p))) ;;
  if incomplete : bool then throwL (Error "Proof data is incomplete")
  else
    response <- field proofData "response" ;;
    proof <- field proofData "proof" ;;
    nonexistenceProofArgument response proof.

Definition verifyReferencedPaymentNonexistence (proofData : JSValue)
  (fdcAddresses : option FdcContractAddresses) : L JSValue :=
  if addressMissing fdcAddresses fdcVerification then
    throwL (Error "FDC Verification address not loaded")
  else
    argument <- nonexistenceDataArgument proofData ;;
    result <- readContract w sharedPublicClient
                (nonexistenceCall fdcAddresses argument) ;;
    ret result.

End FdcUtilsMore.

(* ================================================================== *)
(** ** Further vocabulary *)

(** What a library function that only waits and reads may cause. *)
Definition isLibraryEvent (ev : Event) : bool :=
  match ev with
  | EvSleep _ | EvFetch _ | EvGetBlock _ _ | EvReadContract _ _ => true
  | EvWriteContract _ | EvWaitReceipt _ | EvStep _ _ => false
  end.

Definition emitsOnly {A} (p : Event -> bool) (m : L A) : Prop :=
  forall t, forallb p (snd (m t)) = true.

(** The time a run spends in [sleep], in milliseconds. *)
Fixpoint totalSleep (evs : list Event) : Z :=
  match evs with
  | [] => 0
  | EvSleep ms :: rest => ms + totalSleep rest
  | _ :: rest => totalSleep rest
  end.

(** "The status is a success status": what [response.ok] tests. *)
Definition successStatus (status : Z) : Prop := (200 <= status <= 299)%Z.

Definition roundCalls (fdcAddresses : option FdcContractAddresses)
  (receipt : Receipt) : list Event :=
  [EvGetBlock sharedPublicClient (blockNumber receipt);
   EvReadContract sharedPublicClient
     (systemsManagerCall fdcAddresses "firstVotingRoundStartTs");
   EvReadContract sharedPublicClient
     (systemsManagerCall fdcAddresses "votingEpochDurationSeconds");
   EvReadContract sharedPublicClient
     (systemsManagerCall fdcAddresses "getCurrentVotingEpochId")].

(** The answer to a request, and what looking for the proof in it gives. *)
Definition inspected (r : Res JSValue) : Res bool :=
  match r with
  | Ret b => hasProof b
  | Throw e => Throw e
  | Pending => Pending
  end.


(** A library function that only waits and reads. *)
Definition readsOnly {A} (m : L A) : Prop := emitsOnly isLibraryEvent m.

(** Proof data whose response body has the six fields the page checks, and
    whose response has no [votingRound]. *)
Definition proofWithoutRound : JSValue :=
  JObject
    [("response", JObject
        [("attestationType", JString (toHex "Payment"));
         ("sourceId", JString (toHex "testXRP"));
         ("responseBody", JObject
            [("blockNumber", JString "9001");
             ("blockTimestamp", JString "1730000000");
             ("spentAmount", JString "12");
             ("intendedSpentAmount", JString "12");
             ("receivedAmount", JString "10");
             ("intendedReceivedAmount", JString "10")])]);
     ("proof", JArray [JString "0xaa"])].

(** The two requests of [prepareRequest], for a transaction id. *)
Definition pageRequestBody (transactionId : string) : JSValue :=
  JObject
    [("attestationType", JString
        "0x5061796d656e7400000000000000000000000000000000000000000000000000");
     ("sourceId", JString
        "0x7465737458525000000000000000000000000000000000000000000000000000");
     ("requestBody", JObject [("transactionId", JString transactionId);
                              ("inUtxo", JString "0");
                              ("utxo", JString "0")])].

Definition prepareRequestFetch (transactionId : string) : FetchRequest :=
  verifierRequest
    "https://fdc-verifiers-testnet.flare.network/verifier/xrp/Payment/prepareRequest"
    (pageRequestBody transactionId).

Definition prepareResponseFetch (transactionId : string) : FetchRequest :=
  verifierRequest
    "https://fdc-verifiers-testnet.flare.network/verifier/xrp/Payment/prepareResponse"
    (pageRequestBody transactionId).

(** The HTTP requests among the events of a run, in order. *)
Fixpoint fetchRequests (evs : list Event) : list FetchRequest :=
  match evs with
  | [] => []
  | EvFetch request :: rest => request :: fetchRequests rest
  | _ :: rest => fetchRequests rest
  end.

(** The transactions among the events of a run, in order. *)
Fixpoint writeCalls (evs : list Event) : list WriteCall :=
  match evs with
  | [] => []
  | EvWriteContract call :: rest => call :: writeCalls rest
  | _ :: rest => writeCalls rest
  end.

(* ================================================================== *)
(** ** Vocabulary for the page *)

(** A step set to 'error'. *)
Definition isErrorMark (ev : Event) : bool :=
  match ev with
  | EvStep _ error => true
  | _ => false
  end.

(** [ensures m t a Q]: the outcome of [m], run at tick [t] on the page [a],
    satisfies [Q]. *)
Definition ensures {A} (m : M A) (t : nat) (a : App)
  (Q : Res A -> list Event -> App -> Prop) : Prop :=
  Q (fst (fst (m t a))) (snd (fst (m t a))) (snd (m t a)).

(** The [disabled] attribute of the submit button. *)
Definition submitDisabled (hooks : Hooks) (isHydrated isLoadingAddresses : bool)
  (a : App) : bool :=
  isLoading a || negb isHydrated || negb (isConnected hooks)
  || isLoadingAddresses || truthyString (addressError hooks).

Definition successMessage : string :=
  "FDC workflow completed successfully! All steps have been executed.".

(** What [continueWorkflowAfterSubmission] leaves of the page [a]. *)
Definition continuationFrame (a a' : App) : Prop :=
  isLoading a' = isLoading a
  /\ attestationHash a' = attestationHash a
  /\ writeError a' = writeError a
  /\ currentAttestationData a' = currentAttestationData a
  /\ expandedSteps a' = expandedSteps a
  /\ map id (steps a') = map id (steps a).

(** How [continueWorkflowAfterSubmission] ends when it returns. *)
Definition continuationReport (a a' : App) : Prop :=
  currentAttestationStep a' = ""
  /\ ((exists message, errorMessage a' = Some message)
      \/ (success a' = Some successMessage
          /\ errorMessage a' = errorMessage a
          /\ exists proof answer,
               proofData a' = Some proof
               /\ verificationResult a' = Some (JObject [("verified", answer)]))).

(** The transaction [executeFdcWorkflow] submits. *)
Definition submittedCall (hooks : Hooks) (a' : App) (call : WriteCall) : Prop :=
  isConnected hooks = true
  /\ truthyString (addressError hooks) = false
  /\ addressMissing (fdcAddresses hooks) fdcHub = false
  /\ write_address call = addressOf (fdcAddresses hooks) fdcHub
  /\ exists data abiEncodedRequest,
       currentAttestationData a' = Some data
       /\ JS.getProp data "abiEncodedRequest" = Ret abiEncodedRequest
       /\ JS.truthy abiEncodedRequest = true
       /\ write_args call = [abiEncodedRequest].

(** The page after [executeFdcWorkflow] called [writeContractAsync]. *)
Definition afterSubmit (r : Res unit) (a' : App) : Prop :=
  match r with
  | Ret _ =>
      (isLoading a' = true
       /\ (exists hash, attestationHash a' = Some hash)
       /\ writeError a' = None /\ errorMessage a' = None /\ success a' = None)
      \/ (isLoading a' = false
          /\ attestationHash a' = None
          /\ exists e, writeError a' = Some e
               /\ errorMessage a'
                  = Some (JS.messageOr e "An unexpected error occurred"))
  | Pending =>
      isLoading a' = true /\ attestationHash a' = None /\ writeError a' = None
  | Throw _ => False
  end.

(** The outcome of [executeFdcWorkflow] on the page [a]. *)
Definition handlerPost (hooks : Hooks) (a : App) (r : Res unit)
  (evs : list Event) (a' : App) : Prop :=
  map id (steps a') = map id (steps a)
  /\
  match writeCalls evs with
  | [] =>
      threw r = false
      /\ attestationHash a' = attestationHash a
      /\ writeError a' = writeError a
      /\ (r = Ret tt -> exists message, errorMessage a' = Some message)
  | [call] => submittedCall hooks a' call /\ afterSubmit r a'
  | _ => False
  end.

(** What the two effects leave of the page [a]. *)
Definition effectFrame (a a' : App) : Prop :=
  isLoading a' = isLoading a
  /\ attestationHash a' = attestationHash a
  /\ currentAttestationData a' = currentAttestationData a
  /\ map id (steps a') = map id (steps a).

(** The outcome of the effect "Handle transaction success". *)
Definition successEffectPost (receipt : option Receipt) (a : App)
  (r : Res unit) (evs : list Event) (a' : App) : Prop :=
  threw r = false
  /\ writeCalls evs = []
  /\ effectFrame a a'
  /\ writeError a' = writeError a
  /\ (r = Ret tt ->
      match receipt with
      | Some _ =>
          if truthyData (currentAttestationData a) then continuationReport a a'
          else a' = a /\ evs = []
      | None => a' = a /\ evs = []
      end).

(** The outcome of the effect "Handle write contract errors". *)
Definition errorEffectPost (a : App) (r : Res unit) (evs : list Event)
  (a' : App) : Prop :=
  r = Ret tt
  /\ writeCalls evs = []
  /\ effectFrame a a'
  /\ success a' = success a
  /\ match writeError a with
     | Some e =>
         if JS.thrownTruthy e then
           evs = [EvStep "submit-request" error]
           /\ errorMessage a'
              = Some ("Transaction failed: "
                      ++ JS.toText (JS.messageOf e))%string
         else evs = [] /\ a' = a
     | None => evs = [] /\ a' = a
     end.

(** The outcome of one run of the workflow on the page [a]. *)
Definition runPost (hooks : Hooks) (a : App) (r : Res unit) (evs : list Event)
  (a' : App) : Prop :=
  threw r = false
  /\ map id (steps a') = map id (steps a)
  /\ ((writeCalls evs = [] /\ attestationHash a' = attestationHash a)
      \/ (exists call, writeCalls evs = [call] /\ submittedCall hooks a' call
                       /\ (attestationHash a' = None \/ isLoading a' = true)))
  /\ (r = Ret tt ->
      (exists message, errorMessage a' = Some message)
      \/ success a' = Some successMessage
      \/ (isLoading a' = true
          /\ exists before hash,
               evs = before ++ [EvWaitReceipt hash]
               /\ attestationHash a' = Some hash)).

(** The outcome of the effects that follow [executeFdcWorkflow], on the
    page [a]. *)
Definition effectsPost (a : App) (r : Res unit) (evs : list Event) (a' : App)
  : Prop :=
  threw r = false
  /\ writeCalls evs = []
  /\ effectFrame a a'
  /\ (r = Ret tt ->
      (errorMessage a <> None ->
       exists message, errorMessage a' = Some message)
      /\ (forall hash,
             attestationHash a = Some hash ->
             truthyData (currentAttestationData a) = true ->
             (exists message, errorMessage a' = Some message)
             \/ success a' = Some successMessage
             \/ evs = [EvWaitReceipt hash])).

(** [toggleStepExpansion]: the set [expandedSteps] is kept as the list of
    its elements in insertion order. *)
Definition toggleStepExpansion (stepId : string) (a : App) : App :=
  setExpandedSteps
    (if existsb (String.eqb stepId) (expandedSteps a)
     then filter (fun s => negb (stepId =? s)%string) (expandedSteps a)
     else expandedSteps a ++ [stepId]) a.

(** The pages a user can reach: from the initial page, by expanding and
    collapsing steps, by submitting the form while the submit button is
    enabled, and by the two effects running again, whatever the services,
    the hooks and the receipt are at that moment. *)
Inductive Session : App -> Prop :=
| session_start : Session initialApp
| session_toggle (a : App) (stepId : string) :
    Session a -> Session (toggleStepExpansion stepId a)
| session_submit (a : App) (w : World) (JSON_stringify : JSValue -> string)
    (hooks : Hooks) (isHydrated isLoadingAddresses : bool) (fuel : nat)
    (data : FdcFormData) (t : nat) :
    Session a ->
    submitDisabled hooks isHydrated isLoadingAddresses a = false ->
    Session (snd (runWorkflow w JSON_stringify hooks fuel data t a))
| session_success_effect (a : App) (w : World) (hooks : Hooks) (fuel : nat)
    (receipt : option Receipt) (t : nat) :
    Session a ->
    Session (snd (transactionSuccessEffect w hooks fuel receipt t a))
| session_error_effect (a : App) (t : nat) :
    Session a -> Session (snd (writeErrorEffect t a)).

(** The verification contract answers [false]. *)
Definition verificationDenies : World :=
  {| w_fetch := w_fetch friendlyWorld;
     w_getBlock := w_getBlock friendlyWorld;
     w_readContract := fun t client call =>
       if (functionName call =? "verifyPayment")%string then Ret (JBool false)
       else w_readContract friendlyWorld t client call;
     w_writeContract := w_writeContract friendlyWorld;
     w_receipt := w_receipt friendlyWorld |}.

(** [/^[A-F0-9]{64}$/i.test(s)]. *)
Definition isHexDigitIgnoreCase (c : ascii) : bool :=
  let n := N_of_ascii c in
  (((48 <=? n) && (n <=? 57)) || ((65 <=? n) && (n <=? 70))
   || ((97 <=? n) && (n <=? 102)))%N.

Definition transactionIdPattern (s : string) : bool :=
  (length s =? 64)%nat && forallb isHexDigitIgnoreCase (list_ascii_of_string s).

(** [FdcFormDataSchema]: what the form accepts as a transaction id. *)
Definition FdcFormDataSchema (val : string) : bool :=
  (1 <=? length val)%nat && transactionIdPattern (JSString.trim val).

(* ================================================================== *)
(** ** [src/lib/fdcContracts.ts] and the hook [useFdcContracts] *)

(** [result.address || result]. *)
Definition extractContractAddress (result : JSValue) : Res JSValue :=
  address <- JS.getProp result "address" ;;
  ret (if JS.truthy address then address else result).

(** What [getFdcContractAddresses] finds outside: whether [window.ethereum]
    is there, and what [getAddress] of each product of the contract registry
    answers. *)
Record Registry := {
  ethereum : bool;
  getAddress : string -> Res JSValue
}.

Definition registryProducts : list string :=
  ["FdcHub"; "FdcRequestFeeConfigurations"; "FlareSystemsManager";
   "FdcVerification"].

Definition metaMaskMissing : Thrown :=
  Error "MetaMask is not installed. Please install MetaMask to use this feature.".

(** [getFdcContractAddresses]: the outcome and the products asked for, in
    order.  The [catch] logs and throws the error again. *)
Definition getFdcContractAddresses (registry : Registry)
  : Res JSValue * list string :=
  if ethereum registry then
    match getAddress registry "FdcHub" with
    | Ret fdcHubAddressResult =>
        match getAddress registry "FdcRequestFeeConfigurations" with
        | Ret fdcRequestFeeConfigurationsAddressResult =>
            match getAddress registry "FlareSystemsManager" with
            | Ret flareSystemsManagerAddressResult =>
                match getAddress registry "FdcVerification" with
                | Ret fdcVerificationAddressResult =>
                    (hub <- extractContractAddress fdcHubAddressResult ;;
                     fee <- extractContractAddress
                              fdcRequestFeeConfigurationsAddressResult ;;
                     manager <- extractContractAddress
                                  flareSystemsManagerAddressResult ;;
                     verification <- extractContractAddress
                                       fdcVerificationAddressResult ;;
                     ret (JObject
                            [("fdcHub", hub);
                             ("fdcRequestFeeConfigurations", fee);
                             ("flareSystemsManager", manager);
                             ("fdcVerification", verification)]),
                     registryProducts)
                | Throw e => (Throw e, registryProducts)
                | Pending => (Pending, registryProducts)
                end
            | Throw e => (Throw e, firstn 3 registryProducts)
            | Pending => (Pending, firstn 3 registryProducts)
            end
        | Throw e => (Throw e, firstn 2 registryProducts)
        | Pending => (Pending, firstn 2 registryProducts)
        end
    | Throw e => (Throw e, firstn 1 registryProducts)
    | Pending => (Pending, firstn 1 registryProducts)
    end
  else (Throw metaMaskMissing, []).

(** The three cells of [useFdcContracts]. *)
Record ContractsHook := {
  hook_addresses : option JSValue;
  hook_isLoading : bool;
  hook_error : option string
}.

Definition initialContractsHook : ContractsHook :=
  {| hook_addresses := None; hook_isLoading := true; hook_error := None |}.

(** [fetchAddresses], the body of the hook's effect. *)
Definition fetchAddresses (registry : Registry) (h : ContractsHook)
  : ContractsHook :=
  match fst (getFdcContractAddresses registry) with
  | Ret contractAddresses =>
      {| hook_addresses := Some contractAddresses;
         hook_isLoading := false;
         hook_error := None |}
  | Throw _ =>
      {| hook_addresses := hook_addresses h;
         hook_isLoading := false;
         hook_error := Some "Failed to fetch FDC contract addresses" |}
  | Pending =>
      {| hook_addresses := hook_addresses h;
         hook_isLoading := true;
         hook_error := hook_error h |}
  end.

(** The page reads [addresses], [isLoading] and [error] of the hook as
    [fdcAddresses], [isLoadingAddresses] and [addressError]. *)
Definition mirrors (h : ContractsHook) (hooks : Hooks) : Prop :=
  (fdcAddresses hooks = None <-> hook_addresses h = None)
  /\ addressError hooks = hook_error h.

(* ================================================================== *)
(** ** [src/lib/clipboard.ts] *)

Inductive ClipEvent : Type :=
| ClipWrite (text : string)
| ClipSuccess (text : string)
| ClipError (e : Thrown)
| ClipSet (value : option string)
| ClipSetBool (value : bool)
| ClipTimer (ms : Z).

(** [err instanceof Error ? err : new Error('Failed to copy text')]. *)
Definition asError (err : Thrown) : Thrown :=
  match err with
  | ErrorObj _ _ => err
  | NonError _ => Error "Failed to copy text"
  end.

(** A callback given by the caller: its call is recorded, and it may throw. *)
Definition callback {X} (record : X -> ClipEvent) (f : option (X -> Res unit))
  (x : X) : Res unit * list ClipEvent :=
  match f with
  | Some g => (g x, [record x])
  | None => (Ret tt, [])
  end.

(** [copyToClipboard]; [writeText] is the outcome of
    [navigator.clipboard.writeText]. *)
Definition copyToClipboard (writeText : string -> Res unit) (text : string)
  (onSuccess : option (string -> Res unit))
  (onError : option (Thrown -> Res unit)) : Res unit * list ClipEvent :=
  let attempt :=
    match writeText text with
    | Ret _ =>
        let (r, evs) := callback ClipSuccess onSuccess text in
        (r, ClipWrite text :: evs)
    | Throw e => (Throw e, [ClipWrite text])
    | Pending => (Pending, [ClipWrite text])
    end in
  match attempt with
  | (Throw err, evs) =>
      let (r, evs') := callback ClipError onError (asError err) in
      (r, evs ++ evs')
  | other => other
  end.

(** [copyToClipboardWithTimeout]: a call of the setter is recorded, and the
    timer with its delay. *)
Definition copyToClipboardWithTimeout (writeText : string -> Res unit)
  (text : string) (setter : option string -> Res unit) (timeout : option Z)
  : Res unit * list ClipEvent :=
  let timeout := match timeout with Some ms => ms | None => 2000%Z end in
  match writeText text with
  | Ret _ =>
      match setter (Some text) with
      | Ret _ =>
          (Ret tt, [ClipWrite text; ClipSet (Some text); ClipTimer timeout])
      | Throw _ => (Ret tt, [ClipWrite text; ClipSet (Some text)])
      | Pending => (Pending, [ClipWrite text; ClipSet (Some text)])
      end
  | Throw _ => (Ret tt, [ClipWrite text])
  | Pending => (Pending, [ClipWrite text])
  end.

Definition copyToClipboardWithBooleanState (writeText : string -> Res unit)
  (text : string) (setter : bool -> Res unit) (timeout : option Z)
  : Res unit * list ClipEvent :=
  let timeout := match timeout with Some ms => ms | None => 2000%Z end in
  match writeText text with
  | Ret _ =>
      match setter true with
      | Ret _ => (Ret tt, [ClipWrite text; ClipSetBool true; ClipTimer timeout])
      | Throw _ => (Ret tt, [ClipWrite text; ClipSetBool true])
      | Pending => (Pending, [ClipWrite text; ClipSetBool true])
      end
  | Throw _ => (Ret tt, [ClipWrite text])
  | Pending => (Pending, [ClipWrite text])
  end.

(** The cell [copiedText] of the page with the timers that are still to
    fire, each with the time at which it is due.  Every timer set by
    [copyToClipboardWithTimeout] calls [setter(null)]. *)
Record Copied := {
  copiedText : option string;
  timers : list Z
}.

(** The timers due at [now] fire. *)
Definition elapse (now : Z) (c : Copied) : Copied :=
  {| copiedText := if existsb (fun due => (due <=? now)%Z) (timers c)
                   then None else copiedText c;
     timers := filter (fun due => negb (due <=? now)%Z) (timers c) |}.

(** What the events of a copy at [now] do to the cell. *)
Fixpoint applyClip (now : Z) (evs : list ClipEvent) (c : Copied) : Copied :=
  match evs with
  | [] => c
  | ClipSet value :: rest =>
      applyClip now rest {| copiedText := value; timers := timers c |}
  | ClipTimer ms :: rest =>
      applyClip now rest {| copiedText := copiedText c;
                            timers := timers c ++ [(now + ms)%Z] |}
  | _ :: rest => applyClip now rest c
  end.

(** A click on a copy button of the page at [now]; the setter is
    [setCopiedText], a state setter of React, which returns. *)
Definition copyClick (writeText : string -> Res unit) (now : Z) (text : string)
  (c : Copied) : Copied :=
  applyClip now
    (snd (copyToClipboardWithTimeout writeText text (fun _ => Ret tt) None))
    (elapse now c).

(* ================================================================== *)
(** ** The run on which every outside call succeeds *)

(** What the outside answers in such a run. *)
Record Answers := {
  the_addresses : FdcContractAddresses;
  verifierResponse : Response;
  attestation : JSValue;
  encodedRequest : JSValue;
  requestFee : JSValue;
  transactionHash : JSValue;
  confirmed : Receipt;
  confirmedBlock : Block;
  firstRoundStart : JSValue;
  roundStart : Z;
  roundDuration : JSValue;
  roundSeconds : Z;
  currentRound : JSValue;
  daLayerResponse : Response;
  retrievedProof : JSValue;
  verifiedResponse : JSValue;
  verifiedBody : JSValue;
  verifyArgument : JSValue;
  verifyAnswer : JSValue
}.

(** The client [submitAttestationRequestWithWagmi] reads the fee with. *)
Definition feeClient (hooks : Hooks) : Client :=
  if wagmiClientAvailable hooks then wagmiPublicClient
  else fallbackPublicClient.

Definition submittedTransaction (o : Answers) : WriteCall :=
  {| write_address := fdcHub (the_addresses o);
     write_args := [encodedRequest o];
     write_value := requestFee o |}.

(** The round [calculateRoundId] computes from the answers. *)
Definition answeredRound (o : Answers) : Z :=
  JS.numberOfBigInt
    (Z.quot (timestamp (confirmedBlock o) - roundStart o) (roundSeconds o)).

Definition proofFetch (o : Answers) : FetchRequest :=
  daLayerRequest FDC_CONSTANTS.DA_LAYER_API_URL
    (proofRequest (answeredRound o) (encodedRequest o))
    FDC_CONSTANTS.DA_LAYER_API_KEY.

(** Every outside call of a run for [data] succeeds, whenever it is made:
    the hooks give the addresses and a connected wallet; the verifier
    answers the first request with a success status and an encoded
    request; the fee is read; the wallet returns a hash and the transaction
    is confirmed; the chain gives the block and the rounds, of a length
    that is not 0; the Data Availability Layer has the proof, complete and
    with the fields the page requires; the verification contract answers. *)
Record cooperative (w : World) (hooks : Hooks) (data : FdcFormData)
  (o : Answers) : Prop := {
  hooks_addresses : fdcAddresses hooks = Some (the_addresses o);
  hooks_loaded : truthyString (addressError hooks) = false;
  wallet_connected : isConnected hooks = true;
  hub_loaded : addressMissing (Some (the_addresses o)) fdcHub = false;
  manager_loaded :
    addressMissing (Some (the_addresses o)) flareSystemsManager = false;
  verifier_answers :
    forall t, w_fetch w t
                (prepareRequestFetch (JSString.trim (transactionId data)))
              = Ret (verifierResponse o);
  verifier_ok : ok (verifierResponse o) = true;
  verifier_json : json (verifierResponse o) = Ret (attestation o);
  request_encoded :
    JS.getProp (attestation o) "abiEncodedRequest" = Ret (encodedRequest o);
  request_truthy : JS.truthy (encodedRequest o) = true;
  fee_read :
    forall t, w_readContract w t (feeClient hooks)
                (feeCall (Some (the_addresses o)) (encodedRequest o))
              = Ret (requestFee o);
  wallet_submits :
    forall t, w_writeContract w t (submittedTransaction o)
              = Ret (transactionHash o);
  transaction_confirmed :
    forall t, w_receipt w t (transactionHash o) = Some (confirmed o);
  block_read :
    forall t, w_getBlock w t sharedPublicClient (blockNumber (confirmed o))
              = Ret (confirmedBlock o);
  first_round_read :
    forall t, w_readContract w t sharedPublicClient
                (systemsManagerCall (Some (the_addresses o))
                   "firstVotingRoundStartTs")
              = Ret (firstRoundStart o);
  first_round_value : JS.BigInt (firstRoundStart o) = Ret (roundStart o);
  duration_read :
    forall t, w_readContract w t sharedPublicClient
                (systemsManagerCall (Some (the_addresses o))
                   "votingEpochDurationSeconds")
              = Ret (roundDuration o);
  duration_value : JS.BigInt (roundDuration o) = Ret (roundSeconds o);
  duration_not_zero : roundSeconds o <> 0%Z;
  current_round_read :
    forall t, w_readContract w t sharedPublicClient
                (systemsManagerCall (Some (the_addresses o))
                   "getCurrentVotingEpochId")
              = Ret (currentRound o);
  proof_answered :
    forall t, w_fetch w t (proofFetch o) = Ret (daLayerResponse o);
  proof_ok : ok (daLayerResponse o) = true;
  proof_json : json (daLayerResponse o) = Ret (retrievedProof o);
  proof_present : hasProof (retrievedProof o) = Ret true;
  proof_complete :
    completeProofData (retrievedProof o) (Some (the_addresses o))
      (verifyArgument o);
  proof_response :
    JS.getProp (retrievedProof o) "response" = Ret (verifiedResponse o);
  proof_body :
    JS.getProp (verifiedResponse o) "responseBody" = Ret (verifiedBody o);
  proof_fields : checkRequiredFields (verifiedBody o) requiredFields = Ret tt;
  verification_answers :
    forall t, w_readContract w t sharedPublicClient
                (verifyPaymentCall (Some (the_addresses o)) (verifyArgument o))
              = Ret (verifyAnswer o)
}.

(** The events of that run: the five steps, each started and completed in
    turn, with the call of the verification contract as the last
    operation. *)
Definition completeRun (hooks : Hooks) (data : FdcFormData) (o : Answers)
  : list Event :=
  let addresses := Some (the_addresses o) in
  [EvStep "prepare-request" in_progress;
   EvFetch (prepareRequestFetch (JSString.trim (transactionId data)));
   EvStep "prepare-request" completed;
   EvStep "submit-request" in_progress;
   EvReadContract (feeClient hooks) (feeCall addresses (encodedRequest o));
   EvWriteContract (submittedTransaction o);
   EvWaitReceipt (transactionHash o);
   EvStep "submit-request" completed;
   EvStep "wait-finalization" in_progress]
  ++ roundCalls addresses (confirmed o)
  ++ [EvStep "wait-finalization" in_progress;
      EvSleep 30000;
      EvStep "wait-finalization" completed;
      EvStep "prepare-proof" in_progress;
      EvSleep 30000;
      EvSleep 10000;
      EvFetch (proofFetch o);
      EvStep "prepare-proof" completed;
      EvStep "verify-data" in_progress;
      EvReadContract sharedPublicClient
        (verifyPaymentCall addresses (verifyArgument o));
      EvStep "verify-data" completed].

(** The changes of status of a complete run. *)
Definition workflowSteps : list (string * StepStatus) :=
  [("prepare-request", in_progress); ("prepare-request", completed);
   ("submit-request", in_progress); ("submit-request", completed);
   ("wait-finalization", in_progress); ("wait-finalization", in_progress);
   ("wait-finalization", completed);
   ("prepare-proof", in_progress); ("prepare-proof", completed);
   ("verify-data", in_progress); ("verify-data", completed)].

(** A chain and services that always answer, and at once: the friendly
    world with a Data Availability Layer that has the proof from the first
    request on. *)
Definition promptWorld : World :=
  {| w_fetch := fun _ request =>
       if (req_url request =? FDC_CONSTANTS.DA_LAYER_API_URL)%string
       then Ret (okResponse sampleProof)
       else Ret (okResponse (JObject [("abiEncodedRequest", JString "0xabc")]));
     w_getBlock := w_getBlock friendlyWorld;
     w_readContract := w_readContract friendlyWorld;
     w_writeContract := w_writeContract friendlyWorld;
     w_receipt := w_receipt friendlyWorld |}.

Definition promptAnswers : Answers :=
  {| the_addresses := sampleAddresses;
     verifierResponse :=
       okResponse (JObject [("abiEncodedRequest", JString "0xabc")]);
     attestation := JObject [("abiEncodedRequest", JString "0xabc")];
     encodedRequest := JString "0xabc";
     requestFee := JBigInt 5;
     transactionHash := JString "0xfeed";
     confirmed := {| blockNumber := 77 |};
     confirmedBlock := {| timestamp := 1730000900 |};
     firstRoundStart := JBigInt 1730000000;
     roundStart := 1730000000;
     roundDuration := JBigInt 90;
     roundSeconds := 90;
     currentRound := JBigInt 11;
     daLayerResponse := okResponse sampleProof;
     retrievedProof := sampleProof;
     verifiedResponse :=
       match JS.getProp sampleProof "response" with
       | Ret response => response
       | Throw _ | Pending => JUndefined
       end;
     verifiedBody :=
       match (response <- JS.getProp sampleProof "response" ;;
              JS.getProp response "responseBody") with
       | Ret body => body
       | Throw _ | Pending => JUndefined
       end;
     verifyArgument :=
       match fst (proofDataArgument sampleProof 0) with
       | Ret argument => argument
       | Throw _ | Pending => JUndefined
       end;
     verifyAnswer := JBool true |}.
(* ================================================================== *)
(** * Properties *)

(** ** Strings and [toHex] *)

Module JSStringFacts.
Import JSString.

Lemma append_empty (s : string) : (s ++ "")%string = s.
Proof. induction s as [|c s IH]; simpl; [reflexivity | now rewrite IH]. Qed.

Lemma append_assoc (a b c : string) :
  ((a ++ b) ++ c)%string = (a ++ (b ++ c))%string.
Proof. induction a as [|x a IH]; simpl; [reflexivity | now rewrite IH]. Qed.

Lemma length_append (a b : string) :
  length (a ++ b) = length a + length b.
Proof. induction a as [|x a IH]; simpl; [reflexivity | now rewrite IH]. Qed.

Lemma allHex_append (a b : string) :
  allHex (a ++ b) = allHex a && allHex b.
Proof.
  induction a as [|x a IH]; simpl; [reflexivity|].
  rewrite IH. now rewrite andb_assoc.
Qed.

Lemma length_zeros (n : nat) : length (zeros n) = n.
Proof. induction n; simpl; congruence. Qed.

Lemma allHex_zeros (n : nat) : allHex (zeros n) = true.
Proof. induction n; simpl; [reflexivity | assumption]. Qed.

Lemma cycle_zero_empty (n : nat) : cycle n "0" "" = zeros n.
Proof. induction n; simpl; congruence. Qed.

Lemma cycle_zero (n : nat) : cycle n "0" "0" = zeros n.
Proof. destruct n; simpl; [reflexivity | now rewrite cycle_zero_empty]. Qed.

Lemma padEnd_zeros (s : string) (n : nat) :
  length s <= n -> padEnd s n "0" = (s ++ zeros (n - length s))%string.
Proof.
  intros Hle. unfold padEnd.
  destruct (Nat.leb_spec n (length s)) as [Hge|Hlt].
  - replace (n - length s) with 0 by lia. simpl. now rewrite append_empty.
  - simpl. now rewrite cycle_zero.
Qed.

(** Every code unit of the model prints as one or two hexadecimal digits. *)
Lemma toString16_charCode (c : ascii) :
  length (toString16 (charCodeAt c)) <= 2
  /\ allHex (toString16 (charCodeAt c)) = true.
Proof.
  destruct c as [[] [] [] [] [] [] [] []]; vm_compute; split;
    solve [reflexivity | repeat constructor].
Qed.

Lemma digitValue_hexDigit (d : N) :
  (d < 16)%N -> digitValue (hexDigit d) = d.
Proof.
  intros Hd.
  assert (Hcases : In d (map N.of_nat (seq 0 16))).
  { replace d with (N.of_nat (N.to_nat d)) by apply N2Nat.id.
    apply in_map, in_seq. lia. }
  simpl in Hcases.
  repeat (destruct Hcases as [<- | Hcases]; [reflexivity|]).
  contradiction.
Qed.

Lemma hexValue_shift (s : string) (v : N) :
  hexValue v s = (v * 16 ^ N.of_nat (length s) + hexValue 0 s)%N.
Proof.
  revert v. induction s as [|c s IH]; intros v.
  - simpl. lia.
  - cbn [hexValue length]. rewrite IH, (IH (16 * 0 + digitValue c)%N).
    rewrite Nat2N.inj_succ, N.pow_succ_r'. lia.
Qed.

Lemma hexValue_digit (n : N) (acc : string) :
  (n < 16)%N ->
  hexValue 0 (String (hexDigit (n mod 16)) acc)
  = (n * 16 ^ N.of_nat (length acc) + hexValue 0 acc)%N.
Proof.
  intros Hn. cbn [hexValue]. rewrite hexValue_shift.
  rewrite N.mod_small by assumption.
  rewrite digitValue_hexDigit by assumption. lia.
Qed.

Lemma toStringRadix16_value (fuel : nat) :
  forall (n : N) (acc : string),
    (n < 16 ^ N.of_nat (S fuel))%N ->
    hexValue 0 (toStringRadix16 fuel n acc)
    = (n * 16 ^ N.of_nat (length acc) + hexValue 0 acc)%N.
Proof.
  induction fuel as [|fuel IH]; intros n acc Hn.
  - cbn [toStringRadix16]. apply hexValue_digit. exact Hn.
  - cbn [toStringRadix16].
    destruct (N.eqb_spec (n / 16) 0) as [Hq|Hq].
    + apply hexValue_digit.
      apply N.div_small_iff in Hq; [assumption | lia].
    + rewrite IH.
      * cbn [hexValue length].
        rewrite (hexValue_shift acc (16 * 0 + _)%N).
        rewrite digitValue_hexDigit by (apply N.mod_lt; lia).
        rewrite Nat2N.inj_succ, N.pow_succ_r'.
        pose proof (N.div_mod n 16 ltac:(lia)) as Hdm. nia.
      * rewrite Nat2N.inj_succ, N.pow_succ_r' in Hn.
        apply N.Div0.div_lt_upper_bound. exact Hn.
Qed.

(** [toString16] is the hexadecimal numeral of its argument. *)
Lemma toString16_value (n : N) : hexValue 0 (toString16 n) = n.
Proof.
  unfold toString16. rewrite toStringRadix16_value.
  - simpl. lia.
  - rewrite Nat2N.inj_succ, N2Nat.id.
    destruct (N.eq_dec n 0) as [->|Hn]; [reflexivity|].
    apply N.lt_le_trans with (2 ^ N.succ (N.log2 n))%N.
    + apply N.log2_spec. lia.
    + apply N.pow_le_mono_l. lia.
Qed.

End JSStringFacts.

Example trim_example : JSString.trim "  8F2A 1B  " = "8F2A 1B".
Proof. reflexivity. Qed.

Example ofZ_example : JSString.ofZ 10 = "10" /\ JSString.ofZ (-3) = "-3".
Proof. split; reflexivity. Qed.

Example stringToBigInt_examples :
  JS.stringToBigInt " 1021 " = Some 1021%Z
  /\ JS.stringToBigInt "0x1f" = Some 31%Z
  /\ JS.stringToBigInt "-7" = Some (-7)%Z
  /\ JS.stringToBigInt "" = Some 0%Z
  /\ JS.stringToBigInt "12a" = None.
Proof. repeat split; reflexivity. Qed.

Section ToHex.
Import JSString JSStringFacts.

Lemma toHex_loop_hexCodes (data result : string) :
  toHex_loop data result = (result ++ hexCodes data)%string.
Proof.
  revert result. induction data as [|c data IH]; intros result; simpl.
  - now rewrite append_empty.
  - now rewrite IH, append_assoc.
Qed.

Lemma hexCodes_length (data : string) :
  length (hexCodes data) <= 2 * length data.
Proof.
  induction data as [|c data IH]; simpl; [lia|].
  rewrite length_append.
  pose proof (proj1 (toString16_charCode c)). lia.
Qed.

Lemma hexCodes_allHex (data : string) : allHex (hexCodes data) = true.
Proof.
  induction data as [|c data IH]; simpl; [reflexivity|].
  rewrite allHex_append, IH, (proj2 (toString16_charCode c)). reflexivity.
Qed.

(** C9.  For a string of at most 32 ASCII characters, [toHex] yields "0x"
    followed by exactly 64 hexadecimal characters: the hexadecimal char codes
    of the characters, concatenated, then '0' up to length 64.  On the empty
    string it yields "0x" and 64 zeros. *)
Theorem toHex_ascii_padded (data : string)
  (Hlen : length data <= 32) (Hascii : isAsciiString data) :
  (exists digits : string,
      toHex data = ("0x" ++ digits)%string
      /\ length digits = 64
      /\ allHex digits = true
      /\ digits = (hexCodes data ++ zeros (64 - length (hexCodes data)))%string)
  /\ toHex "" = ("0x" ++ zeros 64)%string.
Proof.
  split; [|reflexivity].
  pose proof (hexCodes_length data) as Hcodes.
  exists (hexCodes data ++ zeros (64 - length (hexCodes data)))%string.
  repeat split.
  - unfold toHex. rewrite toHex_loop_hexCodes. cbn [append].
    rewrite padEnd_zeros by lia. reflexivity.
  - rewrite length_append, length_zeros. lia.
  - now rewrite allHex_append, hexCodes_allHex, allHex_zeros.
Qed.

Lemma toHex_ascii_padded_witness :
  length "testXRP" <= 32 /\ isAsciiString "testXRP"
  /\ ((exists digits : string,
          toHex "testXRP" = ("0x" ++ digits)%string
          /\ length digits = 64
          /\ allHex digits = true
          /\ digits = (hexCodes "testXRP"
                       ++ zeros (64 - length (hexCodes "testXRP")))%string)
      /\ toHex "" = ("0x" ++ zeros 64)%string).
Proof.
  split; [simpl; lia|].
  split; [unfold isAsciiString; simpl; repeat constructor|].
  apply (toHex_ascii_padded "testXRP").
  - simpl; lia.
  - unfold isAsciiString; simpl; repeat constructor.
Defined.

(** The two constants the page sends to the verifier are [toHex] of the
    attestation type and of the source id. *)
Example toHex_Payment :
  toHex "Payment"
  = "0x5061796d656e7400000000000000000000000000000000000000000000000000".
Proof. reflexivity. Qed.

End ToHex.

(* ================================================================== *)
(** ** [updateStepStatus] *)

Section UpdateStepStatus.

Lemma updateStep_same (stepId : string) st data err (step : FdcStep) :
  id step = stepId ->
  updateStep stepId st data err step
  = {| id := id step; title := title step; description := description step;
       step_status := st; step_data := data; step_error := err;
       details := details step |}.
Proof. intros <-. unfold updateStep. now rewrite String.eqb_refl. Qed.

Lemma updateStep_other (stepId : string) st data err (step : FdcStep) :
  id step <> stepId -> updateStep stepId st data err step = step.
Proof.
  intros Hne. unfold updateStep.
  destruct (String.eqb_spec (id step) stepId); [contradiction | reflexivity].
Qed.

Lemma updateStep_keeps (stepId : string) st data err (step : FdcStep) :
  let step' := updateStep stepId st data err step in
  id step' = id step /\ title step' = title step
  /\ description step' = description step /\ details step' = details step.
Proof.
  unfold updateStep. destruct (id step =? stepId)%string; simpl; auto.
Qed.

(** C10.  [updateStepStatus] returns a list of the same length and order in
    which every step with another id is unchanged, and the step with the
    given id keeps its id, title, description and details while its status,
    data and error are the ones given. *)
Theorem updateStepStatus_only_matching_step
  (stepId : string) (st : StepStatus) (data : option JSValue)
  (err : option string) (t : nat) (a : App) :
  let steps' := steps (snd (updateStepStatus stepId st data err t a)) in
  List.length steps' = List.length (steps a)
  /\ forall (i : nat) (step : FdcStep),
       nth_error (steps a) i = Some step ->
       exists step' : FdcStep,
         nth_error steps' i = Some step'
         /\ id step' = id step /\ title step' = title step
         /\ description step' = description step
         /\ details step' = details step
         /\ (id step <> stepId -> step' = step)
         /\ (id step = stepId ->
             step_status step' = st /\ step_data step' = data
             /\ step_error step' = err).
Proof.
  cbn. split; [apply length_map|].
  intros i step Hi.
  exists (updateStep stepId st data err step).
  destruct (updateStep_keeps stepId st data err step) as (Hid & Ht & Hd & Hdt).
  repeat split; try assumption.
  - rewrite nth_error_map, Hi. reflexivity.
  - apply updateStep_other.
  - rewrite updateStep_same by assumption. reflexivity.
  - rewrite updateStep_same by assumption. reflexivity.
  - rewrite updateStep_same by assumption. reflexivity.
Qed.

Example updateStepStatus_initialSteps :
  map (fun s => (id s, step_status s))
    (steps (snd (updateStepStatus "prepare-proof" completed None None 0 initialApp)))
  = [("prepare-request", pending); ("submit-request", pending);
     ("wait-finalization", pending); ("prepare-proof", completed);
     ("verify-data", pending)].
Proof. reflexivity. Qed.

End UpdateStepStatus.

(* ================================================================== *)
(** ** The monad of the library functions *)

Section LFacts.

Context {A B : Type}.

Lemma bindL_ret (m : L A) (k : A -> L B) (t : nat) (a : A) (evs : list Event) :
  m t = (Ret a, evs) ->
  (x <- m ;; k x) t
  = (fst (k a (t + List.length evs)), evs ++ snd (k a (t + List.length evs))).
Proof.
  intros Hm. cbn [bind Monad_L]. unfold bindL. rewrite Hm.
  now destruct (k a (t + List.length evs)).
Qed.

Lemma bindL_throw (m : L A) (k : A -> L B) (t : nat) (e : Thrown)
  (evs : list Event) :
  m t = (Throw e, evs) -> (x <- m ;; k x) t = (Throw e, evs).
Proof. intros Hm. cbn [bind Monad_L]. unfold bindL. now rewrite Hm. Qed.

Lemma bindL_pending (m : L A) (k : A -> L B) (t : nat) (evs : list Event) :
  m t = (Pending, evs) -> (x <- m ;; k x) t = (Pending, evs).
Proof. intros Hm. cbn [bind Monad_L]. unfold bindL. now rewrite Hm. Qed.

Lemma bindL_liftRes_ret (r : Res A) (k : A -> L B) (t : nat) (a : A) :
  r = Ret a -> (x <- liftRes r ;; k x) t = k a t.
Proof.
  intros ->. cbn [bind Monad_L]. unfold bindL, liftRes.
  rewrite Nat.add_0_r. now destruct (k a t).
Qed.

End LFacts.

Lemma silent_liftRes {A} (r : Res A) : silent (liftRes r).
Proof. intros t. reflexivity. Qed.

Lemma silent_ret {A} (a : A) : silent (ret a : L A).
Proof. intros t. reflexivity. Qed.

Lemma silent_throw {A} (e : Thrown) : silent (throwL e : L A).
Proof. intros t. reflexivity. Qed.

Lemma silent_bind {A B} (m : L A) (k : A -> L B) :
  silent m -> (forall a, silent (k a)) -> silent (x <- m ;; k x).
Proof.
  intros Hm Hk t. cbn [bind Monad_L]. unfold bindL.
  specialize (Hm t).
  destruct (m t) as [[a|e|] evs]; cbn [snd] in Hm; subst evs;
    try reflexivity.
  cbn [List.length]. specialize (Hk a (t + 0)).
  destruct (k a (t + 0)). exact Hk.
Qed.

Lemma silent_run {A} (m : L A) (t : nat) : silent m -> m t = (fst (m t), []).
Proof. intros Hm. specialize (Hm t). destruct (m t); simpl in *; congruence. Qed.

Ltac silent_tac :=
  repeat first
    [ apply silent_liftRes | apply silent_ret | apply silent_throw
    | apply silent_bind; [|intro] ].

(* ================================================================== *)
(** ** The proof predicate *)

Lemma lacksProof_hasProof (v : JSValue) :
  lacksProof v = (b <- hasProof v ;; ret (negb b)).
Proof.
  unfold lacksProof, hasProof. cbn [bind ret Monad_Res]. unfold bindRes.
  destruct (JS.getProp v "response") as [r|e|]; try reflexivity.
  destruct (JS.truthy r); simpl; try reflexivity.
  destruct (JS.getProp v "proof") as [q|e|]; try reflexivity.
  destruct (JS.truthy q); reflexivity.
Qed.

Lemma hasProof_proofPredicate (v : JSValue) :
  hasProof v = Ret true <-> proofPredicate v.
Proof.
  unfold hasProof, proofPredicate. cbn [bind ret Monad_Res]. unfold bindRes.
  split.
  - destruct v as [| |b|n|n|s|items|fields]; simpl; try discriminate.
    destruct (JS.lookup "response" fields) as [r|] eqn:Hr; simpl;
        [|discriminate].
    destruct (JS.truthy r) eqn:Htr; [|discriminate].
    destruct (JS.lookup "proof" fields) as [q|] eqn:Hq; simpl;
      [|discriminate].
    destruct (JS.truthy q); [|discriminate].
    destruct q; simpl; try discriminate.
    intros _. eauto 10.
  - intros (fields & r & items & -> & Hr & Htr & Hq). simpl.
    rewrite Hr, Htr, Hq. reflexivity.
Qed.

(* ================================================================== *)
(** ** [retrieveDataAndProof]: polling the Data Availability Layer *)

Section Retrieve.

Variables (w : World) (url : string) (request : JSValue) (apiKey : string).

Let req := daLayerRequest url request apiKey.
Let post := postRequestToDALayer w url request apiKey.

Lemma postRequestToDALayer_run (t : nat) :
  post t = (fst (post t), [EvFetch req]).
Proof.
  unfold post, postRequestToDALayer, fetch, ask. cbn [bind Monad_L].
  unfold bindL. fold req.
  destruct (w_fetch w t req) as [response|e|]; try reflexivity.
  destruct (negb (ok response)); reflexivity.
Qed.

Lemma pollDALayer_zero (proof : JSValue) (t : nat) :
  pollDALayer w 0 url request apiKey proof t
  = match lacksProof proof with
    | Ret true => (Pending, [])
    | Ret false => (Ret proof, [])
    | Throw e => (Throw e, [])
    | Pending => (Pending, [])
    end.
Proof.
  cbn [pollDALayer bind Monad_L]. unfold bindL, liftRes.
  destruct (lacksProof proof) as [[|]|e|]; reflexivity.
Qed.

Lemma pollDALayer_step (fuel : nat) (proof : JSValue) (t : nat) :
  pollDALayer w (S fuel) url request apiKey proof t
  = match lacksProof proof with
    | Ret true =>
        match fst (post (t + 1)) with
        | Ret proof' =>
            match hasProof proof' with
            | Ret true => (Ret proof', pollTrace req 1)
            | Ret false =>
                let (r, evs) :=
                  pollDALayer w fuel url request apiKey proof' (t + 2) in
                (r, pollTrace req 1 ++ evs)
            | Throw e => (Throw e, pollTrace req 1)
            | Pending => (Pending, pollTrace req 1)
            end
        | Throw e => (Throw e, pollTrace req 1)
        | Pending => (Pending, pollTrace req 1)
        end
    | Ret false => (Ret proof, [])
    | Throw e => (Throw e, [])
    | Pending => (Pending, [])
    end.
Proof.
  cbn [pollDALayer bind Monad_L]. unfold bindL at 1. unfold liftRes at 1.
  destruct (lacksProof proof) as [[|]|e|]; try reflexivity.
  cbn [List.length]. rewrite Nat.add_0_r.
  unfold bindL at 1. unfold sleep at 1. cbn [List.length].
  unfold bindL at 1. fold post. rewrite (postRequestToDALayer_run (t + 1)).
  cbn [fst]. destruct (fst (post (t + 1))) as [proof'|e|]; try reflexivity.
  unfold bindL, liftRes.
  destruct (hasProof proof') as [[|]|e|]; try reflexivity.
  cbn [List.length]. replace (t + 1 + 1 + 0) with (t + 2) by lia.
  destruct (pollDALayer w fuel url request apiKey proof' (t + 2)).
  reflexivity.
Qed.

Lemma lacksProof_of_hasProof (v : JSValue) (b : bool) :
  hasProof v = Ret b -> lacksProof v = Ret (negb b).
Proof. intros H. rewrite lacksProof_hasProof, H. reflexivity. Qed.

Lemma hasProof_of_lacksProof (v : JSValue) (b : bool) :
  lacksProof v = Ret b -> hasProof v = Ret (negb b).
Proof.
  rewrite lacksProof_hasProof. cbn [bind ret Monad_Res]. unfold bindRes.
  destruct (hasProof v) as [c|e|]; try discriminate.
  intros [= <-]. now rewrite negb_involutive.
Qed.

(** The loop asks at most [fuel] times, each time after waiting 10000 ms. *)
Lemma pollDALayer_trace (fuel : nat) :
  forall (proof : JSValue) (t : nat),
  exists k : nat,
    k <= fuel
    /\ snd (pollDALayer w fuel url request apiKey proof t) = pollTrace req k.
Proof.
  induction fuel as [|fuel IH]; intros proof t.
  - exists 0. split; [lia|]. rewrite pollDALayer_zero.
    destruct (lacksProof proof) as [[|]|e|]; reflexivity.
  - rewrite pollDALayer_step.
    destruct (lacksProof proof) as [[|]|e|];
      try (exists 0; split; [lia | reflexivity]).
    destruct (fst (post (t + 1))) as [proof'|e|];
      try (exists 1; split; [lia | reflexivity]).
    destruct (hasProof proof') as [[|]|e|];
      try (exists 1; split; [lia | reflexivity]).
    destruct (IH proof' (t + 2)) as (k & Hk & Htrace).
    destruct (pollDALayer w fuel url request apiKey proof' (t + 2)) as [r evs].
    exists (S k). split; [lia|]. cbn [snd] in *. rewrite Htrace. reflexivity.
Qed.

(** What the loop returns has the proof. *)
Lemma pollDALayer_returns (fuel : nat) :
  forall (proof : JSValue) (t : nat) (v : JSValue),
    fst (pollDALayer w fuel url request apiKey proof t) = Ret v ->
    hasProof v = Ret true.
Proof.
  induction fuel as [|fuel IH]; intros proof t v.
  - rewrite pollDALayer_zero.
    destruct (lacksProof proof) as [[|]|e|] eqn:Hl; cbn [fst]; try discriminate.
    intros [= <-]. apply (hasProof_of_lacksProof _ _ Hl).
  - rewrite pollDALayer_step.
    destruct (lacksProof proof) as [[|]|e|] eqn:Hl; cbn [fst]; try discriminate.
    + destruct (fst (post (t + 1))) as [proof'|e|]; cbn [fst]; try discriminate.
      destruct (hasProof proof') as [[|]|e|] eqn:Hh; cbn [fst]; try discriminate.
      * now intros [= <-].
      * specialize (IH proof' (t + 2) v).
        destruct (pollDALayer w fuel url request apiKey proof' (t + 2)).
        exact IH.
    + intros [= <-]. apply (hasProof_of_lacksProof _ _ Hl).
Qed.

(** The loop goes on while the answers lack the proof and stops at the
    first one that has it. *)
Lemma pollDALayer_finds (n : nat) :
  forall (fuel : nat) (proof : JSValue) (t : nat) (v : JSValue),
    n < fuel ->
    hasProof proof = Ret false ->
    (forall i, i < n ->
       exists b, fst (post (t + 1 + 2 * i)) = Ret b /\ hasProof b = Ret false) ->
    fst (post (t + 1 + 2 * n)) = Ret v ->
    hasProof v = Ret true ->
    pollDALayer w fuel url request apiKey proof t = (Ret v, pollTrace req (S n)).
Proof.
  induction n as [|n IH]; intros fuel proof t v Hfuel Hproof Hbefore Hlast Hv;
    destruct fuel as [|fuel]; try lia;
    rewrite pollDALayer_step, (lacksProof_of_hasProof _ _ Hproof); cbn [negb].
  - replace (t + 1 + 2 * 0) with (t + 1) in Hlast by lia.
    rewrite Hlast, Hv. reflexivity.
  - destruct (Hbefore 0 ltac:(lia)) as (b & Hb & Hhb).
    replace (t + 1 + 2 * 0) with (t + 1) in Hb by lia.
    rewrite Hb, Hhb.
    rewrite (IH fuel b (t + 2) v); try assumption; try lia.
    + reflexivity.
    + intros i Hi. destruct (Hbefore (S i) ltac:(lia)) as (b' & Hb' & Hhb').
      exists b'. split; [|assumption].
      replace (t + 2 + 1 + 2 * i) with (t + 1 + 2 * S i) by lia. assumption.
    + replace (t + 2 + 1 + 2 * n) with (t + 1 + 2 * S n) by lia. assumption.
Qed.

End Retrieve.

Section RetrieveDataAndProof.

Variables (w : World) (url : string) (abiEncodedRequest : JSValue)
  (roundId : Z) (apiKey : string).

Let request := proofRequest roundId abiEncodedRequest.
Let req := daLayerRequest url request apiKey.
Let post := postRequestToDALayer w url request apiKey.

Lemma retrieveDataAndProof_run (fuel t : nat) :
  retrieveDataAndProof w fuel url abiEncodedRequest roundId apiKey t
  = match fst (post (t + 2)) with
    | Ret proof =>
        match hasProof proof with
        | Ret true => (Ret proof, retrieveTrace req 0)
        | Ret false =>
            let (r, evs) :=
              pollDALayer w fuel url request apiKey proof (t + 3) in
            (r, retrieveTrace req 0 ++ evs)
        | Throw e => (Throw e, retrieveTrace req 0)
        | Pending => (Pending, retrieveTrace req 0)
        end
    | Throw e => (Throw e, retrieveTrace req 0)
    | Pending => (Pending, retrieveTrace req 0)
    end.
Proof.
  unfold retrieveDataAndProof. cbn [bind Monad_L].
  unfold bindL at 1. unfold sleep at 1. cbn [List.length].
  unfold bindL at 1. unfold sleep at 1. cbn [List.length].
  unfold bindL at 1.
  replace (t + 1 + 1) with (t + 2) by lia.
  rewrite (postRequestToDALayer_run w url
             (proofRequest roundId abiEncodedRequest) apiKey (t + 2)).
  fold request. fold post. fold req. cbn [fst].
  destruct (fst (post (t + 2))) as [proof|e|]; try reflexivity.
  unfold bindL, liftRes.
  destruct (hasProof proof) as [[|]|e|]; try reflexivity.
  cbn [List.length]. replace (t + 2 + 1 + 0) with (t + 3) by lia.
  destruct (pollDALayer w fuel url request apiKey proof (t + 3)).
  reflexivity.
Qed.

Lemma retrieveDataAndProof_trace (fuel t : nat) :
  exists k : nat,
    k <= fuel
    /\ snd (retrieveDataAndProof w fuel url abiEncodedRequest roundId apiKey t)
       = retrieveTrace req k.
Proof.
  rewrite retrieveDataAndProof_run.
  destruct (fst (post (t + 2))) as [proof|e|];
    try (exists 0; split; [lia | reflexivity]).
  destruct (hasProof proof) as [[|]|e|];
    try (exists 0; split; [lia | reflexivity]).
  destruct (pollDALayer_trace w url request apiKey fuel proof (t + 3))
    as (k & Hk & Htrace).
  destruct (pollDALayer w fuel url request apiKey proof (t + 3)) as [r evs].
  exists k. split; [assumption|]. cbn [snd] in *. rewrite Htrace. reflexivity.
Qed.

Lemma retrieveDataAndProof_returns (fuel t : nat) (v : JSValue) :
  fst (retrieveDataAndProof w fuel url abiEncodedRequest roundId apiKey t) = Ret v ->
  hasProof v = Ret true.
Proof.
  rewrite retrieveDataAndProof_run.
  destruct (fst (post (t + 2))) as [proof|e|]; cbn [fst]; try discriminate.
  destruct (hasProof proof) as [[|]|e|] eqn:Hh; cbn [fst]; try discriminate.
  - now intros [= <-].
  - pose proof (pollDALayer_returns w url request apiKey fuel proof (t + 3) v) as H.
    destruct (pollDALayer w fuel url request apiKey proof (t + 3)). exact H.
Qed.

Lemma retrieveDataAndProof_finds (n fuel t : nat) (v : JSValue) :
  n <= fuel ->
  (forall i, i < n ->
     exists b, fst (post (t + 2 + 2 * i)) = Ret b /\ hasProof b = Ret false) ->
  fst (post (t + 2 + 2 * n)) = Ret v ->
  hasProof v = Ret true ->
  retrieveDataAndProof w fuel url abiEncodedRequest roundId apiKey t
  = (Ret v, retrieveTrace req n).
Proof.
  intros Hfuel Hbefore Hlast Hv. rewrite retrieveDataAndProof_run.
  destruct n as [|n].
  - replace (t + 2 + 2 * 0) with (t + 2) in Hlast by lia.
    rewrite Hlast, Hv. reflexivity.
  - destruct (Hbefore 0 ltac:(lia)) as (b & Hb & Hhb).
    replace (t + 2 + 2 * 0) with (t + 2) in Hb by lia.
    rewrite Hb, Hhb.
    rewrite (pollDALayer_finds w url request apiKey n fuel b (t + 3) v);
      try assumption; try lia.
    + reflexivity.
    + intros i Hi. destruct (Hbefore (S i) ltac:(lia)) as (b' & Hb' & Hhb').
      exists b'. split; [|assumption].
      replace (t + 3 + 1 + 2 * i) with (t + 2 + 2 * S i) by lia. assumption.
    + replace (t + 3 + 1 + 2 * n) with (t + 2 + 2 * S n) by lia. assumption.
Qed.

(** C4.  A value returned by [retrieveDataAndProof] satisfies the proof
    predicate: its [response] is present and its [proof] is an array.  The
    function keeps asking the Data Availability Layer while the answers lack
    the proof, and returns the first answer that has it: with [n] answers
    that lack it before one that has it, and fuel for [n] rounds of the loop,
    the call returns that answer after [S n] requests. *)
Theorem retrieveDataAndProof_proof_predicate (fuel t : nat) :
  (forall v : JSValue,
      fst (retrieveDataAndProof w fuel url abiEncodedRequest roundId apiKey t)
      = Ret v ->
      proofPredicate v)
  /\ (forall (n : nat) (v : JSValue),
        n <= fuel ->
        (forall i, i < n ->
           exists b, fst (post (t + 2 + 2 * i)) = Ret b
                     /\ hasProof b = Ret false) ->
        fst (post (t + 2 + 2 * n)) = Ret v ->
        proofPredicate v ->
        retrieveDataAndProof w fuel url abiEncodedRequest roundId apiKey t
        = (Ret v, retrieveTrace req n)).
Proof.
  split.
  - intros v Hv. apply hasProof_proofPredicate.
    exact (retrieveDataAndProof_returns fuel t v Hv).
  - intros n v Hfuel Hbefore Hlast Hv.
    apply retrieveDataAndProof_finds; try assumption.
    now apply hasProof_proofPredicate.
Qed.

(** C5.  The waits of [retrieveDataAndProof] are fixed: 30000 ms for the
    round, 10000 ms before the first request to the Data Availability Layer,
    and 10000 ms, once, between two consecutive requests; there is no other
    event. *)
Theorem retrieveDataAndProof_fixed_delays (fuel t : nat) :
  exists k : nat,
    k <= fuel
    /\ snd (retrieveDataAndProof w fuel url abiEncodedRequest roundId apiKey t)
       = EvSleep 30000 :: EvSleep 10000 :: EvFetch req :: pollTrace req k.
Proof. exact (retrieveDataAndProof_trace fuel t). Qed.

End RetrieveDataAndProof.

(* ================================================================== *)
(** ** [retrieveDataAndProofWithRetry] *)

Section Retry.

Variables (w : World) (fuel : nat) (url : string) (abiEncodedRequest : JSValue)
  (roundId : Z) (apiKey : string).

Let body := retrieveDataAndProof w fuel url abiEncodedRequest roundId apiKey.

Lemma retryLoop_run (attempts : Z) (remaining : nat) :
  forall t : nat,
  exists (k : nat) (evs : list Event),
    FailedAttempts body k t evs
    /\ ((k = remaining
         /\ retryLoop w remaining attempts fuel url abiEncodedRequest roundId apiKey t
            = (Throw (retryError attempts), evs))
        \/ (k < remaining
            /\ exists (r : Res JSValue) (evs' : list Event),
                 body (t + List.length evs) = (r, evs')
                 /\ threw r = false
                 /\ retryLoop w remaining attempts fuel url abiEncodedRequest
                      roundId apiKey t
                    = (r, evs ++ evs'))).
Proof.
  induction remaining as [|remaining IH]; intros t.
  - exists 0, []. split; [constructor|]. left. split; reflexivity.
  - cbn [retryLoop]. unfold tryCatchL. fold body.
    destruct (body t) as [[v|e|] evs0] eqn:Hbody.
    + exists 0, []. split; [constructor|]. right. split; [lia|].
      exists (Ret v), evs0. cbn [List.length]. rewrite Nat.add_0_r.
      repeat split; assumption.
    + destruct (IH (t + List.length evs0 + 1)) as (k & evs & Hfailed & Hrun).
      exists (S k), (evs0 ++ EvSleep 20000 :: evs).
      split; [econstructor; eassumption|].
      cbn [bind Monad_L]. unfold bindL, sleep. cbn [List.length].
      destruct Hrun as [[-> Hrun] | [Hk (r & evs' & Hlast & Hr & Hrun)]].
      * left. split; [reflexivity|]. rewrite Hrun. reflexivity.
      * right. split; [lia|]. exists r, evs'.
        rewrite length_app. cbn [List.length].
        replace (t + (List.length evs0 + S (List.length evs)))
          with (t + List.length evs0 + 1 + List.length evs) by lia.
        repeat split; try assumption.
        rewrite Hrun. cbn [app]. now rewrite <- app_assoc.
    + exists 0, []. split; [constructor|]. right. split; [lia|].
      exists Pending, evs0. cbn [List.length]. rewrite Nat.add_0_r.
      repeat split; assumption.
Qed.

Lemma pollTrace_no_finalization_wait (request : FetchRequest) (k : nat) :
  filter isFinalizationWait (pollTrace request k) = [].
Proof. induction k as [|k IH]; simpl; [reflexivity | exact IH]. Qed.

(** Each call of [retrieveDataAndProof] waits for the round exactly once. *)
Lemma retrieveDataAndProof_one_wait (t : nat) :
  List.length (filter isFinalizationWait (snd (body t))) = 1.
Proof.
  destruct (retrieveDataAndProof_trace w url abiEncodedRequest roundId apiKey fuel t)
    as (k & _ & Htrace).
  unfold body. rewrite Htrace. unfold retrieveTrace. simpl.
  now rewrite pollTrace_no_finalization_wait.
Qed.

Lemma FailedAttempts_calls (k t : nat) (evs : list Event) :
  FailedAttempts body k t evs ->
  List.length (filter isFinalizationWait evs) = k.
Proof.
  induction 1 as [|k t e evs rest Hbody _ IH]; [reflexivity|].
  rewrite filter_app, length_app. cbn [filter isFinalizationWait].
  replace (20000 =? 30000)%Z with false by reflexivity.
  pose proof (retrieveDataAndProof_one_wait t) as Hone.
  rewrite Hbody in Hone. cbn [snd] in Hone. lia.
Qed.

(** C3.  [retrieveDataAndProofWithRetry] calls [retrieveDataAndProof] at most
    [attempts] times (10 when the argument is left out; no call for a number
    below 1): some [k] calls in a row throw, each followed by a wait of
    20000 ms; then either [k] is the number of attempts and the error
    'Failed to retrieve data and proofs after {attempts} attempts' is thrown,
    or one more call is made and its outcome, which is not a throw, is the
    outcome of the whole.  The calls are counted by the wait for the round
    each of them starts with. *)
Theorem retrieveDataAndProofWithRetry_attempts (attempts : option Z) (t : nat) :
  let limit := match attempts with Some n => n | None => 10%Z end in
  let run := retrieveDataAndProofWithRetry w fuel url abiEncodedRequest roundId
               apiKey attempts t in
  (exists (k : nat) (evs : list Event),
      FailedAttempts body k t evs
      /\ ((k = Z.to_nat limit
           /\ run = (Throw (Error ("Failed to retrieve data and proofs after "
                                   ++ JSString.ofZ limit ++ " attempts")), evs))
          \/ (k < Z.to_nat limit
              /\ exists (r : Res JSValue) (evs' : list Event),
                   body (t + List.length evs) = (r, evs')
                   /\ threw r = false
                   /\ run = (r, evs ++ evs'))))
  /\ List.length (filter isFinalizationWait (snd run)) <= Z.to_nat limit.
Proof.
  intros limit run.
  destruct (retryLoop_run limit (Z.to_nat limit) t)
    as (k & evs & Hfailed & Hrun).
  pose proof (FailedAttempts_calls k t evs Hfailed) as Hcalls.
  split.
  - exists k, evs. split; [assumption|]. exact Hrun.
  - unfold run, retrieveDataAndProofWithRetry. fold limit.
    destruct Hrun as [[Hk Hrun] | [Hk (r & evs' & Hlast & Hr & Hrun)]];
      rewrite Hrun; cbn [snd].
    + lia.
    + rewrite filter_app, length_app.
      pose proof (retrieveDataAndProof_one_wait (t + List.length evs)) as Hone.
      rewrite Hlast in Hone. cbn [snd] in Hone. lia.
Qed.

End Retry.

(** With the Data Availability Layer down and no [attempts] given, ten calls
    are made, each followed by a wait of 20000 ms, and the error names ten
    attempts. *)
Example retry_default_attempts :
  let run := retrieveDataAndProofWithRetry daLayerDown 0
               FDC_CONSTANTS.DA_LAYER_API_URL (JString "0xabc") 11
               FDC_CONSTANTS.DA_LAYER_API_KEY None 0 in
  fst run = Throw (Error "Failed to retrieve data and proofs after 10 attempts")
  /\ List.length (filter isFinalizationWait (snd run)) = 10
  /\ count_occ Z.eq_dec
       (flat_map (fun ev => match ev with EvSleep ms => [ms] | _ => [] end)
          (snd run)) 20000%Z = 10.
Proof. vm_compute. repeat split. Qed.

Lemma retrieveDataAndProof_proof_predicate_witness :
  retrieveDataAndProof slowDALayer 3 FDC_CONSTANTS.DA_LAYER_API_URL
    (JString "0xabc") 11 FDC_CONSTANTS.DA_LAYER_API_KEY 0
  = (Ret sampleProof,
     retrieveTrace
       (daLayerRequest FDC_CONSTANTS.DA_LAYER_API_URL
          (proofRequest 11 (JString "0xabc")) FDC_CONSTANTS.DA_LAYER_API_KEY) 1)
  /\ proofPredicate sampleProof.
Proof.
  assert (Hproof : proofPredicate sampleProof).
  { unfold proofPredicate, sampleProof. eexists _, _, _.
    repeat split; reflexivity. }
  split; [|exact Hproof].
  apply (proj2 (retrieveDataAndProof_proof_predicate slowDALayer
                  FDC_CONSTANTS.DA_LAYER_API_URL (JString "0xabc") 11
                  FDC_CONSTANTS.DA_LAYER_API_KEY 3 0) 1 sampleProof).
  - lia.
  - intros i Hi. exists (JObject []).
    assert (i = 0) as -> by lia. split; reflexivity.
  - reflexivity.
  - exact Hproof.
Defined.

(* ================================================================== *)
(** ** [prepareAttestationRequestBase] *)

Section Prepare.

Variables (w : World) (url apiKey attestationTypeBase sourceIdBase : string)
  (requestBody : JSValue).

Let request :=
  attestationFetch url apiKey attestationTypeBase sourceIdBase requestBody.

Lemma prepareAttestationRequestBase_run (t : nat) :
  prepareAttestationRequestBase w url apiKey attestationTypeBase sourceIdBase
    requestBody t
  = (match w_fetch w t request with
     | Ret response =>
         if (status response =? 200)%Z then json response
         else Throw (Error ("Response status is not OK, status "
                            ++ JSString.ofZ (status response) ++ " "
                            ++ statusText response ++ nl))
     | Throw e => Throw e
     | Pending => Pending
     end, [EvFetch request]).
Proof.
  unfold prepareAttestationRequestBase, fetch, ask. cbn [bind Monad_L].
  unfold bindL. fold (attestationFetch url apiKey attestationTypeBase
                        sourceIdBase requestBody). fold request.
  destruct (w_fetch w t request) as [response|e|]; try reflexivity.
  destruct (status response =? 200)%Z; reflexivity.
Qed.

(** C7, as the code has it.  [prepareAttestationRequestBase] sends one request,
    whose body holds [toHex] of the attestation type and of the source id and
    the request body it was given.  When the status of the response is 200
    the outcome is the outcome of parsing the body as JSON: the parsed body,
    or the parse error when the body is not JSON.  For every other status it
    throws an error whose message begins 'Response status is not OK'.  So a
    value is returned only on status 200, and it is the parsed body. *)
Theorem prepareAttestationRequestBase_status (t : nat) :
  let run := prepareAttestationRequestBase w url apiKey attestationTypeBase
               sourceIdBase requestBody t in
  snd run = [EvFetch request]
  /\ req_body request
     = JObject [("attestationType", JString (toHex attestationTypeBase));
                ("sourceId", JString (toHex sourceIdBase));
                ("requestBody", requestBody)]
  /\ (forall response : Response,
        w_fetch w t request = Ret response ->
        (status response = 200%Z -> fst run = json response)
        /\ (status response <> 200%Z ->
            exists message : string,
              fst run = Throw (Error message)
              /\ JSString.startsWith "Response status is not OK" message = true))
  /\ (forall v : JSValue,
        fst run = Ret v ->
        exists response : Response,
          w_fetch w t request = Ret response
          /\ status response = 200%Z /\ json response = Ret v).
Proof.
  intros run. unfold run. rewrite prepareAttestationRequestBase_run. cbn [fst snd].
  split; [reflexivity|]. split; [reflexivity|]. split.
  - intros response ->. split.
    + intros ->. reflexivity.
    + intros Hne. destruct (Z.eqb_spec (status response) 200) as [|_];
        [contradiction|].
      eexists. split; reflexivity.
  - intros v. destruct (w_fetch w t request) as [response|e|]; try discriminate.
    destruct (Z.eqb_spec (status response) 200) as [H200|_]; [|discriminate].
    intros Hv. exists response. auto.
Qed.

End Prepare.

Lemma prepareAttestationRequestBase_status_witness :
  let request := attestationFetch "https://verifier/" "key" "Payment" "testXRP"
                   (JObject [("transactionId", JString "0xabc")]) in
  w_fetch friendlyWorld 0 request
  = Ret (okResponse (JObject [("abiEncodedRequest", JString "0xabc")]))
  /\ fst (prepareAttestationRequestBase friendlyWorld "https://verifier/" "key"
            "Payment" "testXRP" (JObject [("transactionId", JString "0xabc")]) 0)
     = Ret (JObject [("abiEncodedRequest", JString "0xabc")]).
Proof.
  intros request. split; [reflexivity|].
  destruct (prepareAttestationRequestBase_status friendlyWorld
              "https://verifier/" "key" "Payment" "testXRP"
              (JObject [("transactionId", JString "0xabc")]) 0)
    as (_ & _ & Hstatus & _).
  destruct (Hstatus (okResponse (JObject [("abiEncodedRequest", JString "0xabc")]))
              eq_refl) as [H200 _].
  exact (H200 eq_refl).
Defined.

(** The statement "a value is returned exactly when the status is 200"
    fails on a response with status 200 whose body is not JSON: then
    [response.json()] rejects and so does the function. *)
Lemma prepareAttestationRequestBase_not_exactly_200 :
  ~ returnsExactlyOn200 unparsableVerifier "https://verifier/" "key"
      "Payment" "testXRP" (JObject [("transactionId", JString "0xabc")]) 0.
Proof.
  intros Hall.
  destruct (Hall _ eq_refl) as [_ Hback].
  destruct (Hback eq_refl) as [v Hv].
  discriminate Hv.
Qed.

Example prepareAttestationRequestBase_unparsable :
  prepareAttestationRequestBase unparsableVerifier "https://verifier/" "key"
    "Payment" "testXRP" (JObject [("transactionId", JString "0xabc")]) 0
  = (Throw (ErrorObj KSyntaxError "Unexpected token < in JSON at position 0"),
     [EvFetch (attestationFetch "https://verifier/" "key" "Payment" "testXRP"
                 (JObject [("transactionId", JString "0xabc")]))]).
Proof. reflexivity. Qed.

(* ================================================================== *)
(** ** [verifyPayment] *)

Lemma pureL_liftRes {A} (r : Res A) : pureL (liftRes r).
Proof. intros t. reflexivity. Qed.

Lemma pureL_ret {A} (a : A) : pureL (ret a : L A).
Proof. intros t. reflexivity. Qed.

Lemma pureL_throw {A} (e : Thrown) : pureL (throwL e : L A).
Proof. intros t. reflexivity. Qed.

Lemma pureL_bind {A B} (m : L A) (k : A -> L B) :
  pureL m -> (forall a, pureL (k a)) -> pureL (x <- m ;; k x).
Proof.
  intros Hm Hk t. cbn [bind Monad_L]. unfold bindL.
  rewrite (Hm t), (Hm 0). cbn [fst].
  destruct (fst (m 0)) as [a|e|]; try reflexivity.
  cbn [List.length]. rewrite !Nat.add_0_r.
  rewrite (Hk a t), (Hk a 0). reflexivity.
Qed.

Lemma pureL_if {A} (b : bool) (m1 m2 : L A) :
  pureL m1 -> pureL m2 -> pureL (if b then m1 else m2).
Proof. now destruct b. Qed.

Ltac pure_tac :=
  repeat first
    [ apply pureL_liftRes | apply pureL_ret | apply pureL_throw
    | apply pureL_if
    | apply pureL_bind; [|intro] ].

Lemma paymentProofArgument_pure (response proof : JSValue) :
  pureL (paymentProofArgument response proof).
Proof. unfold paymentProofArgument, bigIntField, field. pure_tac. Qed.

Lemma proofDataArgument_pure (proofData : JSValue) :
  pureL (proofDataArgument proofData).
Proof.
  unfold proofDataArgument, field. pure_tac.
Qed.

Section VerifyPayment.

Variables (w : World) (proofData : JSValue)
  (fdcAddresses : option FdcContractAddresses).

Lemma verifyPayment_run (t : nat) :
  verifyPayment w proofData fdcAddresses t
  = if addressMissing fdcAddresses fdcVerification then
      (Throw (Error "FDC Verification address not loaded"), [])
    else
      match fst (proofDataArgument proofData 0) with
      | Ret argument =>
          (w_readContract w t sharedPublicClient
             (verifyPaymentCall fdcAddresses argument),
           [EvReadContract sharedPublicClient
              (verifyPaymentCall fdcAddresses argument)])
      | Throw e => (Throw e, [])
      | Pending => (Pending, [])
      end.
Proof.
  unfold verifyPayment.
  destruct (addressMissing fdcAddresses fdcVerification); [reflexivity|].
  cbn [bind Monad_L]. unfold bindL at 1.
  rewrite (proofDataArgument_pure proofData t).
  destruct (fst (proofDataArgument proofData 0)) as [argument|e|];
    try reflexivity.
  cbn [List.length]. rewrite Nat.add_0_r.
  unfold bindL, readContract, ask.
  destruct (w_readContract w t sharedPublicClient
              (verifyPaymentCall fdcAddresses argument)); reflexivity.
Qed.

Lemma proofDataArgument_complete (argument : JSValue) :
  completeProofData proofData fdcAddresses argument ->
  fst (proofDataArgument proofData 0) = Ret argument.
Proof.
  intros (_ & response & proof & Hr & Htr & Hp & Htp & Harg).
  unfold proofDataArgument, field.
  rewrite (bindL_liftRes_ret _ _ _ _ Hr). rewrite Htr. cbn [negb].
  erewrite bindL_ret.
  2:{ rewrite (bindL_liftRes_ret _ _ _ _ Hp). reflexivity. }
  rewrite Htp. cbn [negb List.length fst snd app].
  rewrite (bindL_liftRes_ret _ _ _ _ Hr).
  rewrite (bindL_liftRes_ret _ _ _ _ Hp).
  rewrite (paymentProofArgument_pure response proof (0 + 0)). exact Harg.
Qed.

(** C6.  [verifyPayment] is read-only.  Whatever it is given, it causes no
    event, or the single event of one [readContract] of [verifyPayment] on
    the verification contract, whose outcome is then its outcome; it writes
    no transaction, and called from the page it leaves the state of the page
    as it was.  On complete proof data the call is made and its result is
    returned. *)
Theorem verifyPayment_read_only (t : nat) :
  let run := verifyPayment w proofData fdcAddresses t in
  (snd run = []
   \/ exists argument : JSValue,
        snd run = [EvReadContract sharedPublicClient
                     (verifyPaymentCall fdcAddresses argument)]
        /\ fst run = w_readContract w t sharedPublicClient
                       (verifyPaymentCall fdcAddresses argument))
  /\ (forall call : WriteCall, ~ In (EvWriteContract call) (snd run))
  /\ (forall a : App,
        snd (liftL (verifyPayment w proofData fdcAddresses) t a) = a)
  /\ (forall argument : JSValue,
        completeProofData proofData fdcAddresses argument ->
        run = (w_readContract w t sharedPublicClient
                 (verifyPaymentCall fdcAddresses argument),
               [EvReadContract sharedPublicClient
                  (verifyPaymentCall fdcAddresses argument)])).
Proof.
  intros run.
  assert (Hshape :
    snd run = []
    \/ exists argument : JSValue,
         snd run = [EvReadContract sharedPublicClient
                      (verifyPaymentCall fdcAddresses argument)]
         /\ fst run = w_readContract w t sharedPublicClient
                        (verifyPaymentCall fdcAddresses argument)).
  { unfold run. rewrite verifyPayment_run.
    destruct (addressMissing fdcAddresses fdcVerification); [now left|].
    destruct (fst (proofDataArgument proofData 0)) as [argument|e|];
      [right; exists argument; split; reflexivity | now left | now left]. }
  split; [exact Hshape|]. split; [|split].
  - intros call Hin.
    destruct Hshape as [Hnil | (argument & Hevs & _)].
    + rewrite Hnil in Hin. contradiction.
    + rewrite Hevs in Hin. destruct Hin as [Hin | []]. discriminate Hin.
  - intros a. unfold liftL.
    destruct (verifyPayment w proofData fdcAddresses t). reflexivity.
  - intros argument Hcomplete. unfold run. rewrite verifyPayment_run.
    destruct Hcomplete as [Haddr Hrest]. rewrite Haddr.
    rewrite (proofDataArgument_complete argument (conj Haddr Hrest)).
    reflexivity.
Qed.

End VerifyPayment.

Lemma verifyPayment_read_only_witness :
  exists argument : JSValue,
    completeProofData sampleProof (Some sampleAddresses) argument
    /\ verifyPayment friendlyWorld sampleProof (Some sampleAddresses) 0
       = (Ret (JBool true),
          [EvReadContract sharedPublicClient
             (verifyPaymentCall (Some sampleAddresses) argument)]).
Proof.
  pose (argument :=
          match fst (proofDataArgument sampleProof 0) with
          | Ret a => a
          | _ => JUndefined
          end).
  assert (Hcomplete :
            completeProofData sampleProof (Some sampleAddresses) argument).
  { split; [reflexivity|].
    eexists _, _. repeat split; try reflexivity. }
  exists argument. split; [exact Hcomplete|].
  destruct (verifyPayment_read_only friendlyWorld sampleProof
              (Some sampleAddresses) 0) as (_ & _ & _ & Hcall).
  rewrite (Hcall argument Hcomplete). reflexivity.
Defined.

(* ================================================================== *)
(** ** The guards of [executeFdcWorkflow] *)

Section Guards.

Variables (w : World) (JSON_stringify : JSValue -> string) (hooks : Hooks).

(** C8.  When the contract addresses are not loaded, or loading them failed,
    or the wallet is not connected, [executeFdcWorkflow] sets an error
    message and returns: it causes no event (no request to the verifier, no
    read, no transaction) and changes nothing else of the page; the steps,
    with their statuses, are as they were. *)
Theorem executeFdcWorkflow_guards (data : FdcFormData) (t : nat) (a : App)
  (Hguard : fdcAddresses hooks = None
            \/ truthyString (addressError hooks) = true
            \/ isConnected hooks = false) :
  exists message : string,
    executeFdcWorkflow w JSON_stringify hooks data t a
    = (Ret tt, [], setErrorMessage (Some message) a)
    /\ steps (setErrorMessage (Some message) a) = steps a
    /\ map step_status (steps (snd (executeFdcWorkflow w JSON_stringify hooks
                                      data t a)))
       = map step_status (steps a).
Proof.
  unfold executeFdcWorkflow.
  destruct (fdcAddresses hooks) as [addresses|];
    [|eexists; repeat split; reflexivity].
  destruct (truthyString (addressError hooks));
    [eexists; repeat split; reflexivity|].
  destruct (isConnected hooks);
    [|eexists; repeat split; reflexivity].
  destruct Hguard as [H | [H | H]]; discriminate H.
Qed.

End Guards.

Lemma executeFdcWorkflow_guards_witness :
  isConnected {| fdcAddresses := Some sampleAddresses; addressError := None;
                 isConnected := false; wagmiClientAvailable := true |} = false
  /\ exists message : string,
       executeFdcWorkflow friendlyWorld stringifyKind
         {| fdcAddresses := Some sampleAddresses; addressError := None;
            isConnected := false; wagmiClientAvailable := true |}
         sampleForm 0 initialApp
       = (Ret tt, [], setErrorMessage (Some message) initialApp)
       /\ steps (setErrorMessage (Some message) initialApp) = steps initialApp
       /\ map step_status
            (steps (snd (executeFdcWorkflow friendlyWorld stringifyKind
                 {| fdcAddresses := Some sampleAddresses; addressError := None;
                    isConnected := false; wagmiClientAvailable := true |}
                 sampleForm 0 initialApp)))
          = map step_status (steps initialApp).
Proof.
  split; [reflexivity|].
  apply (executeFdcWorkflow_guards friendlyWorld stringifyKind).
  right. right. reflexivity.
Defined.

(* ================================================================== *)
(** ** The fee of a submission *)

Section Fee.

Variables (w : World) (hooks : Hooks).

Let client : Client :=
  if wagmiClientAvailable hooks then wagmiPublicClient else fallbackPublicClient.

Lemma submitAttestationRequestWithWagmi_run (abiEncodedRequest : JSValue)
  (addresses : option FdcContractAddresses) (t : nat) (a : App) :
  JS.truthy abiEncodedRequest = true ->
  addressMissing addresses fdcHub = false ->
  submitAttestationRequestWithWagmi w hooks abiEncodedRequest addresses
    (requestAttestationAsync w) t a
  = let read := EvReadContract client (feeCall addresses abiEncodedRequest) in
    let submit fee :=
      let call := {| write_address := addressOf addresses fdcHub;
                     write_args := [abiEncodedRequest];
                     write_value := fee |} in
      let a0 := setWriteError None (setAttestationHash None a) in
      match w_writeContract w (t + 1) call with
      | Ret hash =>
          (Ret tt, [read; EvWriteContract call], setAttestationHash (Some hash) a0)
      | Throw e =>
          (Throw e, [read; EvWriteContract call], setWriteError (Some e) a0)
      | Pending => (Pending, [read; EvWriteContract call], a0)
      end in
    match w_readContract w t client (feeCall addresses abiEncodedRequest) with
    | Ret fee => submit fee
    | Throw _ => submit oneFLR
    | Pending => (Pending, [read], a)
    end.
Proof.
  intros Habi Hhub. unfold submitAttestationRequestWithWagmi.
  rewrite Habi, Hhub. cbn [negb bind ret Monad_M].
  unfold bindM at 1.
  fold (feeCall addresses abiEncodedRequest).
  assert (Hclient :
    (if wagmiClientAvailable hooks then Some wagmiPublicClient
     else Some fallbackPublicClient) = Some client)
    by (unfold client; now destruct (wagmiClientAvailable hooks)).
  rewrite Hclient.
  unfold tryCatchM, liftL, readContract, ask.
  destruct (w_readContract w t client (feeCall addresses abiEncodedRequest))
    as [fee|e|]; cbn [List.length retM]; try reflexivity.
  - unfold bindM, requestAttestationAsync.
    destruct (w_writeContract w (t + 1) _); reflexivity.
  - unfold bindM, requestAttestationAsync. cbn [List.length app].
    destruct (w_writeContract w (t + 1) _); reflexivity.
Qed.

Lemma submitAttestationRequest_run (abiEncodedRequest : JSValue)
  (addresses : option FdcContractAddresses)
  (requestAttestation : WriteCall -> L unit) (t : nat) :
  submitAttestationRequest w abiEncodedRequest addresses requestAttestation t
  = if addressMissing addresses fdcHub then
      (Throw (Error "FDC Hub address not loaded"), [])
    else if addressMissing addresses fdcRequestFeeConfigurations then
      (Throw (Error "FDC Request Fee Configurations address not loaded"), [])
    else
      let read :=
        EvReadContract sharedPublicClient (feeCall addresses abiEncodedRequest) in
      match w_readContract w t sharedPublicClient
              (feeCall addresses abiEncodedRequest) with
      | Ret fee =>
          let (r, evs) :=
            requestAttestation {| write_address := addressOf addresses fdcHub;
                                  write_args := [abiEncodedRequest];
                                  write_value := fee |} (t + 1) in
          (r, read :: evs)
      | Throw e => (Throw e, [read])
      | Pending => (Pending, [read])
      end.
Proof.
  unfold submitAttestationRequest, getFdcRequestFee.
  destruct (addressMissing addresses fdcHub); [reflexivity|].
  cbn [bind Monad_L]. unfold bindL.
  destruct (addressMissing addresses fdcRequestFeeConfigurations);
    [reflexivity|].
  unfold readContract, ask. fold (feeCall addresses abiEncodedRequest).
  destruct (w_readContract w t sharedPublicClient
              (feeCall addresses abiEncodedRequest)); reflexivity.
Qed.

(** C2, as the code has it.  [submitAttestationRequestWithWagmi], given a
    request and the address of the FdcHub, first reads the fee with
    [getRequestFee] and then submits the transaction: with the value read
    when the read returns one, and with the fixed fallback of 1 FLR (10^18
    wei) when the read fails; when the read does not answer nothing is
    submitted.  Without a request or without the address it throws and does
    neither.  No other value is ever attached.  [submitAttestationRequest]
    reads the fee first too, and submits nothing when the read fails. *)
Theorem submission_fee (abiEncodedRequest : JSValue)
  (addresses : option FdcContractAddresses) (t : nat) (a : App) :
  (JS.truthy abiEncodedRequest = true ->
   addressMissing addresses fdcHub = false ->
   submitAttestationRequestWithWagmi w hooks abiEncodedRequest addresses
     (requestAttestationAsync w) t a
   = let read := EvReadContract client (feeCall addresses abiEncodedRequest) in
     let submit fee :=
       let call := {| write_address := addressOf addresses fdcHub;
                      write_args := [abiEncodedRequest];
                      write_value := fee |} in
       let a0 := setWriteError None (setAttestationHash None a) in
       match w_writeContract w (t + 1) call with
       | Ret hash =>
           (Ret tt, [read; EvWriteContract call],
            setAttestationHash (Some hash) a0)
       | Throw e =>
           (Throw e, [read; EvWriteContract call], setWriteError (Some e) a0)
       | Pending => (Pending, [read; EvWriteContract call], a0)
       end in
     match w_readContract w t client (feeCall addresses abiEncodedRequest) with
     | Ret fee => submit fee
     | Throw _ => submit oneFLR
     | Pending => (Pending, [read], a)
     end)
  /\ (JS.truthy abiEncodedRequest = false
      \/ addressMissing addresses fdcHub = true ->
      exists message,
        submitAttestationRequestWithWagmi w hooks abiEncodedRequest addresses
          (requestAttestationAsync w) t a
        = (Throw (Error message), [], a))
  /\ (forall call : WriteCall,
        In (EvWriteContract call)
           (snd (fst (submitAttestationRequestWithWagmi w hooks
                        abiEncodedRequest addresses
                        (requestAttestationAsync w) t a))) ->
        match w_readContract w t client
                (feeCall addresses abiEncodedRequest) with
        | Ret fee => write_value call = fee
        | Throw _ => write_value call = oneFLR
        | Pending => False
        end)
  /\ (forall requestAttestation : WriteCall -> L unit,
        submitAttestationRequest w abiEncodedRequest addresses
          requestAttestation t
        = if addressMissing addresses fdcHub then
            (Throw (Error "FDC Hub address not loaded"), [])
          else if addressMissing addresses fdcRequestFeeConfigurations then
            (Throw (Error "FDC Request Fee Configurations address not loaded"),
             [])
          else
            let read := EvReadContract sharedPublicClient
                          (feeCall addresses abiEncodedRequest) in
            match w_readContract w t sharedPublicClient
                    (feeCall addresses abiEncodedRequest) with
            | Ret fee =>
                let (r, evs) :=
                  requestAttestation
                    {| write_address := addressOf addresses fdcHub;
                       write_args := [abiEncodedRequest];
                       write_value := fee |} (t + 1) in
                (r, read :: evs)
            | Throw e => (Throw e, [read])
            | Pending => (Pending, [read])
            end).
Proof.
  split; [apply submitAttestationRequestWithWagmi_run|].
  split.
  { unfold submitAttestationRequestWithWagmi.
    destruct (JS.truthy abiEncodedRequest);
      [|intros _; eexists; reflexivity].
    intros [H | H]; [discriminate H|]. rewrite H. eexists. reflexivity. }
  split.
  - intros call.
    destruct (JS.truthy abiEncodedRequest) eqn:Habi.
    2:{ unfold submitAttestationRequestWithWagmi. rewrite Habi.
        intros []. }
    destruct (addressMissing addresses fdcHub) eqn:Hhub.
    1:{ unfold submitAttestationRequestWithWagmi. rewrite Habi, Hhub.
        intros []. }
    rewrite (submitAttestationRequestWithWagmi_run _ _ t a Habi Hhub).
    cbv zeta.
    destruct (w_readContract w t client (feeCall addresses abiEncodedRequest))
      as [fee|e|].
    + destruct (w_writeContract w (t + 1) _); cbn [fst snd];
        (intros [H | [H | []]]; [discriminate H | now injection H as <-]).
    + destruct (w_writeContract w (t + 1) _); cbn [fst snd];
        (intros [H | [H | []]]; [discriminate H | now injection H as <-]).
    + cbn [fst snd]. intros [H | []]. discriminate H.
  - intros requestAttestation. apply submitAttestationRequest_run.
Qed.

End Fee.

(** The fee is read and attached; when the read fails the transaction goes
    out with 10^18 wei. *)
Lemma submission_fee_witness :
  let request := JString "0xabc" in
  let read := EvReadContract wagmiPublicClient
                (feeCall (Some sampleAddresses) request) in
  let submit fee := EvWriteContract {| write_address := fdcHub sampleAddresses;
                                       write_args := [request];
                                       write_value := fee |} in
  snd (fst (submitAttestationRequestWithWagmi friendlyWorld connectedHooks
              request (Some sampleAddresses)
              (requestAttestationAsync friendlyWorld) 0 initialApp))
  = [read; submit (JBigInt 5)]
  /\ snd (fst (submitAttestationRequestWithWagmi feeReadFails connectedHooks
                 request (Some sampleAddresses)
                 (requestAttestationAsync feeReadFails) 0 initialApp))
     = [read; submit (JBigInt 1000000000000000000)].
Proof.
  cbv zeta. split.
  - rewrite (proj1 (submission_fee friendlyWorld connectedHooks (JString "0xabc")
                      (Some sampleAddresses) 0 initialApp) eq_refl eq_refl).
    reflexivity.
  - rewrite (proj1 (submission_fee feeReadFails connectedHooks (JString "0xabc")
                      (Some sampleAddresses) 0 initialApp) eq_refl eq_refl).
    reflexivity.
Defined.

(** The statement "the fee attached is always the one read with
    [getRequestFee]" fails when the read fails: the transaction is submitted
    all the same, with 10^18 wei. *)
Lemma fee_fallback_not_read :
  ~ feeAlwaysRead feeReadFails
      (snd (fst (submitAttestationRequestWithWagmi feeReadFails connectedHooks
                   (JString "0xabc") (Some sampleAddresses)
                   (requestAttestationAsync feeReadFails) 0 initialApp))).
Proof.
  intros Hall.
  destruct (Hall {| write_address := fdcHub sampleAddresses;
                      write_args := [JString "0xabc"];
                      write_value := oneFLR |})
    as (client & read & t & _ & _ & Hret).
  - right. left. reflexivity.
  - discriminate Hret.
Qed.

Example fee_fallback_run :
  snd (fst (submitAttestationRequestWithWagmi feeReadFails connectedHooks
              (JString "0xabc") (Some sampleAddresses)
              (requestAttestationAsync feeReadFails) 0 initialApp))
  = [EvReadContract wagmiPublicClient
       (feeCall (Some sampleAddresses) (JString "0xabc"));
     EvWriteContract {| write_address := fdcHub sampleAddresses;
                        write_args := [JString "0xabc"];
                        write_value := JBigInt 1000000000000000000 |}].
Proof. reflexivity. Qed.

(* ================================================================== *)
(** ** The monitor of the workflow *)

Lemma monitor_app (evs1 evs2 : list Event) :
  forall mon : Monitor,
    monitor mon (evs1 ++ evs2)
    = match monitor mon evs1 with
      | Some mon' => monitor mon' evs2
      | None => None
      end.
Proof.
  induction evs1 as [|ev evs1 IH]; intros mon; cbn [app monitor];
    [reflexivity|].
  destruct (observe mon ev); [apply IH | reflexivity].
Qed.

Lemma existsb_eqb_In (s : string) (l : list string) :
  existsb (String.eqb s) l = true -> In s l.
Proof.
  intros H. apply existsb_exists in H. destruct H as (x & Hin & Heq).
  apply String.eqb_eq in Heq. now subst.
Qed.

Lemma observe_done (mon mon' : Monitor) (ev : Event) (s : string) :
  observe mon ev = Some mon' ->
  In s (done mon') -> In s (done mon) \/ ev = EvStep s completed.
Proof.
  destruct ev as [ms|request|client number|client call|call|hash|stepId st];
    cbn [observe]; try (destruct (verified mon); [discriminate|];
                        intros [= <-]; cbn [done]; now left).
  destruct st.
  - intros [= <-]. now left.
  - destruct (prerequisites stepId); [|discriminate].
    destruct (forallb _ _); [|discriminate]. intros [= <-]. now left.
  - destruct (_ && _); [discriminate|].
    intros [= <-]. cbn [done]. intros [<- | Hin]; [now right | now left].
  - intros [= <-]. now left.
Qed.

Lemma monitor_started (evs : list Event) :
  forall (mon mon' : Monitor) (pre post : list Event) (stepId : string),
    monitor mon evs = Some mon' ->
    evs = pre ++ EvStep stepId in_progress :: post ->
    exists earlier : list string,
      prerequisites stepId = Some earlier
      /\ forall s, In s earlier ->
           In s (done mon) \/ In (EvStep s completed) pre.
Proof.
  induction evs as [|ev evs IH]; intros mon mon' pre post stepId Hmon Hsplit.
  - destruct pre; discriminate Hsplit.
  - cbn [monitor] in Hmon.
    destruct (observe mon ev) as [mon1|] eqn:Hobs; [|discriminate].
    destruct pre as [|x pre]; cbn [app] in Hsplit;
      injection Hsplit as -> Hrest.
    + cbn [observe] in Hobs.
      destruct (prerequisites stepId) as [earlier|]; [|discriminate].
      destruct (forallb _ earlier) eqn:Hall; [|discriminate].
      exists earlier. split; [reflexivity|].
      intros s Hs. left. rewrite forallb_forall in Hall.
      apply existsb_eqb_In, Hall, Hs.
    + destruct (IH mon1 mon' pre post stepId Hmon Hrest)
        as (earlier & Hpre & Hearlier).
      exists earlier. split; [assumption|].
      intros s Hs. destruct (Hearlier s Hs) as [Hdone | Hin].
      * destruct (observe_done _ _ _ _ Hobs Hdone) as [Hd | ->];
          [now left | right; now left].
      * right. now right.
Qed.

Lemma monitor_after_verify (evs : list Event) :
  forall mon mon' : Monitor,
    verified mon = true ->
    monitor mon evs = Some mon' ->
    Forall (fun e => isOperation e = false) evs.
Proof.
  induction evs as [|ev evs IH]; intros mon mon' Hv Hmon; [constructor|].
  cbn [monitor] in Hmon.
  destruct (observe mon ev) as [mon1|] eqn:Hobs; [|discriminate].
  assert (Hev : isOperation ev = false /\ verified mon1 = true).
  { destruct ev as [ms|request|client number|client call|call|hash|stepId st];
      cbn [observe] in Hobs; try (rewrite Hv in Hobs; discriminate Hobs).
    split; [reflexivity|].
    destruct st; try (injection Hobs as <-; assumption).
    - destruct (prerequisites stepId); [|discriminate].
      destruct (forallb _ _); [|discriminate]. injection Hobs as <-.
      assumption.
    - destruct (_ && _); [discriminate|]. injection Hobs as <-. assumption. }
  destruct Hev as [Hop Hv1]. constructor; [assumption|].
  exact (IH mon1 mon' Hv1 Hmon).
Qed.

Lemma monitor_verify_last (evs : list Event) :
  forall (mon mon' : Monitor) (pre post : list Event) (ev : Event),
    monitor mon evs = Some mon' ->
    evs = pre ++ ev :: post ->
    isVerifyCall ev = true ->
    Forall (fun e => isOperation e = false) post.
Proof.
  induction evs as [|x evs IH]; intros mon mon' pre post ev Hmon Hsplit Hver.
  - destruct pre; discriminate Hsplit.
  - cbn [monitor] in Hmon.
    destruct (observe mon x) as [mon1|] eqn:Hobs; [|discriminate].
    destruct pre as [|y pre]; cbn [app] in Hsplit;
      injection Hsplit as -> Hrest.
    + subst evs. apply (monitor_after_verify post mon1 mon'); [|assumption].
      destruct ev; try discriminate Hver. cbn [observe] in Hobs.
      destruct (verified mon); [discriminate|].
      injection Hobs as <-. exact Hver.
    + exact (IH mon1 mon' pre post ev Hmon Hrest Hver).
Qed.

Lemma observe_verified (mon mon' : Monitor) (ev : Event) :
  observe mon ev = Some mon' ->
  verified mon' = true ->
  verified mon = true \/ isVerifyCall ev = true.
Proof.
  destruct ev as [ms|request|client number|client call|call|hash|stepId st];
    cbn [observe]; try (destruct (verified mon); [discriminate|];
                        intros [= <-]; cbn [verified]; now right).
  destruct st.
  - intros [= <-]. now left.
  - destruct (prerequisites stepId); [|discriminate].
    destruct (forallb _ _); [|discriminate]. intros [= <-]. now left.
  - destruct (_ && _); [discriminate|]. intros [= <-]. now left.
  - intros [= <-]. now left.
Qed.

Lemma monitor_completed (evs : list Event) :
  forall (mon mon' : Monitor) (pre post : list Event),
    monitor mon evs = Some mon' ->
    evs = pre ++ EvStep "verify-data" completed :: post ->
    verified mon = true
    \/ exists ev : Event, In ev pre /\ isVerifyCall ev = true.
Proof.
  induction evs as [|x evs IH]; intros mon mon' pre post Hmon Hsplit.
  - destruct pre; discriminate Hsplit.
  - cbn [monitor] in Hmon.
    destruct (observe mon x) as [mon1|] eqn:Hobs; [|discriminate].
    destruct pre as [|y pre]; cbn [app] in Hsplit;
      injection Hsplit as -> Hrest.
    + cbn [observe] in Hobs. left.
      destruct (verified mon); [reflexivity|]. discriminate Hobs.
    + destruct (IH mon1 mon' pre post Hmon Hrest) as [Hv | (ev & Hin & Hev)].
      * destruct (observe_verified _ _ _ Hobs Hv) as [Hv0 | Hx];
          [now left | right; exists y; split; [now left | assumption]].
      * right. exists ev. split; [now right | assumption].
Qed.

Lemma monitor_plain (evs : list Event) (mon : Monitor) :
  verified mon = false ->
  forallb plainEvent evs = true ->
  monitor mon evs = Some mon.
Proof.
  intros Hv. induction evs as [|ev evs IH]; [reflexivity|].
  cbn [forallb monitor]. intros Hall.
  apply andb_true_iff in Hall. destruct Hall as [Hev Hall].
  unfold plainEvent in Hev. apply andb_true_iff in Hev.
  destruct Hev as [Hop Hnot]. apply negb_true_iff in Hnot.
  assert (Hobs : observe mon ev = Some mon).
  { destruct ev; try discriminate Hop; cbn [observe]; rewrite Hv;
      try rewrite Hnot; cbn [isVerifyCall]; destruct mon; cbn in *; now subst. }
  rewrite Hobs. apply IH, Hall.
Qed.

(** *** Plain library functions *)

Lemma plain_liftRes {A} (r : Res A) : plain (liftRes r).
Proof. intros t. reflexivity. Qed.

Lemma plain_ret {A} (a : A) : plain (ret a : L A).
Proof. intros t. reflexivity. Qed.

Lemma plain_throw {A} (e : Thrown) : plain (throwL e : L A).
Proof. intros t. reflexivity. Qed.

Lemma plain_pending {A} : plain (pendingL : L A).
Proof. intros t. reflexivity. Qed.

Lemma plain_sleep (ms : Z) : plain (sleep ms).
Proof. intros t. reflexivity. Qed.

Lemma plain_ask {A} (ev : Event) (answer : nat -> Res A) :
  plainEvent ev = true -> plain (ask ev answer).
Proof. intros H t. cbn. now rewrite H. Qed.

Lemma plain_bind {A B} (m : L A) (k : A -> L B) :
  plain m -> (forall a, plain (k a)) -> plain (x <- m ;; k x).
Proof.
  intros Hm Hk t. cbn [bind Monad_L]. unfold bindL.
  specialize (Hm t). destruct (m t) as [[a|e|] evs]; cbn [snd] in *;
    try assumption.
  specialize (Hk a (t + List.length evs)).
  destruct (k a (t + List.length evs)) as [r evs']. cbn [snd] in *.
  rewrite forallb_app, Hm, Hk. reflexivity.
Qed.

Lemma plain_tryCatch {A} (m : L A) (h : Thrown -> L A) :
  plain m -> (forall e, plain (h e)) -> plain (tryCatchL m h).
Proof.
  intros Hm Hh t. unfold tryCatchL.
  specialize (Hm t). destruct (m t) as [[a|e|] evs]; cbn [snd] in *;
    try assumption.
  specialize (Hh e (t + List.length evs)).
  destruct (h e (t + List.length evs)) as [r evs']. cbn [snd] in *.
  rewrite forallb_app, Hm, Hh. reflexivity.
Qed.

Lemma plain_if {A} (b : bool) (m1 m2 : L A) :
  plain m1 -> plain m2 -> plain (if b then m1 else m2).
Proof. now destruct b. Qed.

Lemma plain_silent {A} (m : L A) : silent m -> plain m.
Proof. intros H t. now rewrite H. Qed.

Ltac plain_tac :=
  repeat first
    [ assumption
    | apply plain_liftRes | apply plain_ret | apply plain_throw
    | apply plain_pending | apply plain_sleep
    | apply plain_ask; reflexivity
    | apply plain_if
    | apply plain_tryCatch; [|intro]
    | apply plain_bind; [|intro] ].

Section PlainLibrary.

Variable w : World.

Lemma plain_postRequestToDALayer (url : string) (request : JSValue)
  (apiKey : string) : plain (postRequestToDALayer w url request apiKey).
Proof. unfold postRequestToDALayer, fetch. plain_tac. Qed.

Lemma plain_pollDALayer (url : string) (request : JSValue) (apiKey : string)
  (fuel : nat) :
  forall proof : JSValue, plain (pollDALayer w fuel url request apiKey proof).
Proof.
  induction fuel as [|fuel IH]; intros proof; cbn [pollDALayer].
  - plain_tac.
  - pose proof (plain_postRequestToDALayer url request apiKey).
    plain_tac. apply IH.
Qed.

Lemma plain_retrieveDataAndProof (fuel : nat) (url : string)
  (abiEncodedRequest : JSValue) (roundId : Z) (apiKey : string) :
  plain (retrieveDataAndProof w fuel url abiEncodedRequest roundId apiKey).
Proof.
  unfold retrieveDataAndProof.
  pose proof (plain_postRequestToDALayer url
                (proofRequest roundId abiEncodedRequest) apiKey).
  cbv zeta. plain_tac. apply plain_pollDALayer.
Qed.

Lemma plain_retryLoop (attempts : Z) (fuel : nat) (url : string)
  (abiEncodedRequest : JSValue) (roundId : Z) (apiKey : string)
  (remaining : nat) :
  plain (retryLoop w remaining attempts fuel url abiEncodedRequest roundId apiKey).
Proof.
  induction remaining as [|remaining IH]; cbn [retryLoop].
  - plain_tac.
  - pose proof (plain_retrieveDataAndProof fuel url abiEncodedRequest roundId
                  apiKey).
    plain_tac.
Qed.

Lemma plain_retrievePaymentDataAndProofWithRetry (fuel : nat) (url : string)
  (abiEncodedRequest : JSValue) (roundId : Z) (apiKey : string)
  (attempts : option Z) :
  plain (retrievePaymentDataAndProofWithRetry w fuel url abiEncodedRequest
           roundId apiKey attempts).
Proof.
  unfold retrievePaymentDataAndProofWithRetry, retrieveDataAndProofWithRetry.
  apply plain_retryLoop.
Qed.

Lemma plain_calculateRoundId (receipt : Receipt)
  (addresses : option FdcContractAddresses) :
  plain (calculateRoundId w receipt addresses).
Proof. unfold calculateRoundId, getBlock, readContract. plain_tac. Qed.

Lemma plain_fetch (request : FetchRequest) : plain (fetch w request).
Proof. unfold fetch. plain_tac. Qed.

Lemma silent_field (v : JSValue) (key : string) : silent (field v key).
Proof. unfold field. apply silent_liftRes. Qed.

End PlainLibrary.

(** *** Rules for running the functions of the page under the monitor *)

Section RunRules.

Context {A : Type}.
Variables (t : nat) (a : App) (mon : Monitor).
Variable Q : Res A -> Monitor -> App -> Prop.

Lemma run_ok_ret (x : A) : Q (Ret x) mon a -> run_ok (ret x) t a mon Q.
Proof. intros H. exists mon. split; [reflexivity | exact H]. Qed.

Lemma run_ok_throw (e : Thrown) :
  Q (Throw e) mon a -> run_ok (throwM e) t a mon Q.
Proof. intros H. exists mon. split; [reflexivity | exact H]. Qed.

Lemma run_ok_bind {B : Type} (m : M B) (k : B -> M A) :
  run_ok m t a mon
    (fun r mon' a' =>
       match r with
       | Ret x => forall t', run_ok (k x) t' a' mon' Q
       | Throw e => Q (Throw e) mon' a'
       | Pending => Q Pending mon' a'
       end) ->
  run_ok (x <- m ;; k x) t a mon Q.
Proof.
  unfold run_ok. cbn [bind Monad_M]. unfold bindM.
  destruct (m t a) as [[r evs] a']. cbn [fst snd].
  intros (mon' & Hmon & H).
  destruct r as [x|e|]; try (exists mon'; split; assumption).
  specialize (H (t + List.length evs)).
  destruct (k x (t + List.length evs) a') as [[r' evs'] a''].
  cbn [fst snd] in *. destruct H as (mon'' & Hmon' & HQ).
  exists mon''. split; [|assumption].
  rewrite monitor_app, Hmon. exact Hmon'.
Qed.

Lemma run_ok_tryCatch (m : M A) (h : Thrown -> M A) :
  run_ok m t a mon
    (fun r mon' a' =>
       match r with
       | Ret x => Q (Ret x) mon' a'
       | Throw e => forall t', run_ok (h e) t' a' mon' Q
       | Pending => Q Pending mon' a'
       end) ->
  run_ok (tryCatchM m h) t a mon Q.
Proof.
  unfold run_ok, tryCatchM.
  destruct (m t a) as [[r evs] a']. cbn [fst snd].
  intros (mon' & Hmon & H).
  destruct r as [x|e|]; try (exists mon'; split; assumption).
  specialize (H (t + List.length evs)).
  destruct (h e (t + List.length evs) a') as [[r' evs'] a''].
  cbn [fst snd] in *. destruct H as (mon'' & Hmon' & HQ).
  exists mon''. split; [|assumption].
  rewrite monitor_app, Hmon. exact Hmon'.
Qed.

Lemma run_ok_lift_plain (m : L A) :
  plain m -> verified mon = false -> (forall r, Q r mon a) ->
  run_ok (liftL m) t a mon Q.
Proof.
  intros Hplain Hv HQ. unfold run_ok, liftL.
  specialize (Hplain t). destruct (m t) as [r evs]. cbn [fst snd] in *.
  exists mon. split; [now apply monitor_plain | apply HQ].
Qed.

Lemma run_ok_lift_silent (m : L A) :
  silent m -> (forall r, Q r mon a) -> run_ok (liftL m) t a mon Q.
Proof.
  intros Hsilent HQ. unfold run_ok, liftL.
  specialize (Hsilent t). destruct (m t) as [r evs]. cbn [fst snd] in *.
  subst evs. exists mon. split; [reflexivity | apply HQ].
Qed.

End RunRules.

Section RunRulesUnit.

Variables (t : nat) (a : App) (mon : Monitor).

Lemma run_ok_modify (Q : Res unit -> Monitor -> App -> Prop) (f : App -> App) :
  (forall x, attestationHash (f x) = attestationHash x) ->
  (forall a', attestationHash a' = attestationHash a -> Q (Ret tt) mon a') ->
  run_ok (modify f) t a mon Q.
Proof.
  intros Hf H. exists mon. split; [reflexivity | apply H, Hf].
Qed.

Lemma run_ok_getApp (Q : Res App -> Monitor -> App -> Prop) :
  Q (Ret a) mon a -> run_ok getApp t a mon Q.
Proof. intros H. exists mon. split; [reflexivity | exact H]. Qed.

Lemma run_ok_update (Q : Res unit -> Monitor -> App -> Prop)
  (stepId : string) (st : StepStatus) (data : option JSValue)
  (err : option string) (mon' : Monitor) :
  observe mon (EvStep stepId st) = Some mon' ->
  (forall a', attestationHash a' = attestationHash a -> Q (Ret tt) mon' a') ->
  run_ok (updateStepStatus stepId st data err) t a mon Q.
Proof.
  intros Hobs H. exists mon'. split; [|apply H; reflexivity].
  cbn [updateStepStatus fst snd monitor]. now rewrite Hobs.
Qed.

Lemma run_ok_verifyPayment (Q : Res JSValue -> Monitor -> App -> Prop)
  (w : World) (proofData : JSValue) (addresses : option FdcContractAddresses) :
  verified mon = false ->
  (forall r, threw r = true \/ r = Pending -> Q r mon a) ->
  (forall r, Q r {| done := done mon; verified := true |} a) ->
  run_ok (liftL (verifyPayment w proofData addresses)) t a mon Q.
Proof.
  intros Hv Hnone Hcall. unfold run_ok, liftL.
  rewrite verifyPayment_run.
  destruct (addressMissing addresses fdcVerification);
    [exists mon; split; [reflexivity | apply Hnone; now left]|].
  destruct (fst (proofDataArgument proofData 0)) as [argument|e|];
    try (exists mon; split; [reflexivity | apply Hnone; auto]).
  exists {| done := done mon; verified := true |}. split; [|apply Hcall].
  cbn [fst snd monitor observe]. rewrite Hv. reflexivity.
Qed.

Lemma run_ok_requestAttestationAsync
  (Q : Res JSValue -> Monitor -> App -> Prop) (w : World) (call : WriteCall) :
  verified mon = false ->
  (forall r a', attestationHash a' = None \/ (exists hash, r = Ret hash) ->
                Q r mon a') ->
  run_ok (requestAttestationAsync w call) t a mon Q.
Proof.
  intros Hv HQ. unfold run_ok, requestAttestationAsync.
  destruct (w_writeContract w t call) as [hash|e|]; cbn [fst snd];
    (exists mon; split;
     [cbn [monitor observe]; rewrite Hv; cbn [isVerifyCall];
      destruct mon; cbn in *; now subst
     | apply HQ; first [right; eexists; reflexivity | left; reflexivity]]).
Qed.

Lemma run_ok_waitForTransactionReceipt
  (Q : Res (option Receipt) -> Monitor -> App -> Prop) (w : World) :
  (attestationHash a = None -> Q (Ret None) mon a) ->
  (attestationHash a <> None ->
   verified mon = false /\ forall r, Q (Ret r) mon a) ->
  run_ok (waitForTransactionReceipt w) t a mon Q.
Proof.
  intros Hnone Hsome. unfold run_ok, waitForTransactionReceipt.
  destruct (attestationHash a) as [hash|]; cbn [fst snd].
  - destruct (Hsome ltac:(discriminate)) as [Hv HQ].
    exists mon. split; [|apply HQ].
    cbn [monitor observe]. rewrite Hv. cbn [isVerifyCall].
    destruct mon; cbn in *; now subst.
  - exists mon. split; [reflexivity | now apply Hnone].
Qed.

End RunRulesUnit.

(** *** The workflow under the monitor *)

(** The state of the page is kept abstract along a run: all that is
    remembered of it is what its [attestationHash] is. *)
Ltac new_state :=
  let a' := fresh "a" in
  let H := fresh "Hhash" in
  intros a' H;
  repeat match goal with
         | Hold : attestationHash ?x = _ |- _ =>
             lazymatch type of H with
             | _ = attestationHash x => rewrite Hold in H; clear Hold
             end
         end.

Ltac side_plain :=
  first [ apply plain_fetch | apply plain_calculateRoundId | apply plain_sleep
        | apply plain_retrievePaymentDataAndProofWithRetry
        | unfold readContract; apply plain_ask; reflexivity ].

Ltac side_silent := first [ apply silent_field | apply silent_liftRes ].

Ltac run_step :=
  lazymatch goal with
  | |- True => exact I
  | |- forall _, _ => intro
  | |- run_ok (bind _ _) _ _ _ _ => apply run_ok_bind
  | |- run_ok (tryCatchM _ _) _ _ _ _ => apply run_ok_tryCatch
  | |- run_ok (ret _) _ _ _ _ => apply run_ok_ret
  | |- run_ok (throwM _) _ _ _ _ => apply run_ok_throw
  | |- run_ok (modify _) _ _ _ _ =>
      apply run_ok_modify; [intro; reflexivity | new_state]
  | |- run_ok getApp _ _ _ _ => apply run_ok_getApp
  | |- run_ok (updateStepStatus _ _ _ _) _ _ _ _ =>
      eapply run_ok_update; [vm_compute; reflexivity | new_state]
  | |- run_ok (liftL (verifyPayment _ _ _)) _ _ _ _ =>
      apply run_ok_verifyPayment;
      [ reflexivity
      | let H := fresh "Hnocall" in
        intros [?|?|] H;
        [ exfalso; destruct H as [H | H]; discriminate H | clear H | clear H ]
      | intros [?|?|] ]
  | |- run_ok (liftL _) _ _ _ _ =>
      first [ apply run_ok_lift_silent; [side_silent | intros [?|?|]]
            | apply run_ok_lift_plain;
              [side_plain | reflexivity | intros [?|?|]] ]
  | |- run_ok (requestAttestationAsync _ _) _ _ _ _ =>
      apply run_ok_requestAttestationAsync;
      [ reflexivity
      | let r := fresh "r" in
        let a' := fresh "a" in
        let H := fresh "Hwrite" in
        intros r a' H;
        repeat match goal with
               | Hold : attestationHash _ = _ |- _ => clear Hold
               end;
        destruct r as [?|?|];
        [ pose proof (eq_refl (attestationHash a')); clear H
        | assert (attestationHash a' = None)
            by (destruct H as [|[? ?]]; [assumption | discriminate]); clear H
        | assert (attestationHash a' = None)
            by (destruct H as [|[? ?]]; [assumption | discriminate]); clear H ] ]
  | |- run_ok (waitForTransactionReceipt _) _ _ _ _ =>
      apply run_ok_waitForTransactionReceipt;
      [ intros _
      | let H := fresh "Hne" in
        intros H;
        first [ exfalso; apply H; assumption
              | split; [reflexivity | intros [?|]] ] ]
  | |- run_ok (if ?b then _ else _) _ _ _ _ => destruct b eqn:?
  | |- run_ok (match ?x with _ => _ end) _ _ _ _ => destruct x eqn:?
  end; cbv beta iota zeta.

Section Workflow.

Variables (w : World) (JSON_stringify : JSValue -> string) (hooks : Hooks).

Lemma runWorkflow_monitored (fuel : nat) (data : FdcFormData) (t : nat)
  (a : App) :
  attestationHash a = None ->
  run_ok (runWorkflow w JSON_stringify hooks fuel data) t a
    {| done := []; verified := false |} (fun _ _ _ => True).
Proof.
  intros Hfresh.
  unfold runWorkflow, executeFdcWorkflow, prepareRequest,
    submitAttestationRequestWithWagmi, transactionSuccessEffect,
    continueWorkflowAfterSubmission, writeErrorEffect.
  cbv beta iota zeta.
  repeat run_step.
Qed.

End Workflow.

Example prerequisites_prepare_proof :
  prerequisites "prepare-proof"
  = Some ["prepare-request"; "submit-request"; "wait-finalization"]
  /\ prerequisites "no-such-step" = None.
Proof. split; reflexivity. Qed.

(** On the friendly world the run goes through the five steps, and its last
    operation is the call of the verification contract. *)
Example friendlyRun_steps :
  stepEvents friendlyRun
  = [("prepare-request", in_progress); ("prepare-request", completed);
     ("submit-request", in_progress); ("submit-request", completed);
     ("wait-finalization", in_progress); ("wait-finalization", in_progress);
     ("wait-finalization", completed);
     ("prepare-proof", in_progress); ("prepare-proof", completed);
     ("verify-data", in_progress); ("verify-data", completed)].
Proof. vm_compute. reflexivity. Qed.

Example friendlyRun_last_operation :
  match rev (filter isOperation friendlyRun) with
  | ev :: _ => isVerifyCall ev
  | [] => false
  end = true.
Proof. vm_compute. reflexivity. Qed.

(** When the wallet rejects the transaction the run stops at the second
    step, which is marked as failed. *)
Example walletRejects_run :
  let run := runWorkflow walletRejects stringifyKind connectedHooks 3
               sampleForm 0 initialApp in
  stepEvents (snd (fst run))
  = [("prepare-request", in_progress); ("prepare-request", completed);
     ("submit-request", in_progress); ("submit-request", error)]
  /\ errorMessage (snd run)
     = Some "Transaction failed: User rejected the request."
  /\ isLoading (snd run) = false.
Proof. vm_compute. repeat split. Qed.

Example friendlyRun_page :
  let page := snd (runWorkflow friendlyWorld stringifyKind connectedHooks 3
                     sampleForm 0 initialApp) in
  map (fun s => (id s, step_status s)) (steps page)
  = [("prepare-request", completed); ("submit-request", completed);
     ("wait-finalization", completed); ("prepare-proof", completed);
     ("verify-data", completed)]
  /\ success page
     = Some "FDC workflow completed successfully! All steps have been executed."
  /\ verificationResult page = Some (JObject [("verified", JBool true)]).
Proof. vm_compute. repeat split. Qed.

(* ================================================================== *)
(** * Further properties *)

(** ** Shortening strings *)

Module JSTextFacts.
Import JSText JSStringFacts.

Lemma length_of_list (l : list ascii) :
  length (string_of_list_ascii l) = List.length l.
Proof. induction l as [|c l IH]; simpl; congruence. Qed.

Lemma length_to_list (s : string) :
  List.length (list_ascii_of_string s) = length s.
Proof. induction s as [|c s IH]; simpl; congruence. Qed.

Lemma of_list_app (l1 l2 : list ascii) :
  string_of_list_ascii (l1 ++ l2)
  = (string_of_list_ascii l1 ++ string_of_list_ascii l2)%string.
Proof. induction l1 as [|c l1 IH]; simpl; congruence. Qed.

Lemma take_drop (n : nat) (s : string) : (take n s ++ drop n s)%string = s.
Proof.
  unfold take, drop. rewrite <- of_list_app, firstn_skipn.
  apply string_of_list_ascii_of_string.
Qed.

Lemma length_take (n : nat) (s : string) : length (take n s) = min n (length s).
Proof. unfold take. now rewrite length_of_list, length_firstn, length_to_list. Qed.

Lemma length_drop (n : nat) (s : string) : length (drop n s) = length s - n.
Proof. unfold drop. now rewrite length_of_list, length_skipn, length_to_list. Qed.

Lemma take_all (n : nat) (s : string) : length s <= n -> take n s = s.
Proof.
  intros H. unfold take. rewrite firstn_all2 by (now rewrite length_to_list).
  apply string_of_list_ascii_of_string.
Qed.

Lemma drop_zero (s : string) : drop 0 s = s.
Proof. unfold drop. simpl. apply string_of_list_ascii_of_string. Qed.

(** [s.slice(0, n)] is the first [n] characters. *)
Lemma slice_prefix (s : string) (n : nat) :
  slice s 0 (Some (Z.of_nat n)) = take n s.
Proof.
  unfold slice, relativeIndex. cbn [Z.ltb Z.compare].
  replace (0 <? 0)%Z with false by reflexivity.
  destruct (Z.of_nat n <? 0)%Z eqn:Hneg; [apply Z.ltb_lt in Hneg; lia|].
  rewrite Z.min_l by lia.
  destruct (Z.ltb_spec 0 (Z.min (Z.of_nat n) (Z.of_nat (length s)))) as [Hpos|Hzero].
  - rewrite Z.sub_0_r. cbn [Z.to_nat]. rewrite drop_zero.
    destruct (Z.min_spec (Z.of_nat n) (Z.of_nat (length s))) as [[Hlt ->]|[Hge ->]].
    + now rewrite Nat2Z.id.
    + rewrite Nat2Z.id. rewrite take_all by lia. symmetry. apply take_all. lia.
  - assert (Hcase : n = 0 \/ length s = 0) by lia.
    destruct Hcase as [-> | Hs].
    + reflexivity.
    + destruct s; [|discriminate Hs]. unfold take. simpl.
      now rewrite firstn_nil.
Qed.

(** [s.slice(-n)] is the last [n] characters when [0 < n <= s.length], and
    the whole string when [n] is 0. *)
Lemma slice_suffix (s : string) (n : nat) :
  n <= length s ->
  slice s (- Z.of_nat n) None = if (n =? 0)%nat then s else drop (length s - n) s.
Proof.
  intros Hn. unfold slice, relativeIndex.
  destruct n as [|n].
  - cbn [Z.of_nat Z.opp Nat.eqb]. replace (0 <? 0)%Z with false by reflexivity.
    rewrite Z.min_l by lia.
    destruct (Z.ltb_spec 0 (Z.of_nat (length s))) as [Hpos|Hzero].
    + rewrite Z.sub_0_r, Nat2Z.id. cbn [Z.to_nat]. rewrite drop_zero.
      now apply take_all.
    + destruct s; [reflexivity | simpl in Hzero; lia].
  - cbn [Nat.eqb].
    destruct (Z.ltb_spec (- Z.of_nat (S n)) 0) as [_|Hge]; [|lia].
    rewrite Z.max_l by lia.
    destruct (Z.ltb_spec (Z.of_nat (length s) + - Z.of_nat (S n))
                (Z.of_nat (length s))) as [_|Hge]; [|lia].
    replace (Z.to_nat (Z.of_nat (length s) + - Z.of_nat (S n)))
      with (length s - S n) by lia.
    apply take_all. rewrite length_drop. lia.
Qed.

End JSTextFacts.

Section Truncate.
Import JSText JSTextFacts JSStringFacts.

Lemma truncateString_long (text : string) (startLength endLength : nat)
  (minLength : Z) :
  (minLength < Z.of_nat (length text))%Z ->
  endLength <= length text ->
  truncateString text (Some (Z.of_nat startLength)) (Some (Z.of_nat endLength))
    (Some minLength)
  = (take startLength text ++ "..."
     ++ (if (endLength =? 0)%nat then text
         else drop (length text - endLength) text))%string.
Proof.
  intros Hlong Hend. unfold truncateString.
  destruct (Z.leb_spec (Z.of_nat (length text)) minLength) as [Hle|_]; [lia|].
  now rewrite slice_prefix, slice_suffix.
Qed.

(** X1.  [truncateAddress] returns an address of at most 12 characters as it
    is, and shortens a longer one to its first 6 characters, three dots and
    its last 4 characters: 13 characters. *)
Theorem truncateAddress_shape (address : string) :
  (length address <= 12 -> truncateAddress address = address)
  /\ (12 < length address ->
      exists head middle tail : string,
        address = (head ++ middle ++ tail)%string
        /\ length head = 6 /\ length tail = 4
        /\ truncateAddress address = (head ++ "..." ++ tail)%string
        /\ length (truncateAddress address) = 13).
Proof.
  unfold truncateAddress. split; intros Hlen.
  - destruct (Nat.leb_spec (length address) 12); [reflexivity | lia].
  - destruct (Nat.leb_spec (length address) 12) as [Hle|_]; [lia|].
    change (Some 6%Z) with (Some (Z.of_nat 6)).
    change (-4)%Z with (- Z.of_nat 4)%Z.
    rewrite (slice_prefix address 6).
    rewrite (slice_suffix address 4) by lia. cbn [Nat.eqb].
    exists (take 6 address),
      (take (length address - 10) (drop 6 address)),
      (drop (length address - 4) address).
    assert (Hhead : length (take 6 address) = 6)
      by (rewrite length_take; lia).
    assert (Htail : length (drop (length address - 4) address) = 4)
      by (rewrite length_drop; lia).
    repeat split; try assumption.
    + rewrite <- (take_drop 6 address) at 1. f_equal.
      rewrite <- (take_drop (length address - 10) (drop 6 address)) at 1.
      f_equal. unfold drop.
      rewrite list_ascii_of_string_of_list_ascii, skipn_skipn.
      f_equal. f_equal. lia.
    + rewrite !length_append, Hhead, Htail. reflexivity.
Qed.

Lemma truncateAddress_shape_witness :
  12 < length "0x48aC463d7975828989331F4De43341627b9c5f1D"
  /\ truncateAddress "0x48aC463d7975828989331F4De43341627b9c5f1D"
     = "0x48aC...5f1D".
Proof.
  split; [simpl; lia|].
  destruct (proj2 (truncateAddress_shape
                     "0x48aC463d7975828989331F4De43341627b9c5f1D"))
    as (head & middle & tail & _ & _ & _ & Hshape & _); [simpl; lia|].
  reflexivity.
Defined.

(** X2.  Called with its default lengths, [truncateString] returns a text of
    at most 20 characters as it is, and turns a longer one into its first 10
    characters, three dots and its last 10 characters: always 23 characters,
    so a text of 21 or 22 characters comes out longer than it went in. *)
Theorem truncateString_default (text : string) :
  (length text <= 20 -> truncateString text None None None = text)
  /\ (20 < length text ->
      truncateString text None None None
      = (take 10 text ++ "..." ++ drop (length text - 10) text)%string
      /\ length (truncateString text None None None) = 23
      /\ (length text < 23 ->
          length text < length (truncateString text None None None))).
Proof.
  split; intros Hlen.
  - unfold truncateString.
    destruct (Z.leb_spec (Z.of_nat (length text)) 20); [reflexivity | lia].
  - assert (Heq : truncateString text None None None
                  = (take 10 text ++ "..."
                     ++ drop (length text - 10) text)%string).
    { change (truncateString text None None None)
        with (truncateString text (Some (Z.of_nat 10)) (Some (Z.of_nat 10))
                (Some 20%Z)).
      rewrite truncateString_long; [reflexivity | lia | lia]. }
    assert (Hlength : length (truncateString text None None None) = 23).
    { rewrite Heq, !length_append, length_take, length_drop.
      change (length "...") with 3. lia. }
    repeat split; try assumption. lia.
Qed.

Lemma truncateString_default_witness :
  20 < length "abcdefghijklmnopqrstu"
  /\ truncateString "abcdefghijklmnopqrstu" None None None
     = "abcdefghij...lmnopqrstu"
  /\ length "abcdefghijklmnopqrstu"
     < length (truncateString "abcdefghijklmnopqrstu" None None None).
Proof.
  split; [simpl; lia|].
  destruct (proj2 (truncateString_default "abcdefghijklmnopqrstu"))
    as (Heq & _ & Hlonger); [simpl; lia|].
  split; [exact Heq | apply Hlonger; simpl; lia].
Defined.

(** X3.  An end length of 0 does not cut the tail off: [text.slice(-0)] is
    the whole text, so the result is the first [startLength] characters,
    three dots, and then the entire text again. *)
Theorem truncateString_end_zero (text : string) (startLength : nat)
  (minLength : Z) (Hlong : (minLength < Z.of_nat (length text))%Z) :
  truncateString text (Some (Z.of_nat startLength)) (Some 0%Z) (Some minLength)
  = (take startLength text ++ "..." ++ text)%string.
Proof.
  change (Some 0%Z) with (Some (Z.of_nat 0)).
  rewrite truncateString_long by (assumption || lia). reflexivity.
Qed.

Lemma truncateString_end_zero_witness :
  (3 < Z.of_nat (length "abcdef"))%Z
  /\ truncateString "abcdef" (Some 2%Z) (Some 0%Z) (Some 3%Z) = "ab...abcdef".
Proof.
  split; [simpl; lia|].
  exact (truncateString_end_zero "abcdef" 2 3 ltac:(simpl; lia)).
Defined.

End Truncate.

(** ** Reading [toHex] backwards *)

Section FromHex.
Import JSString JSStringFacts.

Lemma padEnd_zeros_any (s : string) (n : nat) :
  padEnd s n "0" = (s ++ zeros (n - length s))%string.
Proof.
  destruct (Nat.le_gt_cases (length s) n) as [Hle|Hgt].
  - now apply padEnd_zeros.
  - unfold padEnd. destruct (Nat.leb_spec n (length s)) as [_|Hlt]; [|lia].
    replace (n - length s) with 0 by lia. simpl. now rewrite append_empty.
Qed.

Lemma twoDigits_pair (c : ascii) :
  twoDigits c = true ->
  exists a b : ascii,
    toString16 (charCodeAt c) = String a (String b "")
    /\ (16 * digitValue a + digitValue b =? 0)%N = false
    /\ ascii_of_N (16 * digitValue a + digitValue b) = c.
Proof.
  destruct c as [[] [] [] [] [] [] [] []]; intros H;
    first [ discriminate H
          | eexists _, _; split; [vm_compute; reflexivity|];
            split; vm_compute; reflexivity ].
Qed.

Lemma unhex_zeros (k : nat) : unhex (zeros k) = "".
Proof. destruct k as [|[|k]]; reflexivity. Qed.

Lemma unhex_hexCodes (data : string) (k : nat) :
  allTwoDigits data = true -> unhex (hexCodes data ++ zeros k) = data.
Proof.
  induction data as [|c data IH]; intros Hall.
  - apply unhex_zeros.
  - cbn [allTwoDigits] in Hall. apply andb_true_iff in Hall.
    destruct Hall as [Hc Hall].
    destruct (twoDigits_pair c Hc) as (a & b & Hprint & Hcode & Hback).
    cbn [hexCodes]. rewrite Hprint. cbn [append unhex].
    rewrite Hcode, Hback, IH by assumption. reflexivity.
Qed.

Lemma toHexUnits_loop_codeUnits (data : string) :
  forall result,
    toHexUnits_loop (codeUnits data) result = toHex_loop data result.
Proof.
  induction data as [|c data IH]; intros result; [reflexivity|].
  cbn [codeUnits list_ascii_of_string map toHexUnits_loop toHex_loop].
  apply IH.
Qed.

(** X4.  On strings whose char codes all lie between 16 and 255, the codes
    [toString(16)] prints with exactly two digits, [toHex] loses nothing,
    whatever the length: reading the digits back two by two, up to the
    padding, gives the input, so two such strings with the same [toHex] are
    equal.  The bound is needed on both sides: beyond 255 a code prints with
    more digits, and the one-character string of code 8289 (hexadecimal
    2061) has the same [toHex] as the two characters of codes 32 and 97. *)
Theorem toHex_round_trip (data : string) (Hdata : allTwoDigits data = true) :
  fromHex (toHex data) = data
  /\ (forall other : string,
        allTwoDigits other = true -> toHex other = toHex data -> other = data)
  /\ toHexUnits (codeUnits data) = toHex data
  /\ toHexUnits [8289%N] = toHexUnits [32%N; 97%N].
Proof.
  assert (Hback : forall d, allTwoDigits d = true -> fromHex (toHex d) = d).
  { intros d Hd. unfold toHex. rewrite toHex_loop_hexCodes. cbn [append].
    rewrite padEnd_zeros_any. cbn [fromHex]. now apply unhex_hexCodes. }
  split; [now apply Hback|]. split.
  - intros other Hother Heq.
    rewrite <- (Hback other Hother), Heq. now apply Hback.
  - split; [|reflexivity].
    unfold toHexUnits, toHex. now rewrite toHexUnits_loop_codeUnits.
Qed.

Lemma toHex_round_trip_witness :
  allTwoDigits "ReferencedPaymentNonexistence" = true
  /\ fromHex (toHex "ReferencedPaymentNonexistence")
     = "ReferencedPaymentNonexistence".
Proof.
  split; [reflexivity|].
  exact (proj1 (toHex_round_trip "ReferencedPaymentNonexistence" eq_refl)).
Defined.

(** Control characters print with one digit, and there [toHex] does
    confuse strings. *)
Example toHex_collision :
  let one := String (ascii_of_nat 1) (String (ascii_of_nat 16) "") in
  let other := String (ascii_of_nat 17) (String (ascii_of_nat 0) "") in
  one <> other /\ toHex one = toHex other.
Proof. split; [discriminate | reflexivity]. Qed.

End FromHex.

(* ================================================================== *)
(** ** The status of a response: Data Availability Layer and verifier *)

Section Status.

Variables (w : World).

Lemma ok_successStatus (response : Response) :
  ok response = true <-> successStatus (status response).
Proof.
  unfold ok, successStatus. rewrite andb_true_iff, !Z.leb_le. reflexivity.
Qed.

Lemma postRequestToDALayer_outcome (url : string) (request : JSValue)
  (apiKey : string) (t : nat) :
  postRequestToDALayer w url request apiKey t
  = (match w_fetch w t (daLayerRequest url request apiKey) with
     | Ret response =>
         if ok response then json response
         else Throw (Error ("DA Layer request failed: "
                            ++ JSString.ofZ (status response) ++ " "
                            ++ statusText response))
     | Throw e => Throw e
     | Pending => Pending
     end, [EvFetch (daLayerRequest url request apiKey)]).
Proof.
  unfold postRequestToDALayer, fetch, ask. cbn [bind Monad_L]. unfold bindL.
  destruct (w_fetch w t (daLayerRequest url request apiKey))
    as [response|e|]; try reflexivity.
  destruct (ok response); reflexivity.
Qed.

(** X5.  [postRequestToDALayer] sends one request and accepts every success
    status: with a status from 200 to 299 its outcome is the outcome of
    parsing the body, with any other status it throws 'DA Layer request
    failed: {status} {statusText}'.  The verifier side is stricter: the same
    response with a status from 201 to 299 makes
    [prepareAttestationRequestBase] throw. *)
Theorem postRequestToDALayer_status (url : string) (request : JSValue)
  (apiKey : string) (t : nat) (response : Response)
  (Hanswer : w_fetch w t (daLayerRequest url request apiKey) = Ret response) :
  let run := postRequestToDALayer w url request apiKey t in
  snd run = [EvFetch (daLayerRequest url request apiKey)]
  /\ (successStatus (status response) -> fst run = json response)
  /\ (~ successStatus (status response) ->
      fst run = Throw (Error ("DA Layer request failed: "
                              ++ JSString.ofZ (status response) ++ " "
                              ++ statusText response)))
  /\ (forall (url' apiKey' attestationTypeBase sourceIdBase : string)
             (requestBody : JSValue) (t' : nat),
        w_fetch w t' (attestationFetch url' apiKey' attestationTypeBase
                        sourceIdBase requestBody) = Ret response ->
        successStatus (status response) -> status response <> 200%Z ->
        threw (fst (prepareAttestationRequestBase w url' apiKey'
                      attestationTypeBase sourceIdBase requestBody t')) = true).
Proof.
  intros run. unfold run. rewrite postRequestToDALayer_outcome, Hanswer.
  cbn [fst snd]. split; [reflexivity|]. split; [|split].
  - intros Hok. apply ok_successStatus in Hok. now rewrite Hok.
  - intros Hnot. destruct (ok response) eqn:Hok; [|reflexivity].
    apply ok_successStatus in Hok. contradiction.
  - intros url' apiKey' attestationTypeBase sourceIdBase requestBody t'
      Hfetch _ Hne.
    rewrite prepareAttestationRequestBase_run, Hfetch. cbn [fst].
    destruct (Z.eqb_spec (status response) 200); [contradiction | reflexivity].
Qed.

End Status.

(** A world whose services answer 204 with an empty object. *)
Lemma postRequestToDALayer_status_witness :
  let w := {| w_fetch := fun _ _ =>
                Ret {| status := 204; statusText := "No Content";
                       resp_headers := []; json := Ret (JObject []) |};
              w_getBlock := w_getBlock friendlyWorld;
              w_readContract := w_readContract friendlyWorld;
              w_writeContract := w_writeContract friendlyWorld;
              w_receipt := w_receipt friendlyWorld |} in
  fst (postRequestToDALayer w "/api/proof-request" (JObject []) "key" 0)
  = Ret (JObject [])
  /\ threw (fst (prepareAttestationRequestBase w "https://verifier/" "key"
                   "Payment" "testXRP" (JObject []) 0)) = true.
Proof.
  intros w.
  destruct (postRequestToDALayer_status w "/api/proof-request" (JObject [])
              "key" 0 _ eq_refl) as (_ & Hok & _ & Hstrict).
  split.
  - apply Hok. unfold successStatus. cbn. lia.
  - apply Hstrict; [reflexivity | unfold successStatus; cbn; lia | discriminate].
Defined.

(* ================================================================== *)
(** ** [calculateRoundId] *)

Section RoundId.

Variables (w : World) (receipt : Receipt)
  (addresses : option FdcContractAddresses).

Let call (name : string) : ContractCall := systemsManagerCall addresses name.

Lemma calculateRoundId_run (t : nat) :
  calculateRoundId w receipt addresses t
  = if addressMissing addresses flareSystemsManager then
      (Throw (Error "Flare Systems Manager address not loaded"), [])
    else
      match w_getBlock w t sharedPublicClient (blockNumber receipt) with
      | Ret block =>
          match (first <- w_readContract w (t + 1) sharedPublicClient
                            (call "firstVotingRoundStartTs") ;;
                 JS.BigInt first) with
          | Ret first =>
              match (duration <- w_readContract w (t + 2) sharedPublicClient
                                   (call "votingEpochDurationSeconds") ;;
                     seconds <- JS.BigInt duration ;;
                     JS.bigIntDiv (timestamp block - first) seconds) with
              | Ret quotient =>
                  (_ <- w_readContract w (t + 3) sharedPublicClient
                          (call "getCurrentVotingEpochId") ;;
                   ret (JS.numberOfBigInt quotient),
                   roundCalls addresses receipt)
              | Throw e => (Throw e, firstn 3 (roundCalls addresses receipt))
              | Pending => (Pending, firstn 3 (roundCalls addresses receipt))
              end
          | Throw e => (Throw e, firstn 2 (roundCalls addresses receipt))
          | Pending => (Pending, firstn 2 (roundCalls addresses receipt))
          end
      | Throw e => (Throw e, firstn 1 (roundCalls addresses receipt))
      | Pending => (Pending, firstn 1 (roundCalls addresses receipt))
      end.
Proof.
  unfold calculateRoundId, roundCalls, call.
  destruct (addressMissing addresses flareSystemsManager); [reflexivity|].
  cbn [bind ret Monad_L Monad_Res firstn]. unfold bindL, getBlock, readContract,
    ask, liftRes, bindRes.
  destruct (w_getBlock w t sharedPublicClient (blockNumber receipt))
    as [block|e|]; try reflexivity.
  cbn [List.length].
  destruct (w_readContract w (t + 1) sharedPublicClient _) as [first|e|];
    try reflexivity.
  cbn [List.length]. destruct (JS.BigInt first) as [f|e|]; try reflexivity.
  cbn [List.length app].
  replace (t + 1 + 1 + 0) with (t + 2) by lia.
  destruct (w_readContract w (t + 2) sharedPublicClient _) as [duration|e|];
    try reflexivity.
  cbn [List.length]. destruct (JS.BigInt duration) as [d|e|]; try reflexivity.
  cbn [List.length app].
  destruct (JS.bigIntDiv (timestamp block - f) d) as [roundId|e|];
    try reflexivity.
  cbn [List.length app].
  replace (t + 2 + 1 + 0 + 0) with (t + 3) by lia.
  destruct (w_readContract w (t + 3) sharedPublicClient _); reflexivity.
Qed.

Lemma numberOfBigInt_exact (n : Z) :
  (Z.abs n < 2 ^ 53)%Z -> JS.numberOfBigInt n = n.
Proof.
  intros Hsmall. unfold JS.numberOfBigInt. cbv zeta.
  destruct (Z.leb_spec (Z.log2 (Z.abs n) + 1) 53) as [_|Hbits]; [reflexivity|].
  exfalso.
  destruct (Z.eq_dec (Z.abs n) 0) as [Hzero|Hpos].
  - rewrite Hzero in Hbits. cbn in Hbits. lia.
  - assert (Z.log2 (Z.abs n) < 53)%Z by (apply Z.log2_lt_pow2; lia). lia.
Qed.

(** X6.  When the chain answers, rounds have a positive length and the block
    is not older than the start of the first round, [calculateRoundId] makes
    four calls, for the block, the start of the first round, the length of a
    round and the current round, and returns [Number] of the index of the
    round the block falls in: counted from the start of the first round, in
    rounds of [votingEpochDurationSeconds], that round begins at or before
    the timestamp of the block and ends after it.  Below 2^53 the number
    returned is that index itself. *)
Theorem calculateRoundId_round (t : nat) (block : Block)
  (first duration current : JSValue) (start seconds : Z)
  (Haddress : addressMissing addresses flareSystemsManager = false)
  (Hblock : w_getBlock w t sharedPublicClient (blockNumber receipt) = Ret block)
  (Hfirst : w_readContract w (t + 1) sharedPublicClient
              (call "firstVotingRoundStartTs") = Ret first)
  (Hstart : JS.BigInt first = Ret start)
  (Hduration : w_readContract w (t + 2) sharedPublicClient
                 (call "votingEpochDurationSeconds") = Ret duration)
  (Hseconds : JS.BigInt duration = Ret seconds)
  (Hcurrent : w_readContract w (t + 3) sharedPublicClient
                (call "getCurrentVotingEpochId") = Ret current)
  (Hpositive : (0 < seconds)%Z)
  (Hafter : (start <= timestamp block)%Z) :
  exists index : Z,
    calculateRoundId w receipt addresses t
    = (Ret (JS.numberOfBigInt index), roundCalls addresses receipt)
    /\ (0 <= index)%Z
    /\ (start + index * seconds <= timestamp block
        < start + (index + 1) * seconds)%Z
    /\ ((index < 2 ^ 53)%Z -> JS.numberOfBigInt index = index).
Proof.
  exists ((timestamp block - start) / seconds)%Z.
  rewrite calculateRoundId_run, Haddress, Hblock, Hfirst.
  cbn [bind ret Monad_Res bindRes]. rewrite Hstart, Hduration.
  cbn [bindRes]. rewrite Hseconds. cbn [bindRes]. unfold JS.bigIntDiv.
  destruct (Z.eqb_spec seconds 0) as [Hzero|_]; [lia|].
  rewrite Hcurrent. cbn [bindRes].
  rewrite Z.quot_div_nonneg by lia.
  assert (Hindex : (0 <= (timestamp block - start) / seconds)%Z)
    by (apply Z.div_pos; lia).
  split; [reflexivity|]. split; [exact Hindex|]. split.
  - pose proof (Z.mul_div_le (timestamp block - start) seconds Hpositive).
    pose proof (Z.mul_succ_div_gt (timestamp block - start) seconds Hpositive).
    lia.
  - intros Hsmall. apply numberOfBigInt_exact. lia.
Qed.

(** X7.  [calculateRoundId] fails without a call when the address of the
    systems manager is not loaded; it fails with a [RangeError] after three
    calls, the current round not being read, when the length of a round is
    0; and when the read of the current round fails the call fails with it,
    although that value is only logged and the round was computed. *)
Theorem calculateRoundId_failures (t : nat) :
  (addressMissing addresses flareSystemsManager = true ->
   calculateRoundId w receipt addresses t
   = (Throw (Error "Flare Systems Manager address not loaded"), []))
  /\ (forall (block : Block) (first duration : JSValue) (start : Z),
        addressMissing addresses flareSystemsManager = false ->
        w_getBlock w t sharedPublicClient (blockNumber receipt) = Ret block ->
        w_readContract w (t + 1) sharedPublicClient
          (call "firstVotingRoundStartTs") = Ret first ->
        JS.BigInt first = Ret start ->
        w_readContract w (t + 2) sharedPublicClient
          (call "votingEpochDurationSeconds") = Ret duration ->
        (JS.BigInt duration = Ret 0%Z ->
         calculateRoundId w receipt addresses t
         = (Throw (ErrorObj KRangeError "Division by zero"),
            firstn 3 (roundCalls addresses receipt)))
        /\ (forall (seconds : Z) (e : Thrown),
              JS.BigInt duration = Ret seconds -> seconds <> 0%Z ->
              w_readContract w (t + 3) sharedPublicClient
                (call "getCurrentVotingEpochId") = Throw e ->
              calculateRoundId w receipt addresses t
              = (Throw e, roundCalls addresses receipt))).
Proof.
  split.
  - intros Haddress. now rewrite calculateRoundId_run, Haddress.
  - intros block first duration start Haddress Hblock Hfirst Hstart Hduration.
    rewrite calculateRoundId_run, Haddress, Hblock, Hfirst.
    cbn [bind ret Monad_Res bindRes]. rewrite Hstart, Hduration.
    cbn [bindRes]. split.
    + intros ->. reflexivity.
    + intros seconds e -> Hne Hcurrent. cbn [bindRes]. unfold JS.bigIntDiv.
      destruct (Z.eqb_spec seconds 0) as [Hzero|_]; [contradiction|].
      now rewrite Hcurrent.
Qed.

End RoundId.

Lemma calculateRoundId_round_witness :
  calculateRoundId friendlyWorld {| blockNumber := 77 |}
    (Some sampleAddresses) 0
  = (Ret 10%Z, roundCalls (Some sampleAddresses) {| blockNumber := 77 |})
  /\ exists index : Z,
       calculateRoundId friendlyWorld {| blockNumber := 77 |}
         (Some sampleAddresses) 0
       = (Ret (JS.numberOfBigInt index),
          roundCalls (Some sampleAddresses) {| blockNumber := 77 |})
       /\ (0 <= index)%Z
       /\ (1730000000 + index * 90 <= 1730000900
           < 1730000000 + (index + 1) * 90)%Z
       /\ ((index < 2 ^ 53)%Z -> JS.numberOfBigInt index = index).
Proof.
  split; [reflexivity|].
  exact (calculateRoundId_round friendlyWorld {| blockNumber := 77 |}
           (Some sampleAddresses) 0 {| timestamp := 1730000900 |}
           (JBigInt 1730000000) (JBigInt 90) (JBigInt 11) 1730000000 90
           eq_refl eq_refl eq_refl eq_refl eq_refl eq_refl eq_refl
           eq_refl ltac:(cbn; lia)).
Defined.

(** Above 2^53 [Number] rounds: 2^53 + 1 becomes 2^53. *)
Example numberOfBigInt_rounds :
  JS.numberOfBigInt (2 ^ 53 + 1) = (2 ^ 53)%Z
  /\ JS.numberOfBigInt (2 ^ 53 + 3) = (2 ^ 53 + 4)%Z
  /\ JS.numberOfBigInt (- (2 ^ 53 + 1)) = (- 2 ^ 53)%Z.
Proof. repeat split. Qed.

(** The length of a round is reported as 0. *)
Lemma calculateRoundId_failures_witness :
  let w := {| w_fetch := w_fetch friendlyWorld;
              w_getBlock := w_getBlock friendlyWorld;
              w_readContract := fun _ _ _ => Ret (JBigInt 0);
              w_writeContract := w_writeContract friendlyWorld;
              w_receipt := w_receipt friendlyWorld |} in
  calculateRoundId w {| blockNumber := 77 |} (Some sampleAddresses) 0
  = (Throw (ErrorObj KRangeError "Division by zero"),
     firstn 3 (roundCalls (Some sampleAddresses) {| blockNumber := 77 |})).
Proof.
  intros w.
  destruct (calculateRoundId_failures w {| blockNumber := 77 |}
              (Some sampleAddresses) 0) as [_ Hrest].
  destruct (Hrest {| timestamp := 1730000900 |} (JBigInt 0) (JBigInt 0) 0%Z
              eq_refl eq_refl eq_refl eq_refl eq_refl) as [Hzero _].
  exact (Hzero eq_refl).
Defined.

(* ================================================================== *)
(** ** Failures while polling *)

Section RetrieveFailure.

Variables (w : World) (url : string) (abiEncodedRequest : JSValue)
  (roundId : Z) (apiKey : string).

Let request := proofRequest roundId abiEncodedRequest.
Let req := daLayerRequest url request apiKey.
Let post := postRequestToDALayer w url request apiKey.

Lemma pollDALayer_fails (n : nat) :
  forall (fuel : nat) (proof : JSValue) (t : nat) (e : Thrown),
    n < fuel ->
    hasProof proof = Ret false ->
    (forall i, i < n ->
       exists b, fst (post (t + 1 + 2 * i)) = Ret b /\ hasProof b = Ret false) ->
    inspected (fst (post (t + 1 + 2 * n))) = Throw e ->
    pollDALayer w fuel url request apiKey proof t
    = (Throw e, pollTrace req (S n)).
Proof.
  induction n as [|n IH]; intros fuel proof t e Hfuel Hproof Hbefore Hlast;
    destruct fuel as [|fuel]; try lia;
    rewrite pollDALayer_step, (lacksProof_of_hasProof _ _ Hproof); cbn [negb].
  - replace (t + 1 + 2 * 0) with (t + 1) in Hlast by lia.
    fold request. fold post.
    destruct (fst (post (t + 1))) as [b|e'|]; cbn [inspected] in Hlast.
    + rewrite Hlast. reflexivity.
    + now injection Hlast as ->.
    + discriminate Hlast.
  - destruct (Hbefore 0 ltac:(lia)) as (b & Hb & Hhb).
    replace (t + 1 + 2 * 0) with (t + 1) in Hb by lia.
    fold request. fold post. rewrite Hb, Hhb.
    rewrite (IH fuel b (t + 2) e); try assumption; try lia.
    + reflexivity.
    + intros i Hi. destruct (Hbefore (S i) ltac:(lia)) as (b' & Hb' & Hhb').
      exists b'. split; [|assumption].
      replace (t + 2 + 1 + 2 * i) with (t + 1 + 2 * S i) by lia. assumption.
    + replace (t + 2 + 1 + 2 * n) with (t + 1 + 2 * S n) by lia. assumption.
Qed.

(** X8.  [retrieveDataAndProof] does not go on after a failure: when, after
    [n] answers that lack the proof, a request fails (the network, a status
    that is no success, a body that is no JSON) or its answer is [null], the
    call throws that error at once, after [S n] requests. *)
Theorem retrieveDataAndProof_fails_fast (n fuel t : nat) (e : Thrown)
  (Hfuel : n <= fuel)
  (Hbefore : forall i, i < n ->
     exists b, fst (post (t + 2 + 2 * i)) = Ret b /\ hasProof b = Ret false)
  (Hlast : inspected (fst (post (t + 2 + 2 * n))) = Throw e) :
  retrieveDataAndProof w fuel url abiEncodedRequest roundId apiKey t
  = (Throw e, retrieveTrace req n).
Proof.
  rewrite retrieveDataAndProof_run. fold request. fold post. fold req.
  destruct n as [|n].
  - replace (t + 2 + 2 * 0) with (t + 2) in Hlast by lia.
    destruct (fst (post (t + 2))) as [b|e'|]; cbn [inspected] in Hlast.
    + rewrite Hlast. reflexivity.
    + now injection Hlast as ->.
    + discriminate Hlast.
  - destruct (Hbefore 0 ltac:(lia)) as (b & Hb & Hhb).
    replace (t + 2 + 2 * 0) with (t + 2) in Hb by lia.
    rewrite Hb, Hhb.
    rewrite (pollDALayer_fails n fuel b (t + 3) e); try assumption; try lia.
    + reflexivity.
    + intros i Hi. destruct (Hbefore (S i) ltac:(lia)) as (b' & Hb' & Hhb').
      exists b'. split; [|assumption].
      replace (t + 3 + 1 + 2 * i) with (t + 2 + 2 * S i) by lia. assumption.
    + replace (t + 3 + 1 + 2 * n) with (t + 2 + 2 * S n) by lia. assumption.
Qed.

End RetrieveFailure.

(** The Data Availability Layer answers "not yet" once and then [null]. *)
Lemma retrieveDataAndProof_fails_fast_witness :
  let w := {| w_fetch := fun t _ =>
                if (t <? 4)%nat then Ret (okResponse (JObject []))
                else Ret (okResponse JNull);
              w_getBlock := w_getBlock friendlyWorld;
              w_readContract := w_readContract friendlyWorld;
              w_writeContract := w_writeContract friendlyWorld;
              w_receipt := w_receipt friendlyWorld |} in
  retrieveDataAndProof w 5 "/api/proof-request" (JString "0xabc") 11 "key" 0
  = (Throw (ErrorObj KTypeError
              "Cannot read properties of null (reading 'response')"),
     retrieveTrace (daLayerRequest "/api/proof-request"
                      (proofRequest 11 (JString "0xabc")) "key") 1).
Proof.
  intros w.
  apply (retrieveDataAndProof_fails_fast w "/api/proof-request"
           (JString "0xabc") 11 "key" 1 5 0).
  - lia.
  - intros i Hi. exists (JObject []).
    assert (i = 0) as -> by lia. split; reflexivity.
  - reflexivity.
Defined.

(* ================================================================== *)
(** ** The time spent waiting *)

Lemma totalSleep_app (evs1 evs2 : list Event) :
  totalSleep (evs1 ++ evs2) = (totalSleep evs1 + totalSleep evs2)%Z.
Proof.
  induction evs1 as [|ev evs1 IH]; [reflexivity|].
  destruct ev; cbn [app totalSleep]; rewrite IH; lia.
Qed.

Lemma totalSleep_pollTrace (request : FetchRequest) (k : nat) :
  totalSleep (pollTrace request k) = (10000 * Z.of_nat k)%Z.
Proof.
  induction k as [|k IH]; [reflexivity|].
  cbn [pollTrace totalSleep]. rewrite IH. lia.
Qed.

Lemma totalSleep_retrieveTrace (request : FetchRequest) (k : nat) :
  totalSleep (retrieveTrace request k) = (40000 + 10000 * Z.of_nat k)%Z.
Proof.
  unfold retrieveTrace. cbn [totalSleep]. rewrite totalSleep_pollTrace. lia.
Qed.

Section Waiting.

Variables (w : World) (fuel : nat) (url : string) (abiEncodedRequest : JSValue)
  (roundId : Z) (apiKey : string).

Let body := retrieveDataAndProof w fuel url abiEncodedRequest roundId apiKey.

Lemma retrieveDataAndProof_waits (t : nat) :
  (40000 <= totalSleep (snd (body t)))%Z.
Proof.
  destruct (retrieveDataAndProof_trace w url abiEncodedRequest roundId apiKey
              fuel t) as (k & _ & Htrace).
  unfold body. rewrite Htrace, totalSleep_retrieveTrace. lia.
Qed.

Lemma FailedAttempts_waits (k t : nat) (evs : list Event) :
  FailedAttempts body k t evs -> (60000 * Z.of_nat k <= totalSleep evs)%Z.
Proof.
  induction 1 as [|k t e evs rest Hbody _ IH]; [reflexivity|].
  rewrite totalSleep_app. cbn [totalSleep].
  pose proof (retrieveDataAndProof_waits t) as Hwait.
  rewrite Hbody in Hwait. cbn [snd] in Hwait. lia.
Qed.

(** X9.  What [retrieveDataAndProofWithRetry] costs in waiting: a call that
    returns a value has slept at least 40000 ms, and a call that throws has
    slept at least 60000 ms for each of its attempts, 600000 ms when the
    number of attempts is left out. *)
Theorem retrieveDataAndProofWithRetry_waits (attempts : option Z) (t : nat) :
  let limit := match attempts with Some n => n | None => 10%Z end in
  let run := retrieveDataAndProofWithRetry w fuel url abiEncodedRequest roundId
               apiKey attempts t in
  (forall v : JSValue, fst run = Ret v -> (40000 <= totalSleep (snd run))%Z)
  /\ (threw (fst run) = true ->
      (60000 * Z.max 0 limit <= totalSleep (snd run))%Z).
Proof.
  intros limit run.
  destruct (retryLoop_run w fuel url abiEncodedRequest roundId apiKey limit
              (Z.to_nat limit) t) as (k & evs & Hfailed & Hrun).
  pose proof (FailedAttempts_waits k t evs Hfailed) as Hwait.
  assert (Hfold : run = retryLoop w (Z.to_nat limit) limit fuel url
                          abiEncodedRequest roundId apiKey t) by reflexivity.
  rewrite Hfold.
  destruct Hrun as [[Hk Hrun] | [Hk (r & evs' & Hlast & Hr & Hrun)]];
    rewrite Hrun; cbn [fst snd]; split.
  - discriminate.
  - intros _. lia.
  - intros v _. rewrite totalSleep_app.
    pose proof (retrieveDataAndProof_waits (t + List.length evs)) as Hbody.
    fold body in Hlast. rewrite Hlast in Hbody. cbn [snd] in Hbody. lia.
  - intros Hthrew. rewrite Hthrew in Hr. discriminate Hr.
Qed.

End Waiting.

Lemma retrieveDataAndProofWithRetry_waits_witness :
  let run := retrieveDataAndProofWithRetry daLayerDown 0
               FDC_CONSTANTS.DA_LAYER_API_URL (JString "0xabc") 11
               FDC_CONSTANTS.DA_LAYER_API_KEY None 0 in
  threw (fst run) = true /\ (600000 <= totalSleep (snd run))%Z.
Proof.
  intros run. split; [reflexivity|].
  exact (proj2 (retrieveDataAndProofWithRetry_waits daLayerDown 0
                  FDC_CONSTANTS.DA_LAYER_API_URL (JString "0xabc") 11
                  FDC_CONSTANTS.DA_LAYER_API_KEY None 0) eq_refl).
Defined.

(* ================================================================== *)
(** ** What the library functions never do *)

Section EmitsOnly.

Variable p : Event -> bool.

Lemma emitsOnly_liftRes {A} (r : Res A) : emitsOnly p (liftRes r).
Proof. intros t. reflexivity. Qed.

Lemma emitsOnly_ret {A} (a : A) : emitsOnly p (ret a : L A).
Proof. intros t. reflexivity. Qed.

Lemma emitsOnly_throw {A} (e : Thrown) : emitsOnly p (throwL e : L A).
Proof. intros t. reflexivity. Qed.

Lemma emitsOnly_pending {A} : emitsOnly p (pendingL : L A).
Proof. intros t. reflexivity. Qed.

Lemma emitsOnly_pure {A} (m : L A) : pureL m -> emitsOnly p m.
Proof. intros H t. now rewrite H. Qed.

Lemma emitsOnly_ask {A} (ev : Event) (answer : nat -> Res A) :
  p ev = true -> emitsOnly p (ask ev answer).
Proof. intros H t. cbn. now rewrite H. Qed.

Lemma emitsOnly_sleep (ms : Z) : p (EvSleep ms) = true -> emitsOnly p (sleep ms).
Proof. intros H t. cbn. now rewrite H. Qed.

Lemma emitsOnly_bind {A B} (m : L A) (k : A -> L B) :
  emitsOnly p m -> (forall a, emitsOnly p (k a)) -> emitsOnly p (x <- m ;; k x).
Proof.
  intros Hm Hk t. cbn [bind Monad_L]. unfold bindL.
  specialize (Hm t). destruct (m t) as [[a|e|] evs]; cbn [snd] in *;
    try assumption.
  specialize (Hk a (t + List.length evs)).
  destruct (k a (t + List.length evs)) as [r evs']. cbn [snd] in *.
  rewrite forallb_app, Hm, Hk. reflexivity.
Qed.

Lemma emitsOnly_tryCatch {A} (m : L A) (h : Thrown -> L A) :
  emitsOnly p m -> (forall e, emitsOnly p (h e)) -> emitsOnly p (tryCatchL m h).
Proof.
  intros Hm Hh t. unfold tryCatchL.
  specialize (Hm t). destruct (m t) as [[a|e|] evs]; cbn [snd] in *;
    try assumption.
  specialize (Hh e (t + List.length evs)).
  destruct (h e (t + List.length evs)) as [r evs']. cbn [snd] in *.
  rewrite forallb_app, Hm, Hh. reflexivity.
Qed.

Lemma emitsOnly_if {A} (b : bool) (m1 m2 : L A) :
  emitsOnly p m1 -> emitsOnly p m2 -> emitsOnly p (if b then m1 else m2).
Proof. now destruct b. Qed.

End EmitsOnly.

Ltac emits_tac :=
  repeat first
    [ assumption
    | apply emitsOnly_liftRes | apply emitsOnly_ret | apply emitsOnly_throw
    | apply emitsOnly_pending
    | apply emitsOnly_sleep; reflexivity
    | apply emitsOnly_ask; reflexivity
    | apply emitsOnly_if
    | apply emitsOnly_tryCatch; [|intro]
    | apply emitsOnly_bind; [|intro] ].

Lemma nonexistenceProofArgument_pure (response proof : JSValue) :
  pureL (nonexistenceProofArgument response proof).
Proof. unfold nonexistenceProofArgument, bigIntField, field. pure_tac. Qed.

Lemma nonexistenceDataArgument_pure (proofData : JSValue) :
  pureL (nonexistenceDataArgument proofData).
Proof. unfold nonexistenceDataArgument, field. pure_tac. Qed.

Section ReadsOnly.

Variable w : World.

Lemma reads_postRequestToDALayer (url : string) (request : JSValue)
  (apiKey : string) : readsOnly (postRequestToDALayer w url request apiKey).
Proof. unfold readsOnly, postRequestToDALayer, fetch. emits_tac. Qed.

Lemma reads_pollDALayer (url : string) (request : JSValue) (apiKey : string)
  (fuel : nat) :
  forall proof : JSValue, readsOnly (pollDALayer w fuel url request apiKey proof).
Proof.
  unfold readsOnly.
  induction fuel as [|fuel IH]; intros proof; cbn [pollDALayer].
  - emits_tac.
  - pose proof (reads_postRequestToDALayer url request apiKey) as Hpost.
    unfold readsOnly in Hpost. emits_tac. apply IH.
Qed.

Lemma reads_retrieveDataAndProof (fuel : nat) (url : string)
  (abiEncodedRequest : JSValue) (roundId : Z) (apiKey : string) :
  readsOnly (retrieveDataAndProof w fuel url abiEncodedRequest roundId apiKey).
Proof.
  unfold retrieveDataAndProof.
  pose proof (reads_postRequestToDALayer url
                (proofRequest roundId abiEncodedRequest) apiKey) as Hpost.
  unfold readsOnly in *. cbv zeta. emits_tac. apply reads_pollDALayer.
Qed.

Lemma reads_retryLoop (attempts : Z) (fuel : nat) (url : string)
  (abiEncodedRequest : JSValue) (roundId : Z) (apiKey : string)
  (remaining : nat) :
  readsOnly (retryLoop w remaining attempts fuel url abiEncodedRequest roundId apiKey).
Proof.
  unfold readsOnly.
  induction remaining as [|remaining IH]; cbn [retryLoop].
  - emits_tac.
  - pose proof (reads_retrieveDataAndProof fuel url abiEncodedRequest roundId
                  apiKey) as Hbody.
    unfold readsOnly in Hbody. emits_tac.
Qed.

Lemma reads_prepareAttestationRequestBase (url apiKey : string)
  (attestationTypeBase sourceIdBase : string) (requestBody : JSValue) :
  readsOnly (prepareAttestationRequestBase w url apiKey attestationTypeBase
           sourceIdBase requestBody).
Proof.
  unfold readsOnly, prepareAttestationRequestBase, fetch. cbv zeta. emits_tac.
Qed.

(** X10.  The functions of [fdcUtils.ts] that retrieve, prepare, compute and
    verify only wait and read: every event they cause is a sleep, an HTTP
    request, the read of a block or the read of a contract.  None of them
    submits a transaction, waits for a receipt or changes a step of the
    page, whatever the outside answers. *)
Theorem library_reads_only :
  (forall fuel url abiEncodedRequest roundId apiKey attempts,
      readsOnly (retrieveDataAndProofWithRetry w fuel url abiEncodedRequest
               roundId apiKey attempts)
      /\ readsOnly (retrievePaymentDataAndProofWithRetry w fuel url
                  abiEncodedRequest roundId apiKey attempts)
      /\ readsOnly (retrieveReferencedPaymentNonexistenceDataAndProofWithRetry w
                  fuel url abiEncodedRequest roundId apiKey attempts))
  /\ (forall receipt addresses, readsOnly (calculateRoundId w receipt addresses))
  /\ (forall abiEncodedRequest addresses,
        readsOnly (getFdcRequestFee w abiEncodedRequest addresses))
  /\ (forall transactionId inUtxo utxo,
        readsOnly (preparePaymentAttestationRequest w transactionId inUtxo utxo))
  /\ (forall data,
        readsOnly (prepareReferencedPaymentNonexistenceAttestationRequest w data))
  /\ (forall proofData addresses,
        readsOnly (verifyPayment w proofData addresses)
        /\ readsOnly (verifyReferencedPaymentNonexistence w proofData addresses)).
Proof.
  split; [|split; [|split; [|split; [|split]]]].
  - intros fuel url abiEncodedRequest roundId apiKey attempts.
    repeat split; apply reads_retryLoop.
  - intros receipt addresses.
    unfold readsOnly, calculateRoundId, getBlock, readContract. emits_tac.
  - intros abiEncodedRequest addresses.
    unfold readsOnly, getFdcRequestFee, readContract. emits_tac.
  - intros transactionId inUtxo utxo.
    apply reads_prepareAttestationRequestBase.
  - intros data. apply reads_prepareAttestationRequestBase.
  - intros proofData addresses. split.
    + unfold readsOnly, verifyPayment, readContract.
      pose proof (emitsOnly_pure isLibraryEvent _
                    (proofDataArgument_pure proofData)).
      emits_tac.
    + unfold readsOnly, verifyReferencedPaymentNonexistence, readContract.
      pose proof (emitsOnly_pure isLibraryEvent _
                    (nonexistenceDataArgument_pure proofData)).
      emits_tac.
Qed.

End ReadsOnly.

Lemma readsOnly_no_write {A} (m : L A) (t : nat) (call : WriteCall) :
  readsOnly m -> ~ In (EvWriteContract call) (snd (m t)).
Proof.
  intros Hreads Hin. specialize (Hreads t).
  rewrite forallb_forall in Hreads. specialize (Hreads _ Hin).
  discriminate Hreads.
Qed.

(* ================================================================== *)
(** ** The two verification functions *)

Section Verification.

Variables (w : World) (proofData : JSValue)
  (addresses : option FdcContractAddresses).

Lemma verifyReferencedPaymentNonexistence_run (t : nat) :
  verifyReferencedPaymentNonexistence w proofData addresses t
  = if addressMissing addresses fdcVerification then
      (Throw (Error "FDC Verification address not loaded"), [])
    else
      match fst (nonexistenceDataArgument proofData 0) with
      | Ret argument =>
          (w_readContract w t sharedPublicClient
             (nonexistenceCall addresses argument),
           [EvReadContract sharedPublicClient
              (nonexistenceCall addresses argument)])
      | Throw e => (Throw e, [])
      | Pending => (Pending, [])
      end.
Proof.
  unfold verifyReferencedPaymentNonexistence.
  destruct (addressMissing addresses fdcVerification); [reflexivity|].
  cbn [bind Monad_L]. unfold bindL at 1.
  rewrite (nonexistenceDataArgument_pure proofData t).
  destruct (fst (nonexistenceDataArgument proofData 0)) as [argument|e|];
    try reflexivity.
  cbn [List.length]. rewrite Nat.add_0_r.
  unfold bindL, readContract, ask.
  destruct (w_readContract w t sharedPublicClient
              (nonexistenceCall addresses argument)); reflexivity.
Qed.

(** X11.  [verifyReferencedPaymentNonexistence] is read-only like its
    sibling: whatever it is given it causes no event, or the single read of
    [verifyReferencedPaymentNonexistence] on the verification contract, and
    then its outcome is the outcome of that read. *)
Theorem verifyReferencedPaymentNonexistence_read_only (t : nat) :
  let run := verifyReferencedPaymentNonexistence w proofData addresses t in
  snd run = []
  \/ exists argument : JSValue,
       fst (nonexistenceDataArgument proofData 0) = Ret argument
       /\ snd run = [EvReadContract sharedPublicClient
                       {| call_address := addressOf addresses fdcVerification;
                          call_abi :=
                            iReferencedPaymentNonexistenceVerificationAbi;
                          functionName := "verifyReferencedPaymentNonexistence";
                          call_args := [argument] |}]
       /\ fst run = w_readContract w t sharedPublicClient
                      (nonexistenceCall addresses argument).
Proof.
  intros run. unfold run. rewrite verifyReferencedPaymentNonexistence_run.
  destruct (addressMissing addresses fdcVerification); [now left|].
  destruct (fst (nonexistenceDataArgument proofData 0)) as [argument|e|];
    [right; exists argument; repeat split | now left | now left].
Qed.

Lemma proofDataArgument_incomplete (response proof : JSValue) :
  JS.getProp proofData "response" = Ret response ->
  JS.getProp proofData "proof" = Ret proof ->
  JS.truthy response && JS.truthy proof = false ->
  fst (proofDataArgument proofData 0)
  = Throw (Error "Proof data is incomplete").
Proof.
  intros Hr Hp Hfalsy. unfold proofDataArgument, field.
  rewrite (bindL_liftRes_ret _ _ _ _ Hr).
  destruct (JS.truthy response) eqn:Htr; cbn [negb].
  - erewrite bindL_ret.
    2:{ rewrite (bindL_liftRes_ret _ _ _ _ Hp). reflexivity. }
    cbn [andb] in Hfalsy. rewrite Hfalsy. reflexivity.
  - reflexivity.
Qed.

Lemma paymentProofArgument_votingRound (fields : list (string * JSValue))
  (proof : JSValue) :
  JS.lookup "votingRound" fields = None ->
  fst (paymentProofArgument (JObject fields) proof 0)
  = Throw (ErrorObj KTypeError "Cannot convert undefined to a BigInt").
Proof.
  intros Hmissing. unfold paymentProofArgument, bigIntField, field.
  cbn [bind ret Monad_L]. unfold bindL, liftRes. cbn [JS.getProp].
  destruct (JS.lookup "attestationType" fields);
    destruct (JS.lookup "sourceId" fields); rewrite Hmissing; reflexivity.
Qed.

(** X12.  Before its contract call [verifyPayment] checks, in this order:
    the verification address, of which the lack gives 'FDC Verification
    address not loaded' even when the proof data is bad too; the presence of
    [response] and [proof], of which the lack gives 'Proof data is
    incomplete'; and every field it converts, so that a response without
    [votingRound], a field the page does not check beforehand, gives a
    [TypeError].  In all three cases no call is made. *)
Theorem verifyPayment_checks (t : nat) :
  (addressMissing addresses fdcVerification = true ->
   verifyPayment w proofData addresses t
   = (Throw (Error "FDC Verification address not loaded"), []))
  /\ (forall response proof : JSValue,
        addressMissing addresses fdcVerification = false ->
        JS.getProp proofData "response" = Ret response ->
        JS.getProp proofData "proof" = Ret proof ->
        (JS.truthy response && JS.truthy proof = false ->
         verifyPayment w proofData addresses t
         = (Throw (Error "Proof data is incomplete"), []))
        /\ (forall fields : list (string * JSValue),
              response = JObject fields ->
              JS.truthy proof = true ->
              JS.lookup "votingRound" fields = None ->
              verifyPayment w proofData addresses t
              = (Throw (ErrorObj KTypeError
                          "Cannot convert undefined to a BigInt"), []))).
Proof.
  split.
  - intros Hmissing. now rewrite verifyPayment_run, Hmissing.
  - intros response proof Haddress Hr Hp. rewrite verifyPayment_run, Haddress.
    split.
    + intros Hfalsy.
      now rewrite (proofDataArgument_incomplete response proof Hr Hp Hfalsy).
    + intros fields -> Hproof Hmissing.
      assert (Harg : fst (proofDataArgument proofData 0)
                     = Throw (ErrorObj KTypeError
                                "Cannot convert undefined to a BigInt")).
      { unfold proofDataArgument, field.
        rewrite (bindL_liftRes_ret _ _ _ _ Hr). cbn [JS.truthy negb].
        erewrite bindL_ret.
        2:{ rewrite (bindL_liftRes_ret _ _ _ _ Hp). reflexivity. }
        rewrite Hproof. cbn [negb List.length fst snd app].
        rewrite (bindL_liftRes_ret _ _ _ _ Hr).
        rewrite (bindL_liftRes_ret _ _ _ _ Hp).
        rewrite (paymentProofArgument_pure (JObject fields) proof (0 + 0)).
        cbn [fst]. now apply paymentProofArgument_votingRound. }
      now rewrite Harg.
Qed.

End Verification.

Lemma verifyPayment_checks_witness :
  checkRequiredFields
    (JObject [("blockNumber", JString "9001");
              ("blockTimestamp", JString "1730000000");
              ("spentAmount", JString "12");
              ("intendedSpentAmount", JString "12");
              ("receivedAmount", JString "10");
              ("intendedReceivedAmount", JString "10")]) requiredFields
  = Ret tt
  /\ verifyPayment friendlyWorld proofWithoutRound (Some sampleAddresses) 0
     = (Throw (ErrorObj KTypeError "Cannot convert undefined to a BigInt"), []).
Proof.
  split; [reflexivity|].
  destruct (verifyPayment_checks friendlyWorld proofWithoutRound
              (Some sampleAddresses) 0) as [_ Hrest].
  destruct (Hrest _ _ eq_refl eq_refl eq_refl) as [_ Hround].
  exact (Hround _ eq_refl eq_refl eq_refl).
Defined.

(* ================================================================== *)
(** ** [prepareRequest] *)

Section PrepareRequest.

Variables (w : World) (JSON_stringify : JSValue -> string).

Lemma prepareRequest_run (transactionId : string) (t : nat) (a : App) :
  let begun := setSteps (map (updateStep "prepare-request" in_progress None None)
                           (steps a)) a in
  let failed e evs :=
    (Throw e : Res JSValue,
     EvStep "prepare-request" in_progress :: evs
     ++ [EvStep "prepare-request" error],
     setSteps (map (updateStep "prepare-request" error None
                      (Some (JS.messageOr e "Unknown error occurred")))
                 (steps begun)) begun) in
  let answered (response : Response) evs :=
    if ok response then
      match json response with
      | Ret data =>
          match JS.getProp data "abiEncodedRequest" with
          | Ret abi =>
              if JS.truthy abi then
                (Ret data,
                 EvStep "prepare-request" in_progress :: evs
                 ++ [EvStep "prepare-request" completed],
                 setSteps
                   (map (updateStep "prepare-request" completed
                           (Some (JObject
                              (JS.setField "requestDetails"
                                 (JObject
                                    [("requestBody", pageRequestBody transactionId);
                                     ("responseBody", data);
                                     ("status", JNumber (status response));
                                     ("headers", JObject
                                        (map (fun h => (fst h, JString (snd h)))
                                           (resp_headers response)))])
                                 (JS.spread data)))) None)
                      (steps begun)) begun)
              else
                failed (Error ("API response missing abiEncodedRequest. Response: "
                               ++ JSON_stringify data)) evs
          | Throw e => failed e evs
          | Pending => (Pending, EvStep "prepare-request" in_progress :: evs, begun)
          end
      | Throw e => failed e evs
      | Pending => (Pending, EvStep "prepare-request" in_progress :: evs, begun)
      end
    else
      failed (Error ("HTTP error! status: " ++ JSString.ofZ (status response)))
        evs in
  prepareRequest w JSON_stringify transactionId t a
  = match w_fetch w (t + 1) (prepareRequestFetch transactionId) with
    | Ret first =>
        if ok first then
          answered first [EvFetch (prepareRequestFetch transactionId)]
        else
          match w_fetch w (t + 2) (prepareResponseFetch transactionId) with
          | Ret second =>
              answered second [EvFetch (prepareRequestFetch transactionId);
                               EvFetch (prepareResponseFetch transactionId)]
          | Throw e =>
              failed e [EvFetch (prepareRequestFetch transactionId);
                        EvFetch (prepareResponseFetch transactionId)]
          | Pending =>
              (Pending,
               [EvStep "prepare-request" in_progress;
                EvFetch (prepareRequestFetch transactionId);
                EvFetch (prepareResponseFetch transactionId)], begun)
          end
    | Throw e => failed e [EvFetch (prepareRequestFetch transactionId)]
    | Pending =>
        (Pending,
         [EvStep "prepare-request" in_progress;
          EvFetch (prepareRequestFetch transactionId)], begun)
    end.
Proof.
  cbv zeta. unfold prepareRequest, tryCatchM.
  cbn [bind ret Monad_M]. unfold bindM at 1. unfold updateStepStatus at 1.
  cbn [List.length]. unfold bindM at 1. unfold liftL at 1. unfold fetch at 1.
  unfold ask at 1.
  fold (pageRequestBody transactionId).
  fold (prepareRequestFetch transactionId).
  fold (prepareResponseFetch transactionId).
  destruct (w_fetch w (t + 1) (prepareRequestFetch transactionId))
    as [first|e|]; try reflexivity.
  cbn [List.length]. unfold bindM at 1.
  destruct (ok first) eqn:Hfirst; cbn [negb].
  - unfold retM at 1. cbn [List.length]. rewrite Hfirst. cbn [negb].
    unfold bindM, liftL, liftRes, field, throwM, updateStepStatus, retM.
    destruct (json first) as [data|e|]; try reflexivity.
    destruct (JS.getProp data "abiEncodedRequest") as [abi|e|]; try reflexivity.
    cbv beta iota delta [liftRes].
    destruct (JS.truthy abi); reflexivity.
  - unfold liftL at 1. unfold fetch at 1. unfold ask at 1.
    replace (t + 1 + 1) with (t + 2) by lia.
    destruct (w_fetch w (t + 2) (prepareResponseFetch transactionId))
      as [second|e|]; try reflexivity.
    cbn [List.length].
    destruct (ok second) eqn:Hsecond; cbn [negb].
    + unfold bindM, liftL, liftRes, field, throwM, updateStepStatus, retM.
      destruct (json second) as [data|e|]; try reflexivity.
      destruct (JS.getProp data "abiEncodedRequest") as [abi|e|];
        try reflexivity.
      cbv beta iota delta [liftRes].
    destruct (JS.truthy abi); reflexivity.
    + reflexivity.
Qed.

End PrepareRequest.

(* ================================================================== *)
(** ** Rules for [ensures] *)

Section EnsuresRules.

Context {A : Type}.
Variables (t : nat) (a : App) (Q : Res A -> list Event -> App -> Prop).

Lemma ensures_ret (x : A) : Q (Ret x) [] a -> ensures (ret x) t a Q.
Proof. exact (fun H => H). Qed.

Lemma ensures_throw (e : Thrown) : Q (Throw e) [] a -> ensures (throwM e) t a Q.
Proof. exact (fun H => H). Qed.

Lemma ensures_bind {B : Type} (m : M B) (k : B -> M A) :
  ensures m t a
    (fun r evs a' =>
       match r with
       | Ret x => forall t', ensures (k x) t' a'
                               (fun r' evs' a'' => Q r' (evs ++ evs') a'')
       | Throw e => Q (Throw e) evs a'
       | Pending => Q Pending evs a'
       end) ->
  ensures (x <- m ;; k x) t a Q.
Proof.
  unfold ensures. cbn [bind Monad_M]. unfold bindM.
  destruct (m t a) as [[[x|e|] evs] a']; cbn [fst snd]; try exact (fun H => H).
  intros H. specialize (H (t + List.length evs)).
  destruct (k x (t + List.length evs) a') as [[r evs'] a'']. exact H.
Qed.

Lemma ensures_tryCatch (m : M A) (h : Thrown -> M A) :
  ensures m t a
    (fun r evs a' =>
       match r with
       | Ret x => Q (Ret x) evs a'
       | Throw e => forall t', ensures (h e) t' a'
                                 (fun r' evs' a'' => Q r' (evs ++ evs') a'')
       | Pending => Q Pending evs a'
       end) ->
  ensures (tryCatchM m h) t a Q.
Proof.
  unfold ensures, tryCatchM.
  destruct (m t a) as [[[x|e|] evs] a']; cbn [fst snd]; try exact (fun H => H).
  intros H. specialize (H (t + List.length evs)).
  destruct (h e (t + List.length evs) a') as [[r evs'] a'']. exact H.
Qed.

Lemma ensures_conseq (m : M A) (P : Res A -> list Event -> App -> Prop) :
  ensures m t a P -> (forall r evs a', P r evs a' -> Q r evs a') ->
  ensures m t a Q.
Proof. unfold ensures. intros H HPQ. apply HPQ, H. Qed.

Lemma ensures_liftL (m : L A) :
  readsOnly m ->
  (forall r evs,
      writeCalls evs = [] -> existsb isErrorMark evs = false -> Q r evs a) ->
  ensures (liftL m) t a Q.
Proof.
  intros Hreads H. unfold ensures, liftL.
  specialize (Hreads t). destruct (m t) as [r evs]. cbn [fst snd] in *.
  apply H.
  - clear - Hreads. induction evs as [|ev evs IH]; [reflexivity|].
    cbn [forallb] in Hreads. apply andb_prop in Hreads as [Hev Hevs].
    destruct ev; try discriminate Hev; cbn [writeCalls]; auto.
  - clear - Hreads. induction evs as [|ev evs IH]; [reflexivity|].
    cbn [forallb] in Hreads. apply andb_prop in Hreads as [Hev Hevs].
    destruct ev; try discriminate Hev; cbn [existsb isErrorMark orb]; auto.
Qed.

End EnsuresRules.

Section EnsuresRulesPage.

Variables (t : nat) (a : App).

Lemma ensures_field (Q : Res JSValue -> list Event -> App -> Prop)
  (v : JSValue) (key : string) :
  (forall r, JS.getProp v key = r -> Q r [] a) ->
  ensures (liftL (field v key)) t a Q.
Proof. intros H. apply H. reflexivity. Qed.

Lemma ensures_modify (Q : Res unit -> list Event -> App -> Prop)
  (f : App -> App) :
  Q (Ret tt) [] (f a) -> ensures (modify f) t a Q.
Proof. exact (fun H => H). Qed.

Lemma ensures_getApp (Q : Res App -> list Event -> App -> Prop) :
  Q (Ret a) [] a -> ensures getApp t a Q.
Proof. exact (fun H => H). Qed.

Lemma ensures_update (Q : Res unit -> list Event -> App -> Prop)
  (stepId : string) (st : StepStatus) (data : option JSValue)
  (err : option string) :
  (forall l, map id l = map id (steps a) ->
             Q (Ret tt) [EvStep stepId st] (setSteps l a)) ->
  ensures (updateStepStatus stepId st data err) t a Q.
Proof.
  intros H. apply H. rewrite map_map. apply map_ext. intros step.
  apply updateStep_keeps.
Qed.

Lemma ensures_requestAttestationAsync
  (Q : Res JSValue -> list Event -> App -> Prop) (w : World) (call : WriteCall) :
  (forall hash, Q (Ret hash) [EvWriteContract call]
                  (setAttestationHash (Some hash)
                     (setWriteError None (setAttestationHash None a)))) ->
  (forall e, Q (Throw e) [EvWriteContract call]
               (setWriteError (Some e)
                  (setWriteError None (setAttestationHash None a)))) ->
  Q Pending [EvWriteContract call]
    (setWriteError None (setAttestationHash None a)) ->
  ensures (requestAttestationAsync w call) t a Q.
Proof.
  intros Hret Hthrow Hpending. unfold ensures, requestAttestationAsync.
  destruct (w_writeContract w t call) as [hash|e|]; cbn [fst snd]; auto.
Qed.

Lemma ensures_waitForTransactionReceipt
  (Q : Res (option Receipt) -> list Event -> App -> Prop) (w : World) :
  (attestationHash a = None -> Q (Ret None) [] a) ->
  (forall hash receipt, attestationHash a = Some hash ->
                        Q (Ret receipt) [EvWaitReceipt hash] a) ->
  ensures (waitForTransactionReceipt w) t a Q.
Proof.
  intros Hnone Hsome. unfold ensures, waitForTransactionReceipt.
  destruct (attestationHash a) as [hash|]; cbn [fst snd]; auto.
Qed.

End EnsuresRulesPage.

Lemma writeCalls_app (evs1 evs2 : list Event) :
  writeCalls (evs1 ++ evs2) = writeCalls evs1 ++ writeCalls evs2.
Proof.
  induction evs1 as [|[] evs1 IH]; cbn [writeCalls app]; congruence.
Qed.

Lemma getProp_truthy (v : JSValue) (key : string) (x : JSValue) :
  JS.getProp v key = Ret x -> JS.truthy x = true -> JS.truthy v = true.
Proof.
  destruct v as [| |b|n|n|s|items|fields]; cbn [JS.getProp JS.truthy];
    try discriminate; try reflexivity;
    try (intros H; injection H as <-; discriminate).
  destruct (key =? "length")%string; intros H; injection H as <-;
    cbn [JS.truthy]; [|discriminate].
  destruct s; [discriminate | reflexivity].
Qed.

Section ReadsMore.

Variable w : World.

Lemma reads_calculateRoundId (receipt : Receipt)
  (addresses : option FdcContractAddresses) :
  readsOnly (calculateRoundId w receipt addresses).
Proof. unfold readsOnly, calculateRoundId, getBlock, readContract. emits_tac. Qed.

Lemma reads_verifyPayment (proofData : JSValue)
  (addresses : option FdcContractAddresses) :
  readsOnly (verifyPayment w proofData addresses).
Proof.
  unfold readsOnly, verifyPayment, readContract.
  pose proof (emitsOnly_pure isLibraryEvent _ (proofDataArgument_pure proofData)).
  emits_tac.
Qed.

Lemma reads_retrievePayment (fuel : nat) (url : string)
  (abiEncodedRequest : JSValue) (roundId : Z) (apiKey : string)
  (attempts : option Z) :
  readsOnly (retrievePaymentDataAndProofWithRetry w fuel url abiEncodedRequest
               roundId apiKey attempts).
Proof.
  unfold retrievePaymentDataAndProofWithRetry, retrieveDataAndProofWithRetry.
  cbv zeta. apply reads_retryLoop.
Qed.

End ReadsMore.

Ltac reads_tac :=
  first [ apply reads_calculateRoundId | apply reads_verifyPayment
        | apply reads_retrievePayment
        | unfold readsOnly, field, fetch, readContract, sleep; emits_tac ].

Ltac app_fields :=
  cbn [steps isLoading errorMessage success currentAttestationData
       currentAttestationStep proofData verificationResult expandedSteps
       attestationHash writeError
       setSteps setIsLoading setErrorMessage setSuccess
       setCurrentAttestationData setCurrentAttestationStep setProofData
       setVerificationResult setExpandedSteps setAttestationHash setWriteError
       truthyData] in *.

Lemma map_id_resetStep (l : list FdcStep) : map id (map resetStep l) = map id l.
Proof. rewrite map_map. reflexivity. Qed.

Ltac ids_tac :=
  repeat match goal with
         | H : map id _ = map id _ |- _ => rewrite H; clear H
         end;
  rewrite ?map_id_resetStep; reflexivity.

Ltac events_tac :=
  repeat rewrite writeCalls_app; repeat rewrite existsb_app;
  repeat match goal with
         | H : writeCalls _ = [] |- _ => rewrite H; clear H
         | H : existsb isErrorMark _ = false |- _ => rewrite H; clear H
         end;
  cbn [writeCalls existsb isErrorMark orb app List.length].

Ltac ensures_step :=
  lazymatch goal with
  | |- forall _, _ => intro
  | |- ensures (bind _ _) _ _ _ => apply ensures_bind
  | |- ensures (tryCatchM _ _) _ _ _ => apply ensures_tryCatch
  | |- ensures (ret _) _ _ _ => apply ensures_ret
  | |- ensures (throwM _) _ _ _ => apply ensures_throw
  | |- ensures (modify _) _ _ _ => apply ensures_modify
  | |- ensures getApp _ _ _ => apply ensures_getApp
  | |- ensures (updateStepStatus _ _ _ _) _ _ _ =>
      apply ensures_update; intros ? ?
  | |- ensures (liftL (field _ _)) _ _ _ =>
      apply ensures_field; intros [?|?|] ?
  | |- ensures (liftL _) _ _ _ =>
      apply ensures_liftL; [reads_tac | intros [?|?|] ? ? ?]
  | |- ensures (requestAttestationAsync _ _) _ _ _ =>
      apply ensures_requestAttestationAsync
  | |- ensures (waitForTransactionReceipt _) _ _ _ =>
      apply ensures_waitForTransactionReceipt
  | |- ensures (if ?b then _ else _) _ _ _ => destruct b eqn:?
  | |- ensures (match ?x with _ => _ end) _ _ _ => destruct x eqn:?
  end; cbv beta iota zeta.

(* ================================================================== *)
(** ** [continueWorkflowAfterSubmission] *)

Section Continuation.

Variables (w : World) (hooks : Hooks).

Lemma continueWorkflowAfterSubmission_spec (fuel : nat)
  (receipt : option Receipt) (t : nat) (a : App) :
  ensures (continueWorkflowAfterSubmission w hooks fuel receipt) t a
    (fun r evs a' =>
       threw r = false
       /\ writeCalls evs = []
       /\ existsb isErrorMark evs = false
       /\ continuationFrame a a'
       /\ (r = Ret tt -> continuationReport a a')).
Proof.
  unfold continueWorkflowAfterSubmission.
  repeat ensures_step.
  all: unfold continuationFrame, continuationReport.
  all: app_fields.
  all: events_tac.
  all: repeat split; try reflexivity; try discriminate; try ids_tac.
  all: try intros _.
  all: first [ left; eexists; reflexivity
             | right; repeat split; eexists; eexists; split; reflexivity ].
Qed.

End Continuation.

Ltac bool_hyps :=
  repeat match goal with
         | H : negb _ = false |- _ => apply negb_false_iff in H
         | H : negb _ = true |- _ => apply negb_true_iff in H
         end.

(* ================================================================== *)
(** ** [executeFdcWorkflow] *)

Section Handler.

Variables (w : World) (JSON_stringify : JSValue -> string) (hooks : Hooks).

Lemma executeFdcWorkflow_spec (data : FdcFormData) (t : nat) (a : App) :
  ensures (executeFdcWorkflow w JSON_stringify hooks data) t a
    (handlerPost hooks a).
Proof.
  unfold executeFdcWorkflow, prepareRequest, submitAttestationRequestWithWagmi.
  destruct (fdcAddresses hooks) as [addresses|] eqn:Haddresses;
    [|apply ensures_modify; repeat split; intros _; eexists; reflexivity].
  repeat ensures_step.
  all: unfold handlerPost; events_tac.
  all: bool_hyps.
  all: (split; [app_fields; ids_tac|]).
  all: try (repeat split; try discriminate; intros _; eexists; reflexivity).
  all: split;
    [ unfold submittedCall; rewrite ?Haddresses; app_fields; repeat split;
      try assumption; try reflexivity;
      eexists; eexists; repeat split; try eassumption; reflexivity
    | unfold afterSubmit; app_fields;
      first [ left; repeat split; eexists; reflexivity
            | right; repeat split; eexists; split; reflexivity
            | repeat split ] ].
Qed.

End Handler.

Lemma getProp_of_truthy (v : JSValue) (key : string) (e : Thrown) :
  JS.truthy v = true -> JS.getProp v key <> Throw e.
Proof.
  destruct v as [| |b|n|n|s|items|fields]; cbn [JS.truthy JS.getProp];
    try discriminate.
  - destruct (key =? "length")%string; discriminate.
  - destruct (key =? "length")%string; discriminate.
  - destruct (JS.lookup key fields); discriminate.
Qed.

(* ================================================================== *)
(** ** The effects and a whole run *)

Section Effects.

Variables (w : World) (JSON_stringify : JSValue -> string) (hooks : Hooks).

Lemma transactionSuccessEffect_spec (fuel : nat) (receipt : option Receipt)
  (t : nat) (a : App) :
  ensures (transactionSuccessEffect w hooks fuel receipt) t a
    (successEffectPost receipt a).
Proof.
  unfold transactionSuccessEffect.
  apply ensures_bind, ensures_getApp. intros t1.
  destruct receipt as [confirmed|];
    [|apply ensures_ret; repeat split; reflexivity].
  destruct (truthyData (currentAttestationData a)) eqn:Htruthy;
    [|apply ensures_ret; unfold successEffectPost; rewrite Htruthy;
      repeat split; reflexivity].
  destruct (currentAttestationData a) as [attestationData|] eqn:Hdata;
    [|discriminate Htruthy].
  cbn [truthyData] in Htruthy.
  apply ensures_bind, ensures_field. intros [abi|e|] Hget;
    [| exfalso; exact (getProp_of_truthy _ _ _ Htruthy Hget)
     | unfold successEffectPost, effectFrame; rewrite Hdata;
       repeat split; discriminate ].
  intros t2. apply ensures_bind, ensures_update. intros l Hl t3.
  apply ensures_bind, ensures_modify. intros t4.
  eapply ensures_conseq; [apply continueWorkflowAfterSubmission_spec|].
  intros r evs a' (Hthrew & Hwrites & _ & Hframe & Hreport).
  destruct Hframe as (Hloading & Hhash & Herror & Hkept & _ & Hids).
  unfold successEffectPost, effectFrame. rewrite Hdata. cbn [truthyData].
  rewrite Htruthy. app_fields.
  split; [assumption|]. split; [exact Hwrites|].
  split; [repeat split; congruence|]. split; [assumption|].
  intros Hret. destruct (Hreport Hret) as [Hstep Hshown].
  split; [exact Hstep|]. exact Hshown.
Qed.

Lemma writeErrorEffect_spec (t : nat) (a : App) :
  ensures writeErrorEffect t a (errorEffectPost a).
Proof.
  unfold writeErrorEffect.
  apply ensures_bind, ensures_getApp. intros t1.
  unfold errorEffectPost, effectFrame.
  destruct (writeError a) as [e|] eqn:Herror;
    [destruct (JS.thrownTruthy e)|].
  - apply ensures_bind, ensures_update. intros l Hl t2.
    apply ensures_modify. app_fields. repeat split. exact Hl.
  - apply ensures_ret. repeat split.
  - apply ensures_ret. repeat split.
Qed.

Lemma errorEffectPost_cases (a : App) (evs : list Event) (a' : App) :
  errorEffectPost a (Ret tt) evs a' ->
  (exists message, errorMessage a' = Some message) \/ (evs = [] /\ a' = a).
Proof.
  intros (_ & _ & _ & _ & Hcase).
  destruct (writeError a) as [e|]; [destruct (JS.thrownTruthy e)|];
    [left; destruct Hcase as [_ ->]; eauto | right; exact Hcase
     | right; exact Hcase].
Qed.

End Effects.

Section Run.

Variables (w : World) (JSON_stringify : JSValue -> string) (hooks : Hooks).

Lemma effects_spec (fuel : nat) (t : nat) (a : App) :
  ensures (receipt <- waitForTransactionReceipt w ;;
           transactionSuccessEffect w hooks fuel receipt ;;;
           writeErrorEffect) t a (effectsPost a).
Proof.
  assert (Hshown : forall (receipt : option Receipt) (a1 : App) evs1 a2 evs2 a3,
             successEffectPost receipt a1 (Ret tt) evs1 a2 ->
             errorEffectPost a2 (Ret tt) evs2 a3 ->
             errorMessage a1 <> None ->
             exists message, errorMessage a3 = Some message).
  { intros receipt a1 evs1 a2 evs2 a3 (_ & _ & _ & Herror & Hreport)
      Hpost Hbefore.
    destruct (errorEffectPost_cases _ _ _ Hpost) as [Hset | [_ ->]];
      [exact Hset|].
    specialize (Hreport eq_refl).
    assert (Hcases : continuationReport a1 a2 \/ a2 = a1).
    { destruct receipt; [destruct (truthyData _)|]; tauto. }
    destruct Hcases as [[_ [Hmessage | (_ & Hsame & _)]] | ->].
    - exact Hmessage.
    - rewrite Hsame. destruct (errorMessage a1); [eauto | contradiction].
    - destruct (errorMessage a1); [eauto | contradiction]. }
  apply ensures_bind, ensures_waitForTransactionReceipt.
  - intros Hnone t1. apply ensures_bind.
    eapply ensures_conseq; [apply transactionSuccessEffect_spec|].
    intros r2 evs2 a2 Hpost2.
    pose proof Hpost2 as (Hthrew2 & Hwrites2 & Hframe2 & Herror2 & Hreport2).
    destruct r2 as [[]|e|]; [|discriminate Hthrew2|].
    + intros t2. eapply ensures_conseq; [apply writeErrorEffect_spec|].
      intros r3 evs3 a3 Hpost3.
      pose proof Hpost3 as (-> & Hwrites3 & Hframe3 & Hsuccess3 & Hcase3).
      unfold effectsPost, effectFrame in *. cbn [app].
      rewrite writeCalls_app, Hwrites2, Hwrites3.
      split; [reflexivity|]. split; [reflexivity|].
      split; [intuition congruence|]. intros _. split.
      * exact (Hshown _ _ _ _ _ _ Hpost2 Hpost3).
      * intros hash Hhash. congruence.
    + unfold effectsPost, effectFrame in *. cbn [app].
      split; [reflexivity|]. split; [assumption|].
      split; [assumption|]. discriminate.
  - intros hash receipt Hhash t1. apply ensures_bind.
    eapply ensures_conseq; [apply transactionSuccessEffect_spec|].
    intros r2 evs2 a2 Hpost2.
    pose proof Hpost2 as (Hthrew2 & Hwrites2 & Hframe2 & Herror2 & Hreport2).
    destruct r2 as [[]|e|]; [|discriminate Hthrew2|].
    + intros t2. eapply ensures_conseq; [apply writeErrorEffect_spec|].
      intros r3 evs3 a3 Hpost3.
      pose proof Hpost3 as (-> & Hwrites3 & Hframe3 & Hsuccess3 & Hcase3).
      unfold effectsPost, effectFrame in *.
      rewrite !writeCalls_app, Hwrites2, Hwrites3.
      split; [reflexivity|]. split; [reflexivity|].
      split; [intuition congruence|]. intros _. split.
      * exact (Hshown _ _ _ _ _ _ Hpost2 Hpost3).
      * intros hash' Hhash' Htruthy.
        assert (hash' = hash) as -> by congruence.
        destruct (errorEffectPost_cases _ _ _ Hpost3) as [Hset | [-> ->]];
          [left; exact Hset|].
        specialize (Hreport2 eq_refl). rewrite Htruthy in Hreport2.
        destruct receipt as [confirmed|].
        -- destruct Hreport2 as [_ [Hmessage | (Hsuccess & _)]];
             [left; exact Hmessage | right; left; exact Hsuccess].
        -- destruct Hreport2 as [_ ->]. right; right. reflexivity.
    + unfold effectsPost, effectFrame in *.
      rewrite !writeCalls_app, Hwrites2.
      split; [reflexivity|]. split; [reflexivity|].
      split; [assumption|]. discriminate.
Qed.

Lemma runWorkflow_spec (fuel : nat) (data : FdcFormData) (t : nat) (a : App) :
  ensures (runWorkflow w JSON_stringify hooks fuel data) t a (runPost hooks a).
Proof.
  unfold runWorkflow. apply ensures_bind.
  eapply ensures_conseq; [apply executeFdcWorkflow_spec|].
  intros r evs a1 [Hids Hhandler].
  destruct (writeCalls evs) as [|call [|]] eqn:Hwrites; [| |contradiction].
  - destruct Hhandler as (Hthrew & Hhash & Herror & Hmessage).
    destruct r as [[]|e|]; [|discriminate Hthrew|].
    + intros t1. eapply ensures_conseq; [apply effects_spec|].
      intros r2 evs2 a2 (Hthrew2 & Hwrites2 & Hframe2 & Hreport2).
      destruct Hframe2 as (Hloading2 & Hhash2 & Hdata2 & Hids2).
      unfold runPost. rewrite writeCalls_app, Hwrites, Hwrites2.
      split; [assumption|]. split; [congruence|].
      split; [left; split; [reflexivity | congruence]|].
      intros Hret. left. apply (proj1 (Hreport2 Hret)).
      destruct (Hmessage eq_refl) as [message ->]. discriminate.
    + unfold runPost. rewrite Hwrites.
      split; [reflexivity|]. split; [assumption|].
      split; [left; split; [reflexivity | congruence]|].
      discriminate.
  - destruct Hhandler as [Hcall Hafter].
    destruct r as [[]|e|]; [|contradiction|].
    + intros t1. eapply ensures_conseq; [apply effects_spec|].
      intros r2 evs2 a2 (Hthrew2 & Hwrites2 & Hframe2 & Hreport2).
      destruct Hframe2 as (Hloading2 & Hhash2 & Hdata2 & Hids2).
      unfold runPost. rewrite writeCalls_app, Hwrites, Hwrites2.
      assert (Hcall2 : submittedCall hooks a2 call).
      { unfold submittedCall in *. rewrite Hdata2. exact Hcall. }
      split; [assumption|]. split; [congruence|].
      cbn [afterSubmit] in Hafter. split.
      * right. exists call. split; [reflexivity|]. split; [assumption|].
        rewrite Hloading2, Hhash2.
        destruct Hafter as [(Hloading & _) | (_ & Hnone & _)]; auto.
      * intros Hret. destruct (Hreport2 Hret) as [Hshown Hsubmitted].
        destruct Hafter as [(Hloading & [hash Hhash] & _)
                           | (_ & _ & e & Herror & Hshowing)].
        -- destruct Hcall as (_ & _ & _ & _ & attestationData & abi
                               & Hdata & Hget & Htruthy & _).
           assert (Hvalue : truthyData (currentAttestationData a1) = true).
           { rewrite Hdata. exact (getProp_truthy _ _ _ Hget Htruthy). }
           destruct (Hsubmitted hash Hhash Hvalue) as [H | [H | ->]];
             [left; exact H | right; left; exact H |].
           right; right. split; [congruence|].
           exists evs, hash. split; [reflexivity | congruence].
        -- left. apply Hshown. rewrite Hshowing. discriminate.
    + unfold runPost. rewrite Hwrites.
      cbn [afterSubmit] in Hafter. destruct Hafter as (Hloading & _).
      split; [reflexivity|]. split; [assumption|]. split; [|discriminate].
      right. exists call. auto.
Qed.

End Run.

Section PrepareRequestFacts.

Variables (w : World) (JSON_stringify : JSValue -> string).

Lemma prepareRequest_requests (transactionId : string) (t : nat) (a : App) :
  fetchRequests
    (snd (fst (prepareRequest w JSON_stringify transactionId t a)))
  = prepareRequestFetch transactionId
    :: match w_fetch w (t + 1) (prepareRequestFetch transactionId) with
       | Ret first =>
           if ok first then [] else [prepareResponseFetch transactionId]
       | Throw _ | Pending => []
       end.
Proof.
  rewrite prepareRequest_run.
  destruct (w_fetch w (t + 1) (prepareRequestFetch transactionId))
    as [first|e|]; try reflexivity.
  destruct (ok first) eqn:Hfirst.
  - destruct (json first) as [data|e|]; try reflexivity.
    destruct (JS.getProp data "abiEncodedRequest") as [abi|e|];
      try reflexivity.
    destruct (JS.truthy abi); reflexivity.
  - destruct (w_fetch w (t + 2) (prepareResponseFetch transactionId))
      as [second|e|]; try reflexivity.
    destruct (ok second); try reflexivity.
    destruct (json second) as [data|e|]; try reflexivity.
    destruct (JS.getProp data "abiEncodedRequest") as [abi|e|];
      try reflexivity.
    destruct (JS.truthy abi); reflexivity.
Qed.

(** X13.  [prepareRequest] sends its first request to the [prepareRequest]
    endpoint of the verifier.  It sends a second request exactly when the
    first one was answered with a status outside 200..299; that request
    goes to the [prepareResponse] endpoint with the same body.  It sends no
    other request. *)
Theorem prepareRequest_fetches (transactionId : string) (t : nat) (a : App) :
  fetchRequests
    (snd (fst (prepareRequest w JSON_stringify transactionId t a)))
  = prepareRequestFetch transactionId
    :: match w_fetch w (t + 1) (prepareRequestFetch transactionId) with
       | Ret first =>
           if ok first then [] else [prepareResponseFetch transactionId]
       | Throw _ | Pending => []
       end
  /\ req_body (prepareResponseFetch transactionId)
     = req_body (prepareRequestFetch transactionId).
Proof. split; [apply prepareRequest_requests | reflexivity]. Qed.

Lemma prepareRequest_failed_step (e : Thrown) (a : App) (step : FdcStep) :
  In step
    (map (updateStep "prepare-request" error None
            (Some (JS.messageOr e "Unknown error occurred")))
       (map (updateStep "prepare-request" in_progress None None) (steps a))) ->
  id step = "prepare-request" ->
  step_status step = error
  /\ step_data step = None
  /\ step_error step = Some (JS.messageOr e "Unknown error occurred").
Proof.
  rewrite map_map. intros Hin Hid.
  apply in_map_iff in Hin as (old & <- & _).
  destruct (updateStep_keeps "prepare-request" error None
              (Some (JS.messageOr e "Unknown error occurred"))
              (updateStep "prepare-request" in_progress None None old))
    as (Hkept & _).
  cbv zeta in Hkept. rewrite Hid in Hkept.
  rewrite updateStep_same by (symmetry; exact Hkept).
  repeat split.
Qed.

(** X14.  [prepareRequest] returns only data whose [abiEncodedRequest] is
    truthy, after setting the step 'prepare-request' to 'in_progress' and
    then to 'completed'.  When it throws, it has set the step to 'error',
    with the message of the error (or 'Unknown error occurred') as its error
    text and without data.  It sets no other status. *)
Theorem prepareRequest_outcome (transactionId : string) (t : nat) (a : App) :
  let '(r, evs, a') := prepareRequest w JSON_stringify transactionId t a in
  match r with
  | Ret data =>
      stepEvents evs = [("prepare-request", in_progress);
                        ("prepare-request", completed)]
      /\ exists abiEncodedRequest,
           JS.getProp data "abiEncodedRequest" = Ret abiEncodedRequest
           /\ JS.truthy abiEncodedRequest = true
  | Throw e =>
      stepEvents evs = [("prepare-request", in_progress);
                        ("prepare-request", error)]
      /\ forall step, In step (steps a') -> id step = "prepare-request" ->
           step_status step = error
           /\ step_data step = None
           /\ step_error step = Some (JS.messageOr e "Unknown error occurred")
  | Pending => stepEvents evs = [("prepare-request", in_progress)]
  end.
Proof.
  rewrite prepareRequest_run.
  assert (Hfailed : forall e evs,
             stepEvents evs = [] ->
             stepEvents (EvStep "prepare-request" in_progress
                         :: evs ++ [EvStep "prepare-request" error])
             = [("prepare-request", in_progress); ("prepare-request", error)]
             /\ forall step,
                  In step
                    (map (updateStep "prepare-request" error None
                            (Some (JS.messageOr e "Unknown error occurred")))
                       (map (updateStep "prepare-request" in_progress None None)
                          (steps a))) ->
                  id step = "prepare-request" ->
                  step_status step = error
                  /\ step_data step = None
                  /\ step_error step
                     = Some (JS.messageOr e "Unknown error occurred")).
  { intros e evs Hevs. split; [|apply prepareRequest_failed_step].
    cbn [stepEvents]. f_equal.
    induction evs as [|[] evs IH]; cbn [app stepEvents] in *;
      try discriminate Hevs; auto. }
  destruct (w_fetch w (t + 1) (prepareRequestFetch transactionId))
    as [first|e|]; [| apply (Hfailed e [_]); reflexivity | reflexivity].
  destruct (ok first) eqn:Hfirst.
  - destruct (json first) as [data|e|];
      [| apply (Hfailed e [_]); reflexivity | reflexivity].
    destruct (JS.getProp data "abiEncodedRequest") as [abi|e|] eqn:Hget;
      [| apply (Hfailed e [_]); reflexivity | reflexivity].
    destruct (JS.truthy abi) eqn:Habi;
      [| apply (Hfailed _ [_]); reflexivity].
    split; [reflexivity|]. exists abi. split; assumption.
  - destruct (w_fetch w (t + 2) (prepareResponseFetch transactionId))
      as [second|e|]; [| apply (Hfailed e [_; _]); reflexivity | reflexivity].
    destruct (ok second) eqn:Hsecond;
      [| apply (Hfailed _ [_; _]); reflexivity].
    destruct (json second) as [data|e|];
      [| apply (Hfailed e [_; _]); reflexivity | reflexivity].
    destruct (JS.getProp data "abiEncodedRequest") as [abi|e|] eqn:Hget;
      [| apply (Hfailed e [_; _]); reflexivity | reflexivity].
    destruct (JS.truthy abi) eqn:Habi;
      [| apply (Hfailed _ [_; _]); reflexivity].
    split; [reflexivity|]. exists abi. split; assumption.
Qed.

(** X15.  The page's [prepareRequest] and the library's
    [preparePaymentAttestationRequest] start with the same request: the same
    URL, the same method and the same body, in which the attestation type and
    the source id the page writes as constants are [toHex] of 'Payment' and
    of 'testXRP', and the two UTXO indices are '0'.  Only the page adds an
    [accept] header. *)
Theorem preparePaymentAttestationRequest_same_request (transactionId : string)
  (t t' : nat) (a : App) :
  exists (request first : FetchRequest) (rest : list FetchRequest),
    snd (preparePaymentAttestationRequest w transactionId None None t)
    = [EvFetch request]
    /\ fetchRequests
         (snd (fst (prepareRequest w JSON_stringify transactionId t' a)))
       = first :: rest
    /\ req_url request = req_url first
    /\ req_method request = req_method first
    /\ req_body request = req_body first
    /\ req_headers first = ("accept", "*/*") :: req_headers request.
Proof.
  eexists. exists (prepareRequestFetch transactionId). eexists.
  split; [|split; [apply prepareRequest_requests|]].
  - unfold preparePaymentAttestationRequest. cbv zeta.
    rewrite prepareAttestationRequestBase_run. reflexivity.
  - repeat split.
Qed.

End PrepareRequestFacts.

(* ================================================================== *)
(** ** What the page does in a run *)

Section PageOutcome.

Variables (w : World) (JSON_stringify : JSValue -> string) (hooks : Hooks).

(** X16.  [continueWorkflowAfterSubmission] never throws: every error is
    caught.  When it returns, the progress text is cleared and either an
    error message is set, or the success message is set, the error message is
    as it was, and the page holds the proof and the answer of the
    verification, whatever the answer is. *)
Theorem continueWorkflowAfterSubmission_reports (fuel : nat)
  (receipt : option Receipt) (t : nat) (a : App) :
  let '(r, evs, a') :=
    continueWorkflowAfterSubmission w hooks fuel receipt t a in
  threw r = false /\ (r = Ret tt -> continuationReport a a').
Proof.
  pose proof (continueWorkflowAfterSubmission_spec w hooks fuel receipt t a)
    as Hspec.
  unfold ensures in Hspec.
  destruct (continueWorkflowAfterSubmission w hooks fuel receipt t a)
    as [[r evs] a'].
  cbn [fst snd] in Hspec. tauto.
Qed.

(** X17.  [continueWorkflowAfterSubmission] submits no transaction and never
    sets a step to 'error': a step that fails stays as it was set last.  It
    leaves [isLoading], the hash and the error of the write hook, the
    attestation data and the expanded steps as they were, and the steps keep
    their ids and their order. *)
Theorem continueWorkflowAfterSubmission_keeps (fuel : nat)
  (receipt : option Receipt) (t : nat) (a : App) :
  let '(r, evs, a') :=
    continueWorkflowAfterSubmission w hooks fuel receipt t a in
  writeCalls evs = []
  /\ existsb isErrorMark evs = false
  /\ continuationFrame a a'.
Proof.
  pose proof (continueWorkflowAfterSubmission_spec w hooks fuel receipt t a)
    as Hspec.
  unfold ensures in Hspec.
  destruct (continueWorkflowAfterSubmission w hooks fuel receipt t a)
    as [[r evs] a'].
  cbn [fst snd] in Hspec. tauto.
Qed.

(** X18.  [executeFdcWorkflow] never throws and keeps the ids and the order
    of the steps.  It calls the wallet at most once.  When it made no call,
    the hash and the error of the write hook are as they were, and if it
    returned an error message is set.  When it made a call, the wallet
    was connected, the addresses were loaded without error, the call goes to
    the FdcHub address and its one argument is the truthy [abiEncodedRequest]
    of the stored attestation data; then either the hook holds the hash and
    the page stays loading without message, or the hook holds the error, the
    error message is set and loading is over. *)
Theorem executeFdcWorkflow_outcome (data : FdcFormData) (t : nat) (a : App) :
  let '(r, evs, a') := executeFdcWorkflow w JSON_stringify hooks data t a in
  handlerPost hooks a r evs a'.
Proof.
  pose proof (executeFdcWorkflow_spec w JSON_stringify hooks data t a) as Hspec.
  unfold ensures in Hspec.
  destruct (executeFdcWorkflow w JSON_stringify hooks data t a)
    as [[r evs] a'].
  exact Hspec.
Qed.

(** X19.  A run of the workflow, the handler and the effects after it, never
    throws, keeps the ids and the order of the steps and submits at most one
    transaction.  A transaction it submits is the one of
    [executeFdcWorkflow]: sent with the wallet connected and the addresses
    loaded, to the FdcHub address, with the truthy [abiEncodedRequest] of the
    stored attestation data as its one argument.  When none was submitted,
    the hash of the write hook is as it was. *)
Theorem runWorkflow_submits_once (fuel : nat) (data : FdcFormData) (t : nat)
  (a : App) :
  let '(r, evs, a') := runWorkflow w JSON_stringify hooks fuel data t a in
  threw r = false
  /\ map id (steps a') = map id (steps a)
  /\ (List.length (writeCalls evs) <= 1)%nat
  /\ (forall call, In call (writeCalls evs) -> submittedCall hooks a' call)
  /\ (writeCalls evs = [] -> attestationHash a' = attestationHash a).
Proof.
  pose proof (runWorkflow_spec w JSON_stringify hooks fuel data t a) as Hspec.
  unfold ensures in Hspec.
  destruct (runWorkflow w JSON_stringify hooks fuel data t a) as [[r evs] a'].
  destruct Hspec as (Hthrew & Hids & Hwrites & _). cbn [fst snd] in *.
  split; [assumption|]. split; [assumption|].
  destruct Hwrites as [[-> Hhash] | (submitted & -> & Hcall & _)].
  - split; [cbn; lia|]. split; [intros call []|]. intros _. exact Hhash.
  - split; [cbn; lia|]. split; [|discriminate].
    intros call [<- | []]. exact Hcall.
Qed.

(** X20.  When a run of the workflow returns, the page shows an error
    message, or the success message, or it is still loading and the last
    thing that happened is the wait for the receipt of the transaction whose
    hash the hook holds. *)
Theorem runWorkflow_reports (fuel : nat) (data : FdcFormData) (t : nat)
  (a : App) :
  let run := runWorkflow w JSON_stringify hooks fuel data t a in
  fst (fst run) = Ret tt ->
  (exists message, errorMessage (snd run) = Some message)
  \/ success (snd run) = Some successMessage
  \/ (isLoading (snd run) = true
      /\ exists before hash,
           snd (fst run) = before ++ [EvWaitReceipt hash]
           /\ attestationHash (snd run) = Some hash).
Proof.
  pose proof (runWorkflow_spec w JSON_stringify hooks fuel data t a) as Hspec.
  unfold ensures in Hspec. cbv zeta.
  destruct Hspec as (_ & _ & _ & Hreport). exact Hreport.
Qed.

End PageOutcome.

(** The run on which everything succeeds: it prepares, submits, waits and
    verifies, and ends with the success message. *)
Lemma runWorkflow_reports_witness :
  let run := runWorkflow friendlyWorld stringifyKind connectedHooks 3
               sampleForm 0 initialApp in
  fst (fst run) = Ret tt
  /\ List.length (writeCalls (snd (fst run))) = 1
  /\ map fst (stepEvents (snd (fst run)))
     = ["prepare-request"; "prepare-request"; "submit-request";
        "submit-request"; "wait-finalization"; "wait-finalization";
        "wait-finalization"; "prepare-proof"; "prepare-proof"; "verify-data";
        "verify-data"]
  /\ success (snd run) = Some successMessage
  /\ ((exists message, errorMessage (snd run) = Some message)
      \/ success (snd run) = Some successMessage
      \/ (isLoading (snd run) = true
          /\ exists before hash,
               snd (fst run) = before ++ [EvWaitReceipt hash]
               /\ attestationHash (snd run) = Some hash)).
Proof.
  cbv zeta. split; [vm_compute; reflexivity|].
  split; [vm_compute; reflexivity|]. split; [vm_compute; reflexivity|].
  split; [vm_compute; reflexivity|].
  apply (runWorkflow_reports friendlyWorld stringifyKind connectedHooks 3
           sampleForm 0 initialApp).
  vm_compute. reflexivity.
Defined.

(** X21.  The success message does not depend on the answer of the
    verification contract: there is a run in which the contract answers
    [false], the page stores that answer and the success message is set. *)
Theorem success_whatever_the_answer :
  exists (w : World) (a' : App),
    a' = snd (runWorkflow w stringifyKind connectedHooks 3 sampleForm 0
                initialApp)
    /\ verificationResult a' = Some (JObject [("verified", JBool false)])
    /\ success a' = Some successMessage
    /\ errorMessage a' = None.
Proof.
  exists verificationDenies. eexists. split; [reflexivity|].
  vm_compute. repeat split.
Qed.

(* ================================================================== *)
(** ** The page between runs *)

Lemma session_invariant (a : App) :
  Session a -> attestationHash a = None \/ isLoading a = true.
Proof.
  induction 1 as [|a stepId _ IH
                  |a w S hooks hydrated loading fuel data t _ IH Henabled
                  |a w hooks fuel receipt t _ IH
                  |a t _ IH].
  - left. reflexivity.
  - exact IH.
  - assert (Hidle : isLoading a = false).
    { unfold submitDisabled in Henabled.
      destruct (isLoading a); [discriminate Henabled | reflexivity]. }
    destruct IH as [Hnone | Hloading]; [|congruence].
    pose proof (runWorkflow_spec w S hooks fuel data t a) as Hspec.
    unfold ensures in Hspec.
    destruct (runWorkflow w S hooks fuel data t a) as [[r evs] a'].
    cbn [fst snd] in *.
    destruct Hspec as (_ & _ & [[_ Hhash] | (call & _ & _ & Hlocked)] & _).
    + left. congruence.
    + exact Hlocked.
  - pose proof (transactionSuccessEffect_spec w hooks fuel receipt t a)
      as Hspec.
    unfold ensures in Hspec.
    destruct (transactionSuccessEffect w hooks fuel receipt t a)
      as [[r evs] a'].
    cbn [fst snd] in *.
    destruct Hspec as (_ & _ & (Hloading & Hhash & _) & _).
    rewrite Hloading, Hhash. exact IH.
  - pose proof (writeErrorEffect_spec t a) as Hspec.
    unfold ensures in Hspec.
    destruct (writeErrorEffect t a) as [[r evs] a'].
    cbn [fst snd] in *.
    destruct Hspec as (_ & _ & (Hloading & Hhash & _) & _).
    rewrite Hloading, Hhash. exact IH.
Qed.

(** X22.  On every page a user can reach, the write hook holds no hash or
    the page is loading.  So whenever the submit button is enabled the hook
    holds no hash: every run started with the button starts on a page
    without an earlier transaction, and while the hook holds the hash of a
    submitted transaction the button is disabled. *)
Theorem session_submit_fresh (a : App) (Hsession : Session a) :
  (attestationHash a = None \/ isLoading a = true)
  /\ forall hooks isHydrated isLoadingAddresses,
       submitDisabled hooks isHydrated isLoadingAddresses a = false ->
       attestationHash a = None.
Proof.
  pose proof (session_invariant a Hsession) as Hinv.
  split; [exact Hinv|].
  intros hooks hydrated loading Henabled.
  destruct Hinv as [Hnone | Hloading]; [exact Hnone|].
  unfold submitDisabled in Henabled. rewrite Hloading in Henabled.
  discriminate Henabled.
Qed.

Lemma session_submit_fresh_witness :
  let a := snd (runWorkflow friendlyWorld stringifyKind connectedHooks 3
                  sampleForm 0 initialApp) in
  Session a
  /\ attestationHash a = Some (JString "0xfeed")
  /\ (attestationHash a = None \/ isLoading a = true)
  /\ forall hooks isHydrated isLoadingAddresses,
       submitDisabled hooks isHydrated isLoadingAddresses a = false ->
       attestationHash a = None.
Proof.
  cbv zeta.
  assert (Hsession : Session (snd (runWorkflow friendlyWorld stringifyKind
                                     connectedHooks 3 sampleForm 0 initialApp))).
  { apply session_submit with (isHydrated := true) (isLoadingAddresses := false);
      [apply session_start | reflexivity]. }
  split; [exact Hsession|]. split; [vm_compute; reflexivity|].
  exact (session_submit_fresh _ Hsession).
Defined.

(* ================================================================== *)
(** ** The form *)

Lemma fetchRequests_app (evs1 evs2 : list Event) :
  fetchRequests (evs1 ++ evs2) = fetchRequests evs1 ++ fetchRequests evs2.
Proof.
  induction evs1 as [|[] evs1 IH]; cbn [fetchRequests app]; congruence.
Qed.

Lemma bindM_events_prefix {A B} (m : M A) (k : A -> M B) (t : nat) (a : App) :
  exists rest,
    snd (fst ((x <- m ;; k x) t a)) = snd (fst (m t a)) ++ rest.
Proof.
  cbn [bind Monad_M]. unfold bindM.
  destruct (m t a) as [[[x|e|] evs] a']; cbn [fst snd];
    try (exists []; symmetry; apply app_nil_r).
  destruct (k x (t + List.length evs) a') as [[r evs'] a''].
  exists evs'. reflexivity.
Qed.

Lemma tryCatchM_events_prefix {A} (m : M A) (h : Thrown -> M A) (t : nat)
  (a : App) :
  exists rest, snd (fst (tryCatchM m h t a)) = snd (fst (m t a)) ++ rest.
Proof.
  unfold tryCatchM.
  destruct (m t a) as [[[x|e|] evs] a']; cbn [fst snd];
    try (exists []; symmetry; apply app_nil_r).
  destruct (h e (t + List.length evs) a') as [[r evs'] a''].
  exists evs'. reflexivity.
Qed.

Section Form.

Variables (w : World) (JSON_stringify : JSValue -> string) (hooks : Hooks).

Lemma trim_empty : JSString.trim "" = "".
Proof. reflexivity. Qed.

(** X23.  The form accepts a transaction id exactly when the id without the
    white space around it is 64 hexadecimal digits, in either case; the
    check that it is not empty adds nothing.  When the addresses are loaded
    and the wallet is connected, the first request of [executeFdcWorkflow]
    for an accepted id carries that trimmed id, 64 characters long, and not
    the text that was typed. *)
Theorem accepted_transactionId_sent (val : string) (t : nat) (a : App)
  (addresses : FdcContractAddresses)
  (Haccepted : FdcFormDataSchema val = true)
  (Haddresses : fdcAddresses hooks = Some addresses)
  (Hloaded : truthyString (addressError hooks) = false)
  (Hconnected : isConnected hooks = true) :
  (forall typed, FdcFormDataSchema typed
                 = transactionIdPattern (JSString.trim typed))
  /\ length (JSString.trim val) = 64
  /\ forallb isHexDigitIgnoreCase (list_ascii_of_string (JSString.trim val))
     = true
  /\ exists rest,
       fetchRequests
         (snd (fst (executeFdcWorkflow w JSON_stringify hooks
                      {| transactionId := val |} t a)))
       = prepareRequestFetch (JSString.trim val) :: rest.
Proof.
  split; [intros [|c typed]; reflexivity|].
  unfold FdcFormDataSchema, transactionIdPattern in Haccepted.
  apply andb_prop in Haccepted as [Hmin Hpattern].
  apply andb_prop in Hpattern as [Hlength Hdigits].
  apply Nat.eqb_eq in Hlength.
  split; [exact Hlength|]. split; [exact Hdigits|].
  unfold executeFdcWorkflow. rewrite Haddresses, Hloaded, Hconnected.
  cbn [negb bind Monad_M transactionId]. unfold bindM at 1 2 3 4. unfold modify.
  cbn [List.length].
  match goal with
  | |- context [tryCatchM ?m ?h ?t0 ?a0] =>
      destruct (tryCatchM_events_prefix m h t0 a0) as [rest2 Hcatch];
      destruct (tryCatchM m h t0 a0) as [[r evs] a'] eqn:Hrun
  end.
  cbn [fst snd app] in *. rewrite Hcatch.
  match type of Hcatch with
  | context [bindM ?m ?k ?t0 ?a0] =>
      destruct (bindM_events_prefix m k t0 a0) as [rest1 Hbind];
      cbn [bind Monad_M] in Hbind; rewrite Hbind
  end.
  rewrite !fetchRequests_app, prepareRequest_requests.
  eexists. reflexivity.
Qed.

End Form.

Lemma accepted_transactionId_sent_witness :
  FdcFormDataSchema (transactionId sampleForm) = true
  /\ length (transactionId sampleForm) = 66
  /\ length (JSString.trim (transactionId sampleForm)) = 64
  /\ exists rest,
       fetchRequests
         (snd (fst (executeFdcWorkflow friendlyWorld stringifyKind
                      connectedHooks
                      {| transactionId := transactionId sampleForm |} 0
                      initialApp)))
       = prepareRequestFetch (JSString.trim (transactionId sampleForm)) :: rest.
Proof.
  split; [reflexivity|]. split; [reflexivity|].
  destruct (accepted_transactionId_sent friendlyWorld stringifyKind
              connectedHooks (transactionId sampleForm) 0 initialApp
              sampleAddresses eq_refl eq_refl eq_refl eq_refl)
    as (_ & Hlength & _ & Hsent).
  split; [exact Hlength | exact Hsent].
Defined.

(* ================================================================== *)
(** ** The contract addresses *)

Section Contracts.

(** X24.  [extractContractAddress] returns a string as it is, and of an
    object its [address] when that is truthy and the object itself
    otherwise.  It throws only on [undefined] and [null], and then a
    [TypeError]. *)
Theorem extractContractAddress_cases (result : JSValue) :
  (forall s, result = JString s -> extractContractAddress result = Ret result)
  /\ (forall fields,
        result = JObject fields ->
        extractContractAddress result
        = Ret match JS.lookup "address" fields with
              | Some address => if JS.truthy address then address else result
              | None => result
              end)
  /\ (forall e, extractContractAddress result = Throw e ->
                (result = JUndefined \/ result = JNull)
                /\ exists message, e = ErrorObj KTypeError message)
  /\ extractContractAddress result <> Pending.
Proof.
  split; [|split; [|split]].
  - intros s ->. reflexivity.
  - intros fields ->. unfold extractContractAddress. cbn.
    destruct (JS.lookup "address" fields); reflexivity.
  - unfold extractContractAddress.
    destruct result as [| |b|n|n|s|items|fields]; cbn;
      try discriminate;
      try (intros e H; injection H as <-; split; [auto | eexists; reflexivity]).
    destruct (JS.lookup "address" fields); discriminate.
  - unfold extractContractAddress.
    destruct result as [| |b|n|n|s|items|fields]; cbn; try discriminate.
    destruct (JS.lookup "address" fields); discriminate.
Qed.

Lemma getFdcContractAddresses_asked (registry : Registry) :
  exists k, snd (getFdcContractAddresses registry) = firstn k registryProducts.
Proof.
  unfold getFdcContractAddresses.
  destruct (ethereum registry); [|exists 0; reflexivity].
  destruct (getAddress registry "FdcHub"); try (exists 1; reflexivity).
  destruct (getAddress registry "FdcRequestFeeConfigurations");
    try (exists 2; reflexivity).
  destruct (getAddress registry "FlareSystemsManager");
    try (exists 3; reflexivity).
  destruct (getAddress registry "FdcVerification"); exists 4; reflexivity.
Qed.

(** X25.  [getFdcContractAddresses] asks the registry for the four products
    in a fixed order and stops at the first that fails; without
    [window.ethereum] it asks for none and throws the error about MetaMask.
    It returns only when all four were answered, and then each field of the
    result is [extractContractAddress] of the answer for its product. *)
Theorem getFdcContractAddresses_outcome (registry : Registry) :
  let '(r, asked) := getFdcContractAddresses registry in
  (exists k, asked = firstn k registryProducts)
  /\ (ethereum registry = false -> r = Throw metaMaskMissing /\ asked = [])
  /\ (forall product, In product asked -> product <> last asked "" ->
        exists answer, getAddress registry product = Ret answer)
  /\ (forall addresses, r = Ret addresses ->
        asked = registryProducts
        /\ exists a1 a2 a3 a4 hub fee manager verification,
             getAddress registry "FdcHub" = Ret a1
             /\ getAddress registry "FdcRequestFeeConfigurations" = Ret a2
             /\ getAddress registry "FlareSystemsManager" = Ret a3
             /\ getAddress registry "FdcVerification" = Ret a4
             /\ extractContractAddress a1 = Ret hub
             /\ extractContractAddress a2 = Ret fee
             /\ extractContractAddress a3 = Ret manager
             /\ extractContractAddress a4 = Ret verification
             /\ addresses
                = JObject [("fdcHub", hub);
                           ("fdcRequestFeeConfigurations", fee);
                           ("flareSystemsManager", manager);
                           ("fdcVerification", verification)]).
Proof.
  pose proof (getFdcContractAddresses_asked registry) as Hasked.
  unfold getFdcContractAddresses in *.
  destruct (ethereum registry).
  2:{ split; [exact Hasked|]. split; [auto|]. split; [intros ? []|].
      discriminate. }
  destruct (getAddress registry "FdcHub") as [a1|e|] eqn:H1;
    try (split; [exact Hasked|]; split; [discriminate|];
         split; [|discriminate];
         intros product [<- | []] Hlast; exfalso; apply Hlast; reflexivity).
  destruct (getAddress registry "FdcRequestFeeConfigurations")
    as [a2|e|] eqn:H2;
    try (split; [exact Hasked|]; split; [discriminate|];
         split; [|discriminate];
         intros product [<- | [<- | []]] Hlast;
         [eauto | exfalso; apply Hlast; reflexivity]).
  destruct (getAddress registry "FlareSystemsManager") as [a3|e|] eqn:H3;
    try (split; [exact Hasked|]; split; [discriminate|];
         split; [|discriminate];
         intros product [<- | [<- | [<- | []]]] Hlast;
         [eauto | eauto | exfalso; apply Hlast; reflexivity]).
  destruct (getAddress registry "FdcVerification") as [a4|e|] eqn:H4;
    try (split; [exact Hasked|]; split; [discriminate|];
         split; [|discriminate];
         intros product [<- | [<- | [<- | [<- | []]]]] Hlast;
         [eauto | eauto | eauto | exfalso; apply Hlast; reflexivity]).
  split; [exact Hasked|]. split; [discriminate|]. split.
  - intros product [<- | [<- | [<- | [<- | []]]]] Hlast; eauto.
  - intros addresses Hret. split; [reflexivity|].
    exists a1, a2, a3, a4.
    destruct (extractContractAddress a1) as [hub|e|]; try discriminate Hret.
    destruct (extractContractAddress a2) as [fee|e|]; try discriminate Hret.
    destruct (extractContractAddress a3) as [manager|e|];
      try discriminate Hret.
    destruct (extractContractAddress a4) as [verification|e|];
      try discriminate Hret.
    exists hub, fee, manager, verification.
    injection Hret as <-. repeat split.
Qed.

(** X26.  After the hook's fetch on the initial state, loading is over
    exactly when the call settled, and then either the addresses are set and
    the error is not, or the addresses are not set and the error is the fixed
    text 'Failed to fetch FDC contract addresses', whatever was thrown: the
    message about MetaMask never reaches the page.  With a failed fetch
    [executeFdcWorkflow] stops at its first guard, 'FDC contract addresses
    not loaded', and does nothing else. *)
Theorem fetchAddresses_outcome (registry : Registry) :
  let h := fetchAddresses registry initialContractsHook in
  (hook_isLoading h = false <-> fst (getFdcContractAddresses registry) <> Pending)
  /\ (hook_isLoading h = false ->
      (hook_addresses h <> None /\ hook_error h = None)
      \/ (hook_addresses h = None
          /\ hook_error h = Some "Failed to fetch FDC contract addresses"))
  /\ (ethereum registry = false ->
      hook_error h = Some "Failed to fetch FDC contract addresses")
  /\ (forall hooks w JSON_stringify data t a,
        mirrors h hooks -> hook_error h <> None ->
        executeFdcWorkflow w JSON_stringify hooks data t a
        = (Ret tt, [],
           setErrorMessage
             (Some "FDC contract addresses not loaded. Please wait and try again.")
             a)).
Proof.
  cbv zeta. unfold fetchAddresses.
  assert (Hmissing : ethereum registry = false ->
                     fst (getFdcContractAddresses registry)
                     = Throw metaMaskMissing).
  { intros H. unfold getFdcContractAddresses. rewrite H. reflexivity. }
  destruct (fst (getFdcContractAddresses registry)) as [v|e|];
    cbn [hook_isLoading hook_addresses hook_error initialContractsHook].
  - split; [split; [discriminate | reflexivity]|].
    split; [left; split; [discriminate | reflexivity]|].
    split; [intros H; discriminate (Hmissing H)|].
    intros hooks w S data t a _ H. contradiction.
  - split; [split; [discriminate | reflexivity]|].
    split; [right; split; reflexivity|].
    split; [reflexivity|].
    intros hooks w S data t a [Hnone _] _.
    unfold executeFdcWorkflow. rewrite (proj2 Hnone eq_refl). reflexivity.
  - split; [split; [discriminate | intros H; contradiction]|].
    split; [discriminate|].
    split; [intros H; discriminate (Hmissing H)|].
    intros hooks w S data t a _ H. contradiction.
Qed.

End Contracts.

(* ================================================================== *)
(** ** The clipboard *)

Section Clipboard.

Variable writeText : string -> Res unit.

(** X27.  [copyToClipboard] calls [onSuccess], with the text, exactly when
    the text was written and the callback was given.  It calls [onError]
    when writing failed and also when [onSuccess] threw, always with an
    [Error].  It throws only what [onError] throws: without [onError] it
    never throws. *)
Theorem copyToClipboard_callbacks (text : string)
  (onSuccess : option (string -> Res unit))
  (onError : option (Thrown -> Res unit)) :
  let '(r, evs) := copyToClipboard writeText text onSuccess onError in
  hd_error evs = Some (ClipWrite text)
  /\ (In (ClipSuccess text) evs <->
      onSuccess <> None /\ writeText text = Ret tt)
  /\ (forall e, In (ClipError e) evs ->
        exists kind message, e = ErrorObj kind message)
  /\ ((exists e, In (ClipError e) evs) <->
      onError <> None
      /\ (threw (writeText text) = true
          \/ exists f, onSuccess = Some f /\ writeText text = Ret tt
                       /\ threw (f text) = true))
  /\ (forall e, r = Throw e ->
        exists g failure, onError = Some g /\ g failure = Throw e)
  /\ (onError = None -> threw r = false).
Proof.
  assert (Herror : forall err, exists kind message,
             asError err = ErrorObj kind message).
  { intros [kind message|v];
      [exists kind, message | exists KError, "Failed to copy text"];
      reflexivity. }
  unfold copyToClipboard, callback.
  destruct (writeText text) as [[]|err|] eqn:Hwrite;
    [destruct onSuccess as [f|]; [destruct (f text) as [[]|err|] eqn:Hf|]| |];
    try destruct onError as [g|];
    cbn [app hd_error In threw];
    (split; [reflexivity|]).
  all: split;
    [ split;
      [ intros H; repeat (destruct H as [H | H]; try discriminate H);
        try contradiction; try (split; [discriminate | reflexivity])
      | intros [H1 H2]; try discriminate H2;
        try (exfalso; apply H1; reflexivity); auto 6 ] |].
  all: split;
    [ intros e H; repeat (destruct H as [H | H]; try discriminate H);
      try contradiction; injection H as <-; apply Herror |].
  all: split;
    [ split;
      [ intros [e H]; repeat (destruct H as [H | H]; try discriminate H);
        try contradiction; (split; [discriminate|]);
        first [ left; reflexivity
              | right; eexists; rewrite ?Hf; repeat split; reflexivity ]
      | intros [H1 [H2 | (f0 & H2 & H3 & H4)]];
        try discriminate H2; try discriminate H3;
        try (exfalso; apply H1; reflexivity);
        try (injection H2 as <-; rewrite Hf in H4; try discriminate H4);
        eexists; eauto 6 ] |].
  all: split;
    [ intros e H; try discriminate H;
      try (eexists; eexists; split; [reflexivity | exact H])
    | intros H; try discriminate H; reflexivity ].
Qed.

(** X28.  [copyToClipboardWithTimeout] and [copyToClipboardWithBooleanState]
    never throw: a failure to write, or of the setter, is caught and only
    logged.  The setter is called exactly when the text was written, and the
    timer that resets the state is set exactly when the setter returned too,
    with the delay given or 2000 ms. *)
Theorem copyToClipboardWithTimeout_outcome (text : string)
  (setter : option string -> Res unit) (setFlag : bool -> Res unit)
  (timeout : option Z) :
  let delay := match timeout with Some ms => ms | None => 2000%Z end in
  let '(r, evs) := copyToClipboardWithTimeout writeText text setter timeout in
  let '(r', evs') :=
    copyToClipboardWithBooleanState writeText text setFlag timeout in
  threw r = false /\ threw r' = false
  /\ (forall value, In (ClipSet value) evs <->
        value = Some text /\ writeText text = Ret tt)
  /\ (forall value, In (ClipSetBool value) evs' <->
        value = true /\ writeText text = Ret tt)
  /\ (forall ms, In (ClipTimer ms) evs <->
        ms = delay /\ writeText text = Ret tt /\ setter (Some text) = Ret tt)
  /\ (forall ms, In (ClipTimer ms) evs' <->
        ms = delay /\ writeText text = Ret tt /\ setFlag true = Ret tt).
Proof.
  unfold copyToClipboardWithTimeout, copyToClipboardWithBooleanState.
  cbv zeta.
  destruct (writeText text) as [[]|e|];
    [destruct (setter (Some text)) as [[]|e1|];
     destruct (setFlag true) as [[]|e2|]| |];
    cbn [threw In].
  all: split; [reflexivity|]; split; [reflexivity|].
  all: repeat match goal with
              | |- _ /\ _ => split
              | |- forall _, _ <-> _ =>
                  let x := fresh "x" in
                  let H := fresh "H" in
                  intros x; split; intros H;
                  [ repeat (destruct H as [H | H]; try discriminate H);
                    try contradiction; try (injection H as <-);
                    repeat split; reflexivity
                  | decompose [and] H; subst;
                    first [congruence | cbn [In]; auto 6] ]
              end.
Qed.

End Clipboard.

Lemma existsb_filter_false (p : Z -> bool) (l : list Z) :
  existsb p (filter (fun x => negb (p x)) l) = false.
Proof.
  induction l as [|x l IH]; [reflexivity|]. cbn [filter].
  destruct (p x) eqn:Hx; cbn [negb existsb]; [exact IH|].
  rewrite Hx. exact IH.
Qed.

(** X29.  The timer of a copy is never cancelled.  When a text is copied on
    the page and a second text is copied less than 2000 ms later, the second
    shows as copied, and the timer of the first clears it 2000 ms after the
    first copy: it shows for less than 2000 ms.  A single copy, with no
    timer left from before, shows for the full 2000 ms. *)
Theorem copyClick_overlap (writeText : string -> Res unit) (first second : string)
  (t1 t2 : Z) (c : Copied)
  (Hfirst : writeText first = Ret tt) (Hsecond : writeText second = Ret tt)
  (Hclose : (t1 <= t2 < t1 + 2000)%Z) :
  let c1 := copyClick writeText t1 first c in
  let c2 := copyClick writeText t2 second c1 in
  copiedText c2 = Some second
  /\ copiedText (elapse (t1 + 2000) c2) = None
  /\ (timers c = [] ->
      forall now, (t1 <= now < t1 + 2000)%Z ->
                  copiedText (elapse now c1) = Some first).
Proof.
  cbv zeta. unfold copyClick, copyToClipboardWithTimeout.
  rewrite Hfirst, Hsecond. cbn [snd applyClip copiedText timers elapse].
  split; [reflexivity|]. split.
  - rewrite filter_app, !existsb_app. cbn [filter existsb].
    replace (t1 + 2000 <=? t2)%Z with false by (symmetry; apply Z.leb_gt; lia).
    cbn [negb existsb app]. rewrite Z.leb_refl.
    rewrite !orb_true_r. reflexivity.
  - intros Hnone now Hnow. rewrite Hnone. cbn [filter app existsb].
    replace (t1 + 2000 <=? now)%Z with false
      by (symmetry; apply Z.leb_gt; lia).
    reflexivity.
Qed.

Lemma copyClick_overlap_witness :
  let writeText := fun _ : string => Ret tt in
  let c := {| copiedText := None; timers := [] |} in
  (0 <= 1500 < 0 + 2000)%Z
  /\ copiedText (copyClick writeText 1500 "proof"
                   (copyClick writeText 0 "request" c)) = Some "proof"
  /\ copiedText (elapse 2000 (copyClick writeText 1500 "proof"
                                (copyClick writeText 0 "request" c))) = None.
Proof.
  cbv zeta. split; [lia|].
  destruct (copyClick_overlap (fun _ => Ret tt) "request" "proof" 0 1500
              {| copiedText := None; timers := [] |} eq_refl eq_refl
              ltac:(lia)) as (Hshown & Hcleared & _).
  split; [exact Hshown | exact Hcleared].
Defined.

(* ================================================================== *)
(** ** Expanding and collapsing steps *)

(** X30.  [toggleStepExpansion] flips whether the step is expanded and
    leaves every other step as it was; the set stays without duplicates;
    toggling twice gives the same set of expanded steps; nothing else of the
    page changes: the page after it is the page before it with another set
    of expanded steps, so the steps, the loading flag, the messages, the
    attestation data, the progress text, the proof, the verification result
    and the hash and the error of the write hook are as they were. *)
Theorem toggleStepExpansion_flips (stepId : string) (a : App) :
  let a' := toggleStepExpansion stepId a in
  (In stepId (expandedSteps a') <-> ~ In stepId (expandedSteps a))
  /\ (forall other, other <> stepId ->
        (In other (expandedSteps a') <-> In other (expandedSteps a)))
  /\ (NoDup (expandedSteps a) -> NoDup (expandedSteps a'))
  /\ (forall s, In s (expandedSteps (toggleStepExpansion stepId a'))
                <-> In s (expandedSteps a))
  /\ a' = setExpandedSteps (expandedSteps a') a
  /\ steps a' = steps a /\ isLoading a' = isLoading a
  /\ errorMessage a' = errorMessage a /\ success a' = success a
  /\ currentAttestationData a' = currentAttestationData a
  /\ currentAttestationStep a' = currentAttestationStep a
  /\ proofData a' = proofData a
  /\ verificationResult a' = verificationResult a
  /\ attestationHash a' = attestationHash a
  /\ writeError a' = writeError a.
Proof.
  assert (Hhas : forall l, existsb (String.eqb stepId) l = true <-> In stepId l).
  { intros l. rewrite existsb_exists. split.
    - intros (x & Hin & Heq). apply String.eqb_eq in Heq. now subst.
    - intros Hin. exists stepId. split; [exact Hin | apply String.eqb_refl]. }
  assert (Hflip : forall l,
             let l' := if existsb (String.eqb stepId) l
                       then filter (fun s => negb (stepId =? s)%string) l
                       else l ++ [stepId] in
             (In stepId l' <-> ~ In stepId l)
             /\ (forall other, other <> stepId -> (In other l' <-> In other l))
             /\ (NoDup l -> NoDup l')).
  { intros l. cbv zeta.
    destruct (existsb (String.eqb stepId) l) eqn:Hexists.
    - apply Hhas in Hexists. split; [|split].
      + rewrite filter_In, String.eqb_refl. cbn. split; [|contradiction].
        intros [_ H]. discriminate H.
      + intros other Hother. rewrite filter_In. split; [tauto|].
        intros Hin. split; [exact Hin|].
        destruct (String.eqb_spec stepId other); [congruence | reflexivity].
      + apply NoDup_filter.
    - assert (Hnot : ~ In stepId l).
      { intros Hin. apply Hhas in Hin. congruence. }
      split; [|split].
      + rewrite in_app_iff. cbn. tauto.
      + intros other Hother. rewrite in_app_iff. cbn. split; [|tauto].
        intros [H | [H | []]]; [exact H | congruence].
      + intros Hnodup. apply NoDup_app; [exact Hnodup | repeat constructor; auto |].
        intros x Hx [<- | []]. contradiction. }
  cbv zeta. unfold toggleStepExpansion.
  cbn [expandedSteps setExpandedSteps].
  destruct (Hflip (expandedSteps a)) as (Hown & Hothers & Hnodup).
  split; [exact Hown|]. split; [exact Hothers|]. split; [exact Hnodup|].
  split; [|repeat split].
  intros s.
  destruct (Hflip (if existsb (String.eqb stepId) (expandedSteps a)
                   then filter (fun s => negb (stepId =? s)%string)
                          (expandedSteps a)
                   else expandedSteps a ++ [stepId]))
    as (Hown' & Hothers' & _).
  cbv zeta in Hown', Hothers'.
  destruct (String.eqb_spec s stepId) as [-> | Hne].
  - rewrite Hown', Hown.
    destruct (in_dec string_dec stepId (expandedSteps a)); tauto.
  - rewrite (Hothers' s Hne). apply Hothers, Hne.
Qed.

(* ================================================================== *)
(** ** The run on which every outside call succeeds *)

Section ExactRules.

Context {A : Type}.
Variables (t : nat) (a : App) (Q : Res A -> list Event -> App -> Prop).

Lemma ensures_liftL_exact (m : L A) (r : Res A) (evs : list Event) :
  (forall t0, m t0 = (r, evs)) -> Q r evs a -> ensures (liftL m) t a Q.
Proof. intros Hm HQ. unfold ensures, liftL. rewrite Hm. exact HQ. Qed.

Lemma ensures_liftRes_exact (r r' : Res A) :
  r = r' -> Q r' [] a -> ensures (liftL (liftRes r)) t a Q.
Proof. intros -> HQ. exact HQ. Qed.

End ExactRules.

Section ExactRulesPage.

Variables (w : World) (t : nat) (a : App).

Lemma ensures_field_exact (Q : Res JSValue -> list Event -> App -> Prop)
  (v : JSValue) (key : string) (r : Res JSValue) :
  JS.getProp v key = r -> Q r [] a -> ensures (liftL (field v key)) t a Q.
Proof. intros <- HQ. exact HQ. Qed.

Lemma ensures_fetch_exact (Q : Res Response -> list Event -> App -> Prop)
  (request : FetchRequest) (response : Response) :
  (forall t0, w_fetch w t0 request = Ret response) ->
  Q (Ret response) [EvFetch request] a ->
  ensures (liftL (fetch w request)) t a Q.
Proof.
  intros H HQ. apply ensures_liftL_exact with (r := Ret response)
                                               (evs := [EvFetch request]);
    [|exact HQ].
  intros t0. unfold fetch, ask. now rewrite H.
Qed.

Lemma ensures_readContract_exact
  (Q : Res JSValue -> list Event -> App -> Prop)
  (client : Client) (call : ContractCall) (answer : JSValue) :
  (forall t0, w_readContract w t0 client call = Ret answer) ->
  Q (Ret answer) [EvReadContract client call] a ->
  ensures (liftL (readContract w client call)) t a Q.
Proof.
  intros H HQ.
  apply ensures_liftL_exact with (r := Ret answer)
                                 (evs := [EvReadContract client call]);
    [|exact HQ].
  intros t0. unfold readContract, ask. now rewrite H.
Qed.

Lemma ensures_requestAttestationAsync_exact
  (Q : Res JSValue -> list Event -> App -> Prop) (call : WriteCall)
  (hash : JSValue) :
  (forall t0, w_writeContract w t0 call = Ret hash) ->
  Q (Ret hash) [EvWriteContract call]
    (setAttestationHash (Some hash)
       (setWriteError None (setAttestationHash None a))) ->
  ensures (requestAttestationAsync w call) t a Q.
Proof.
  intros H HQ. unfold ensures, requestAttestationAsync. rewrite H. exact HQ.
Qed.

Lemma ensures_waitForTransactionReceipt_exact
  (Q : Res (option Receipt) -> list Event -> App -> Prop) (hash : JSValue)
  (receipt : Receipt) :
  attestationHash a = Some hash ->
  (forall t0, w_receipt w t0 hash = Some receipt) ->
  Q (Ret (Some receipt)) [EvWaitReceipt hash] a ->
  ensures (waitForTransactionReceipt w) t a Q.
Proof.
  intros Hhash H HQ. unfold ensures, waitForTransactionReceipt.
  rewrite Hhash, H. exact HQ.
Qed.

End ExactRulesPage.

Ltac coop_close := solve [exfalso; bool_hyps; congruence].

Ltac page_fields :=
  cbn [steps isLoading errorMessage success currentAttestationData
       currentAttestationStep proofData verificationResult expandedSteps
       attestationHash writeError
       setSteps setIsLoading setErrorMessage setSuccess
       setCurrentAttestationData setCurrentAttestationStep setProofData
       setVerificationResult setExpandedSteps setAttestationHash setWriteError
       truthyData].

Section Complete.

Variables (w : World) (JSON_stringify : JSValue -> string) (hooks : Hooks)
  (data : FdcFormData) (o : Answers).

Hypothesis Hcooperative : cooperative w hooks data o.

Lemma cooperative_calculateRoundId (t0 : nat) :
  calculateRoundId w (confirmed o) (Some (the_addresses o)) t0
  = (Ret (answeredRound o), roundCalls (Some (the_addresses o)) (confirmed o)).
Proof.
  rewrite calculateRoundId_run.
  rewrite (manager_loaded _ _ _ _ Hcooperative).
  rewrite (block_read _ _ _ _ Hcooperative).
  rewrite (first_round_read _ _ _ _ Hcooperative).
  cbn [bind ret Monad_Res bindRes].
  rewrite (first_round_value _ _ _ _ Hcooperative).
  rewrite (duration_read _ _ _ _ Hcooperative).
  cbn [bindRes]. rewrite (duration_value _ _ _ _ Hcooperative).
  cbn [bindRes]. unfold JS.bigIntDiv.
  destruct (Z.eqb_spec (roundSeconds o) 0) as [Hzero|_];
    [destruct (duration_not_zero _ _ _ _ Hcooperative Hzero)|].
  rewrite (current_round_read _ _ _ _ Hcooperative). reflexivity.
Qed.

Lemma cooperative_retrieve (fuel t0 : nat) :
  retrievePaymentDataAndProofWithRetry w fuel FDC_CONSTANTS.DA_LAYER_API_URL
    (encodedRequest o) (answeredRound o) FDC_CONSTANTS.DA_LAYER_API_KEY None t0
  = (Ret (retrievedProof o),
     [EvSleep 30000; EvSleep 10000; EvFetch (proofFetch o)]).
Proof.
  pose proof (proof_answered _ _ _ _ Hcooperative) as Hfetch.
  pose proof (proof_ok _ _ _ _ Hcooperative) as Hok.
  pose proof (proof_json _ _ _ _ Hcooperative) as Hjson.
  pose proof (proof_present _ _ _ _ Hcooperative) as Hhas.
  unfold retrievePaymentDataAndProofWithRetry, retrieveDataAndProofWithRetry.
  cbv zeta. change (Z.to_nat 10) with (S 9). generalize 9. intros rest.
  cbn [retryLoop]. unfold tryCatchL.
  rewrite retrieveDataAndProof_run.
  unfold postRequestToDALayer, fetch, ask. cbn [bind Monad_L]. unfold bindL.
  fold (proofFetch o). rewrite Hfetch, Hok. cbn [negb fst]. unfold liftRes.
  rewrite Hjson. cbn [fst]. rewrite Hhas. reflexivity.
Qed.

Lemma cooperative_verifyPayment (t0 : nat) :
  verifyPayment w (retrievedProof o) (Some (the_addresses o)) t0
  = (Ret (verifyAnswer o),
     [EvReadContract sharedPublicClient
        (verifyPaymentCall (Some (the_addresses o)) (verifyArgument o))]).
Proof.
  pose proof (proof_complete _ _ _ _ Hcooperative) as Hcomplete.
  pose proof (verification_answers _ _ _ _ Hcooperative) as Hanswer.
  rewrite verifyPayment_run.
  rewrite (proj1 Hcomplete).
  rewrite (proofDataArgument_complete _ _ _ Hcomplete), Hanswer. reflexivity.
Qed.

Lemma runWorkflow_complete (fuel t : nat) (a : App) :
  ensures (runWorkflow w JSON_stringify hooks fuel data) t a
    (fun r evs a' =>
       r = Ret tt /\ evs = completeRun hooks data o
       /\ success a' = Some successMessage
       /\ verificationResult a'
          = Some (JObject [("verified", verifyAnswer o)])).
Proof.
  pose proof cooperative_calculateRoundId as Hround.
  pose proof cooperative_retrieve as Hretrieve.
  pose proof cooperative_verifyPayment as Hverify.
  pose proof (hooks_addresses _ _ _ _ Hcooperative) as Haddresses.
  pose proof (hooks_loaded _ _ _ _ Hcooperative) as Hloaded.
  pose proof (wallet_connected _ _ _ _ Hcooperative) as Hconnected.
  pose proof (hub_loaded _ _ _ _ Hcooperative) as Hhub.
  pose proof (verifier_answers _ _ _ _ Hcooperative) as Hprepare.
  pose proof (verifier_ok _ _ _ _ Hcooperative) as Hok.
  pose proof (verifier_json _ _ _ _ Hcooperative) as Hjson.
  pose proof (request_encoded _ _ _ _ Hcooperative) as Hrequest.
  pose proof (request_truthy _ _ _ _ Hcooperative) as Htruthy.
  pose proof (fee_read _ _ _ _ Hcooperative) as Hfee.
  pose proof (wallet_submits _ _ _ _ Hcooperative) as Hwrite.
  pose proof (transaction_confirmed _ _ _ _ Hcooperative) as Hreceipt.
  pose proof (proof_complete _ _ _ _ Hcooperative) as Hcomplete.
  pose proof (proof_response _ _ _ _ Hcooperative) as Hresponse.
  pose proof (proof_body _ _ _ _ Hcooperative) as Hbody.
  pose proof (proof_fields _ _ _ _ Hcooperative) as Hfields.
  destruct Hcomplete as (_ & response & merkle & Hresponse' & Htresponse
                         & Hmerkle & Htmerkle & _).
  assert (response = verifiedResponse o) as -> by congruence.
  pose proof (getProp_truthy _ _ _ Hrequest Htruthy) as Hattestation.
  pose proof (getProp_truthy _ _ _ Hresponse Htresponse) as Hproof.
  unfold runWorkflow, executeFdcWorkflow, prepareRequest,
    submitAttestationRequestWithWagmi, transactionSuccessEffect,
    continueWorkflowAfterSubmission, writeErrorEffect, completeRun.
  unfold feeClient in *.
  rewrite Haddresses, Hloaded, Hconnected.
  destruct (wagmiClientAvailable hooks).
  all: cbv beta iota zeta; cbn [negb].
  all: repeat
    (lazymatch goal with
     | |- forall _, _ => intro
     | |- ensures (bind _ _) _ _ _ => apply ensures_bind
     | |- ensures (tryCatchM _ _) _ _ _ => apply ensures_tryCatch
     | |- ensures (ret _) _ _ _ => apply ensures_ret
     | |- ensures (modify _) _ _ _ => apply ensures_modify
     | |- ensures getApp _ _ _ => apply ensures_getApp
     | |- ensures (updateStepStatus _ _ _ _) _ _ _ =>
         apply ensures_update; intros ? _
     | |- ensures (liftL (field _ _)) _ _ _ =>
         eapply ensures_field_exact; [eassumption|]
     | |- ensures (liftL (liftRes _)) _ _ _ =>
         eapply ensures_liftRes_exact; [eassumption|]
     | |- ensures (liftL (fetch _ _)) _ _ _ =>
         eapply ensures_fetch_exact; [eassumption|]
     | |- ensures (liftL (readContract _ _ _)) _ _ _ =>
         eapply ensures_readContract_exact; [eassumption|]
     | |- ensures (liftL (calculateRoundId _ _ _)) _ _ _ =>
         eapply ensures_liftL_exact; [exact Hround|]
     | |- ensures (liftL (sleep _)) _ _ _ =>
         eapply ensures_liftL_exact; [intro; reflexivity|]
     | |- ensures (liftL (retrievePaymentDataAndProofWithRetry _ _ _ _ _ _ _))
            _ _ _ =>
         eapply ensures_liftL_exact; [exact (Hretrieve fuel)|]
     | |- ensures (liftL (verifyPayment _ _ _)) _ _ _ =>
         eapply ensures_liftL_exact; [exact Hverify|]
     | |- ensures (requestAttestationAsync _ _) _ _ _ =>
         eapply ensures_requestAttestationAsync_exact; [eassumption|]
     | |- ensures (waitForTransactionReceipt _) _ _ _ =>
         eapply ensures_waitForTransactionReceipt_exact;
         [reflexivity | eassumption|]
     | |- ensures (if ?b then _ else _) _ _ _ =>
         destruct b eqn:?; [try coop_close | try coop_close]
     | |- ensures (match ?x with _ => _ end) _ _ _ =>
         destruct x eqn:?; try coop_close
     end; cbv beta iota zeta; page_fields).
  all: repeat split; reflexivity.
Qed.

End Complete.

(* ================================================================== *)
(** ** The order of the workflow *)

Section LinearOrder.

Variables (w : World) (JSON_stringify : JSValue -> string) (hooks : Hooks).

(** C1.  In every run of the workflow on a page without an earlier
    transaction, a step is set to 'in_progress' only after every step before
    it in the order prepare, submit, wait for finalization, fetch proof,
    verify has been set to 'completed'.  The call of the verification
    contract is the last operation: once it is made no other operation
    follows, only changes of the status of steps, and the last step is set to
    'completed' only after it.  And the workflow does run: when every
    outside call succeeds, the run returns with the success message, its
    events are exactly those of the complete run, in which each of the five
    steps is started and completed in turn, and the call of the verification
    contract is the last thing before the last step is completed. *)
Theorem runWorkflow_linear_order (fuel : nat) (data : FdcFormData) (t : nat)
  (a : App) (Hfresh : attestationHash a = None) :
  let run := runWorkflow w JSON_stringify hooks fuel data t a in
  let evs := snd (fst run) in
  startedInOrder evs /\ verifyCallLast evs /\ verifiedBeforeCompleted evs
  /\ forall o : Answers,
       cooperative w hooks data o ->
       fst (fst run) = Ret tt
       /\ evs = completeRun hooks data o
       /\ stepEvents evs = workflowSteps
       /\ (exists before,
             evs = before
                   ++ [EvReadContract sharedPublicClient
                         (verifyPaymentCall (fdcAddresses hooks)
                            (verifyArgument o));
                       EvStep "verify-data" completed])
       /\ success (snd run) = Some successMessage.
Proof.
  cbv zeta.
  destruct (runWorkflow_monitored w JSON_stringify hooks fuel data t a Hfresh)
    as (mon' & Hmon & _).
  split; [|split; [|split]].
  - intros pre post stepId Hsplit.
    destruct (monitor_started _ _ _ pre post stepId Hmon Hsplit)
      as (earlier & Hpre & Hearlier).
    exists earlier. split; [assumption|].
    intros s Hs. destruct (Hearlier s Hs) as [[] | Hin]. exact Hin.
  - intros pre post ev Hsplit Hverify.
    exact (monitor_verify_last _ _ _ pre post ev Hmon Hsplit Hverify).
  - intros pre post Hsplit.
    destruct (monitor_completed _ _ _ pre post Hmon Hsplit) as [Hv | Hev];
      [discriminate Hv | exact Hev].
  - intros o Hcooperative.
    pose proof (runWorkflow_complete w JSON_stringify hooks data o
                  Hcooperative fuel t a) as Hrun.
    unfold ensures in Hrun. destruct Hrun as (Hret & Hevs & Hsuccess & _).
    split; [exact Hret|]. split; [exact Hevs|]. rewrite Hevs.
    split; [reflexivity|]. split; [|exact Hsuccess].
    rewrite (hooks_addresses _ _ _ _ Hcooperative).
    exists (firstn 22 (completeRun hooks data o)). reflexivity.
Qed.

End LinearOrder.

(** A run on which every outside call succeeds, from the initial page. *)
Lemma runWorkflow_linear_order_witness :
  let run := runWorkflow promptWorld stringifyKind connectedHooks 3
               sampleForm 0 initialApp in
  let evs := snd (fst run) in
  attestationHash initialApp = None
  /\ cooperative promptWorld connectedHooks sampleForm promptAnswers
  /\ startedInOrder evs /\ verifyCallLast evs /\ verifiedBeforeCompleted evs
  /\ fst (fst run) = Ret tt
  /\ evs = completeRun connectedHooks sampleForm promptAnswers
  /\ stepEvents evs = workflowSteps
  /\ success (snd run) = Some successMessage.
Proof.
  cbv zeta.
  assert (Hcooperative :
            cooperative promptWorld connectedHooks sampleForm promptAnswers).
  { constructor; try intros t; try reflexivity; try discriminate.
    split; [reflexivity|]. eexists _, _. repeat split; reflexivity. }
  destruct (runWorkflow_linear_order promptWorld stringifyKind connectedHooks
              3 sampleForm 0 initialApp eq_refl)
    as (Hstarted & Hlast & Hcompleted & Hrun).
  destruct (Hrun promptAnswers Hcooperative)
    as (Hret & Hevs & Hsteps & _ & Hsuccess).
  split; [reflexivity|]. split; [exact Hcooperative|].
  split; [exact Hstarted|]. split; [exact Hlast|].
  split; [exact Hcompleted|]. split; [exact Hret|].
  split; [exact Hevs|]. split; [exact Hsteps | exact Hsuccess].
Defined.
